(** * AfyaTrack backend: token service and authorization predicate

    A shallow embedding of the authentication core of the AfyaTrack
    backend.  The repository holds two parallel implementations of the
    same domain:

    - the ORM service ([JwtService], [RefreshToken], [AuthService]:
      utils/jwt.ts, entities/RefreshToken.ts, services/AuthService.ts),
      which keeps a revocation flag on every refresh-token row;
    - the SQL service ([SqlAuthService], [SqlMiddleware]:
      services/auth.service.ts, middleware/auth.ts), which signs its
      refresh tokens and deletes rows instead of revoking them.

    Both are embedded over one small effect monad: a database, a system
    clock that is read at every [new Date()], a source of random bytes,
    a source of fresh row identifiers, and a storage driver that may
    reject a call. *)

From Stdlib Require Import String Ascii List ZArith Bool Lia.
From Stdlib.Strings Require Import Byte.
From Stdlib Require DecimalString DecimalN.
Import ListNotations.

Open Scope string_scope.
Open Scope Z_scope.

Set Implicit Arguments.

(** ** Time *)

(** A JavaScript [Date] is kept as its number of milliseconds since the
    epoch.  SQL timestamps are read on the same scale, as the instants
    they denote: the textual form in which the driver stores and
    compares them is not modelled. *)
Definition Time := Z.

(** ** Effects *)

(** What a call can observe of the outside world.  [clock k] is the
    [k]-th reading of the system clock during the call, [entropy] is
    the stream [crypto.randomBytes] draws from, [uuid k] the [k]-th
    generated identifier, and [fault k] tells whether the storage
    driver rejects the [k]-th statement (and with which message). *)
Record Env := {
  clock   : nat -> Time;
  entropy : nat -> byte;
  uuid    : nat -> string;
  fault   : nat -> option string
}.

(** The [n] bytes the random source yields from position [from] on. *)
Definition draw (env : Env) (from n : nat) : list byte :=
  map (entropy env) (seq from n).

Section Monad.

(** [D] is the database, [E] the type of thrown errors. *)
Variables D E : Type.

Record World := {
  db      : D;
  ticks   : nat;            (* clock readings so far *)
  drawn   : nat;            (* random bytes drawn so far *)
  ids     : nat;            (* identifiers generated so far *)
  stmts   : nat;            (* storage statements issued so far *)
  history : list D          (* the database after each write, latest first *)
}.

Inductive Result (A : Type) :=
| Ok (a : A)
| Throw (e : E).

Definition IO (A : Type) := Env -> World -> Result A * World.

Definition ret {A} (a : A) : IO A := fun _ w => (Ok a, w).

Definition throw {A} (e : E) : IO A := fun _ w => (Throw A e, w).

Definition bind {A B} (m : IO A) (k : A -> IO B) : IO B :=
  fun env w =>
    match m env w with
    | (Ok a, w') => k a env w'
    | (Throw _ e, w') => (Throw B e, w')
    end.

(** [try m handler]: a [try { m } catch (e) { handler e }] block. *)
Definition try {A} (m : IO A) (handler : E -> IO A) : IO A :=
  fun env w =>
    match m env w with
    | (Ok a, w') => (Ok a, w')
    | (Throw _ e, w') => handler e env w'
    end.

(** [new Date()] / [Date.now()] / [CURRENT_TIMESTAMP]. *)
Definition now : IO Time :=
  fun env w =>
    (Ok (clock env (ticks w)),
     {| db := db w; ticks := S (ticks w); drawn := drawn w; ids := ids w;
        stmts := stmts w; history := history w |}).

(** [crypto.randomBytes(n)]. *)
Definition randomBytes (n : nat) : IO (list byte) :=
  fun env w =>
    (Ok (draw env (drawn w) n),
     {| db := db w; ticks := ticks w; drawn := (drawn w + n)%nat; ids := ids w;
        stmts := stmts w; history := history w |}).

(** A generated primary key ([uuidv4()], [PrimaryGeneratedColumn('uuid')]). *)
Definition freshId : IO string :=
  fun env w =>
    (Ok (uuid env (ids w)),
     {| db := db w; ticks := ticks w; drawn := drawn w; ids := S (ids w);
        stmts := stmts w; history := history w |}).

(** One statement sent to the storage driver.  [onErr] wraps the
    driver's message into the error type of the caller.  The
    statement maps the database to a result and a new database; a
    rejected statement changes nothing. *)
Definition statement {A} (onErr : string -> E) (write : bool)
           (f : D -> A * D) : IO A :=
  fun env w =>
    match fault env (stmts w) with
    | Some msg =>
        (Throw A (onErr msg),
         {| db := db w; ticks := ticks w; drawn := drawn w; ids := ids w;
            stmts := S (stmts w); history := history w |})
    | None =>
        let (a, d') := f (db w) in
        (Ok a,
         {| db := d'; ticks := ticks w; drawn := drawn w; ids := ids w;
            stmts := S (stmts w);
            history := if write then d' :: history w else history w |})
    end.

Definition query {A} (onErr : string -> E) (f : D -> A) : IO A :=
  statement onErr false (fun d => (f d, d)).

Definition update {A} (onErr : string -> E) (f : D -> A * D) : IO A :=
  statement onErr true f.

(** Running a call on a database, counters at zero. *)
Definition start (d : D) : World :=
  {| db := d; ticks := 0; drawn := 0; ids := 0; stmts := 0; history := [] |}.

Definition run {A} (m : IO A) (env : Env) (d : D) : Result A * World :=
  m env (start d).

Definition outcome {A} (m : IO A) (env : Env) (d : D) : Result A :=
  fst (run m env d).

(** The database a call leaves behind. *)
Definition after {A} (m : IO A) (env : Env) (d : D) : D :=
  db (snd (run m env d)).

(** The database after each write of the call, oldest first. *)
Definition writes {A} (m : IO A) (env : Env) (d : D) : list D :=
  rev (history (snd (run m env d))).

End Monad.

Arguments Ok {E A} a.
Arguments Throw {E A} e.
Arguments ret {D E A} a.
Arguments throw {D E A} e.
Arguments now {D E}.
Arguments randomBytes {D E} n.
Arguments freshId {D E}.
Arguments start {D} d.

Declare Scope io_scope.
Delimit Scope io_scope with io.
Notation "x <- m ;; k" := (bind m (fun x => k))
  (at level 61, m at next level, right associativity) : io_scope.
Notation "m ;;; k" := (bind m (fun _ => k))
  (at level 61, right associativity) : io_scope.

(** A storage driver that never rejects a statement. *)
Definition healthy (env : Env) : Prop := forall k, fault env k = None.

Definition isOk {E A} (r : Result E A) : bool :=
  match r with Ok _ => true | Throw _ => false end.

(** ** Exceptions *)

(** Everything the embedded code throws or catches.  [Error] is the
    ORM service's [new Error(message)], [AppError] the SQL service's
    [new AppError(message, statusCode)]; the next three are raised by
    the jsonwebtoken library, [TypeError] by reading a property of
    [null], [DriverError] by a rejected storage statement. *)
Inductive Exception :=
| Error (message : string)
| AppError (message : string) (statusCode : Z)
| TokenExpiredError
| JsonWebTokenError (message : string)
| SyntaxError
| TypeError (message : string)
| DriverError (message : string).

(** [e instanceof jwt.TokenExpiredError]. *)
Definition isTokenExpiredError (e : Exception) : bool :=
  match e with TokenExpiredError => true | _ => false end.

(** [e instanceof jwt.JsonWebTokenError]; jsonwebtoken derives
    [TokenExpiredError] from [JsonWebTokenError]. *)
Definition isJsonWebTokenError (e : Exception) : bool :=
  match e with
  | TokenExpiredError | JsonWebTokenError _ => true
  | _ => false
  end.

(** [error.message]. *)
Definition messageOf (e : Exception) : string :=
  match e with
  | Error m | AppError m _ | JsonWebTokenError m | TypeError m | DriverError m => m
  | TokenExpiredError => "jwt expired"
  | SyntaxError => "Unexpected token in JSON"
  end.

Definition M (D : Type) := IO D Exception.

(** ** Strings *)

Module Str.

Definition isUpper (c : ascii) : bool :=
  let n := nat_of_ascii c in (Nat.leb 65 n && Nat.leb n 90)%bool.

(** [String.prototype.toLowerCase] on the ASCII range: the letters
    [A]..[Z] move to [a]..[z]; every other character is kept. *)
Definition lowerChar (c : ascii) : ascii :=
  if isUpper c then ascii_of_nat (nat_of_ascii c + 32) else c.

Fixpoint toLowerCase (s : string) : string :=
  match s with
  | EmptyString => EmptyString
  | String c s' => String (lowerChar c) (toLowerCase s')
  end.

(** The sixteen digits of [Buffer.toString('hex')]. *)
Definition hexDigit (n : N) : ascii :=
  match n with
  | 0%N => "0" | 1%N => "1" | 2%N => "2" | 3%N => "3"
  | 4%N => "4" | 5%N => "5" | 6%N => "6" | 7%N => "7"
  | 8%N => "8" | 9%N => "9" | 10%N => "a" | 11%N => "b"
  | 12%N => "c" | 13%N => "d" | 14%N => "e" | _ => "f"
  end%char.

Definition isHexDigit (c : ascii) : bool :=
  let n := nat_of_ascii c in
  ((Nat.leb 48 n && Nat.leb n 57) || (Nat.leb 97 n && Nat.leb n 102))%bool.

(** [buf.toString('hex')]: two digits per byte, high nibble first. *)
Fixpoint toHex (bs : list byte) : string :=
  match bs with
  | [] => EmptyString
  | b :: bs' =>
      let n := Byte.to_N b in
      String (hexDigit (N.div n 16)) (String (hexDigit (N.modulo n 16)) (toHex bs'))
  end.

Fixpoint forallb (p : ascii -> bool) (s : string) : bool :=
  match s with
  | EmptyString => true
  | String c s' => (p c && forallb p s')%bool
  end.

(** Truthiness of a JavaScript string. *)
Definition truthy (s : string) : bool :=
  match s with EmptyString => false | _ => true end.

(** [hay.includes(needle)]. *)
Fixpoint includes (needle hay : string) : bool :=
  if String.prefix needle hay then true
  else match hay with
       | EmptyString => false
       | String _ rest => includes needle rest
       end.


(** [s.substring(n)]: [s] without its first [n] characters. *)
Fixpoint drop (n : nat) (s : string) : string :=
  match n, s with
  | O, _ => s
  | S n', String _ rest => drop n' rest
  | S _, EmptyString => EmptyString
  end.

(** The string without its last character, and that character. *)
Fixpoint splitLast (s : string) : option (string * ascii) :=
  match s with
  | EmptyString => None
  | String c EmptyString => Some (EmptyString, c)
  | String c rest =>
      match splitLast rest with
      | Some (init, last) => Some (String c init, last)
      | None => None
      end
  end.

(** [parseInt(s, 10)] on a string matched by [\d+]: its value when
    every character is a decimal digit. *)
Definition digits (s : string) : option Z :=
  match s with
  | EmptyString => None
  | _ => option_map (fun u => Z.of_N (N.of_uint u))
                    (DecimalString.NilEmpty.uint_of_string s)
  end.


End Str.

(** ** The jsonwebtoken library *)

Module Jwt.

(** [JwtPayload] of utils/jwt.ts. *)
Record JwtPayload := {
  userId     : string;
  email      : string;
  role       : string;
  facilityId : option string
}.

(** The claim set of a token: the payload given to [jwt.sign] and the
    registered claims the library adds (times in seconds). *)
Record Claims := {
  payload : JwtPayload;
  iat     : Z;
  exp     : option Z;
  iss     : option string;
  aud     : option string
}.

(** A string presented as a token, read the way the library reads it.
    The signature scheme is idealised: a string carries a valid
    signature under [key] exactly when it was produced by signing
    [claims] with [key].

    - [Signed key claims]: a compact serialisation
      [header.payload.signature] whose signature was made with [key];
    - [Garbled s]: three base64url parts with a [typ: JWT] header
      whose payload part is not JSON; decoding it makes [JSON.parse]
      raise a [SyntaxError], which [jwt.verify] rethrows as it is;
    - [Plain s]: any other string [s] (not of the compact form, or
      not decodable); [jwt.verify] rejects it as malformed. *)
Inductive Token :=
| Signed (key : string) (claims : Claims)
| Garbled (s : string)
| Plain (s : string).

Definition JwtPayload_eq_dec (x y : JwtPayload) : {x = y} + {x <> y}.
Proof. repeat decide equality. Defined.

Definition Claims_eq_dec (x y : Claims) : {x = y} + {x <> y}.
Proof.
  decide equality; try apply JwtPayload_eq_dec;
    repeat decide equality.
Defined.

Definition Token_eq_dec (x y : Token) : {x = y} + {x <> y}.
Proof.
  decide equality; try apply Claims_eq_dec; apply string_dec.
Defined.

Definition eqb (x y : Token) : bool :=
  if Token_eq_dec x y then true else false.

(** Truthiness of the token as a JavaScript string. *)
Definition truthy (t : Token) : bool :=
  match t with
  | Plain s => Str.truthy s
  | _ => true
  end.

Record SignOptions := {
  expiresIn : option Z;        (* seconds *)
  issuer    : option string;
  audience  : option string
}.

Record VerifyOptions := {
  v_issuer   : option string;
  v_audience : option string
}.

Section Library.
Variable D : Type.

(** [Math.floor(Date.now() / 1000)]. *)
Definition clockTimestamp : M D Z :=
  (t <- now ;; ret (t / 1000))%io.

(** [jwt.sign(payload, secret, options)]. *)
Definition sign (p : JwtPayload) (secret : string) (o : SignOptions) : M D Token :=
  (timestamp <- clockTimestamp ;;
   ret (Signed secret
          {| payload := p;
             iat := timestamp;
             exp := option_map (fun span => timestamp + span) (expiresIn o);
             iss := issuer o;
             aud := audience o |}))%io.

Definition claimMatches (expected actual : option string) : bool :=
  match expected with
  | None => true
  | Some e =>
      match actual with
      | Some a => String.eqb a e
      | None => false
      end
  end.

(** The expiry test of [jwt.verify]: [clockTimestamp >= payload.exp]. *)
Definition expired (c : Claims) (timestamp : Z) : bool :=
  match exp c with
  | Some e => e <=? timestamp
  | None => false
  end.

(** [jwt.verify(token, secret, options)] without a callback: the
    decoded claims, or an exception.  The clock is read first and
    the checks come in the library's order: decoding, signature,
    expiry, audience, issuer. *)
Definition verify (token : Token) (secret : string) (o : VerifyOptions) : M D Claims :=
  (timestamp <- clockTimestamp ;;
   match token with
   | Plain s =>
       if Str.truthy s then throw (JsonWebTokenError "jwt malformed")
       else throw (JsonWebTokenError "jwt must be provided")
   | Garbled _ => throw SyntaxError
   | Signed key c =>
       if negb (String.eqb key secret)
       then throw (JsonWebTokenError "invalid signature")
       else if expired c timestamp
       then throw TokenExpiredError
       else if negb (claimMatches (v_audience o) (aud c))
       then throw (JsonWebTokenError "jwt audience invalid")
       else if negb (claimMatches (v_issuer o) (iss c))
       then throw (JsonWebTokenError "jwt issuer invalid")
       else ret c
   end)%io.

(** [jwt.decode(token)]: the claims as they are written in the token,
    whoever signed it; [null] for a string that is not a compact
    serialisation.  A payload part that is not JSON makes the decoder
    raise. *)
Definition decode (token : Token) : M D (option Claims) :=
  match token with
  | Signed _ c => ret (Some c)
  | Garbled _ => throw SyntaxError
  | Plain _ => ret None
  end.

End Library.

End Jwt.

(** ** utils/jwt.ts: [JwtService] *)

Module JwtService.
Import Jwt.

Inductive TimeUnit := Seconds | Minutes | Hours | Days.

(** An expiry setting such as ['24h'] or ['7d'], already matched
    against [/^(\d+)([smhd])$/]: the settings the service can run
    with.  (With any other string [getTokenExpirationDate] throws
    and no login, registration or rotation completes.) *)
Record Duration := { amount : Z; unit : TimeUnit }.

Definition unitSeconds (u : TimeUnit) : Z :=
  match u with
  | Seconds => 1
  | Minutes => 60
  | Hours => 3600
  | Days => 86400
  end.

Definition seconds (d : Duration) : Z := amount d * unitSeconds (unit d).

(** The four static settings read from the process environment. *)
Record Config := {
  ACCESS_TOKEN_SECRET      : string;
  REFRESH_TOKEN_SECRET     : string;
  ACCESS_TOKEN_EXPIRES_IN  : Duration;
  REFRESH_TOKEN_EXPIRES_IN : Duration
}.

(** The fallbacks used when the environment sets nothing. *)
Definition defaults : Config :=
  {| ACCESS_TOKEN_SECRET := "your-secret-key";
     REFRESH_TOKEN_SECRET := "your-refresh-secret-key";
     ACCESS_TOKEN_EXPIRES_IN := {| amount := 24; unit := Hours |};
     REFRESH_TOKEN_EXPIRES_IN := {| amount := 7; unit := Days |} |}.

Record TokenPair := {
  accessToken  : Token;
  refreshToken : Token
}.

Section Service.
Variable D : Type.
Variable cfg : Config.

Definition generateAccessToken (p : JwtPayload) : M D Token :=
  sign p (ACCESS_TOKEN_SECRET cfg)
       {| expiresIn := Some (seconds (ACCESS_TOKEN_EXPIRES_IN cfg));
          issuer := Some "afyatrack-api";
          audience := Some "afyatrack-frontend" |}.

Definition generateRefreshToken : M D Token :=
  (buf <- randomBytes 64 ;; ret (Plain (Str.toHex buf)))%io.

Definition generateTokenPair (p : JwtPayload) : M D TokenPair :=
  (a <- generateAccessToken p ;;
   r <- generateRefreshToken ;;
   ret {| accessToken := a; refreshToken := r |})%io.

Definition verifyAccessToken (token : Token) : M D JwtPayload :=
  try (c <- verify token (ACCESS_TOKEN_SECRET cfg)
                   {| v_issuer := Some "afyatrack-api";
                      v_audience := Some "afyatrack-frontend" |} ;;
       ret (payload c))%io
      (fun error =>
         if isTokenExpiredError error then throw (Error "Access token expired")
         else if isJsonWebTokenError error then throw (Error "Invalid access token")
         else throw (Error "Token verification failed")).

(** [getTokenExpirationDate(expiresIn)]: the clock moved forward by
    the setting ([setSeconds], [setMinutes], [setHours], [setDate]
    on a calendar without daylight-saving shifts). *)
Definition getTokenExpirationDate (expiresIn : Duration) : M D Time :=
  (t <- now ;; ret (t + seconds expiresIn * 1000))%io.

Definition getRefreshTokenExpirationDate : M D Time :=
  getTokenExpirationDate (REFRESH_TOKEN_EXPIRES_IN cfg).

(** A [Date]: a time value, or the [Invalid Date] the setters leave
    when the time value goes out of range. *)
Inductive Date :=
| At (t : Time)
| InvalidDate.

Definition timeClip (t : Z) : Date :=
  if Z.abs t <=? 8640000000000000 then At t else InvalidDate.

Definition unitOf (c : ascii) : option TimeUnit :=
  if Ascii.eqb c "s" then Some Seconds
  else if Ascii.eqb c "m" then Some Minutes
  else if Ascii.eqb c "h" then Some Hours
  else if Ascii.eqb c "d" then Some Days
  else None.


(** [expiresIn.match(/^(\d+)([smhd])$/)] followed by
    [parseInt(amount, 10)]. *)
Definition matchExpiresIn (expiresIn : string) : option Duration :=
  match Str.splitLast expiresIn with
  | Some (amount, unit) =>
      match Str.digits amount, unitOf unit with
      | Some n, Some u => Some {| amount := n; unit := u |}
      | _, _ => None
      end
  | None => None
  end.


(** [getTokenExpirationDate(expiresIn)] on the setting as a string:
    the clock is read, then the setting is matched. *)
Definition getTokenExpirationDateOf (expiresIn : string) : M D Date :=
  (t <- now ;;
   match matchExpiresIn expiresIn with
   | None => throw (Error "Invalid expiration format")
   | Some d => ret (timeClip (t + seconds d * 1000))
   end)%io.

(** [extractTokenFromHeader(authHeader)]. *)
Definition extractTokenFromHeader (authHeader : option string) : option string :=
  match authHeader with
  | None => None
  | Some h =>
      if negb (Str.truthy h) || negb (String.prefix "Bearer " h) then None
      else Some (Str.drop 7 h)
  end.

(** [isTokenExpired(token)]. *)
Definition isTokenExpired (token : Token) : M D bool :=
  try (decoded <- decode token ;;
       match decoded with
       | None => ret true
       | Some c =>
           match exp c with
           | None => ret true
           | Some e =>
               if e =? 0 then ret true
               else (t <- now ;; ret (e * 1000 <=? t))
           end
       end)%io
      (fun _ => ret true).

End Service.

End JwtService.

(** ** The ORM entities *)

(** Rows keep the columns the services read or write; the
    [created_at] / [updated_at] bookkeeping columns are left out. *)

Module Facility.
Record t := {
  id       : string;
  name     : string;
  type     : string;
  isActive : bool
}.
End Facility.

Module User.

Inductive UserRole := DOCTOR | NURSE | ADMIN | RECEPTIONIST.

Definition roleName (r : UserRole) : string :=
  match r with
  | DOCTOR => "doctor"
  | NURSE => "nurse"
  | ADMIN => "admin"
  | RECEPTIONIST => "receptionist"
  end.

Record t := {
  id         : string;
  email      : string;
  password   : string;
  name       : string;
  role       : UserRole;
  facilityId : option string;
  isActive   : bool;
  lastLogin  : option Time
}.

Definition canAccessPatient (u : t) : bool :=
  match role u with DOCTOR | NURSE | ADMIN => true | RECEPTIONIST => false end.

Definition canModifyPatient (u : t) : bool :=
  match role u with DOCTOR | ADMIN => true | _ => false end.

Definition isAdmin (u : t) : bool :=
  match role u with ADMIN => true | _ => false end.

Definition withLastLogin (u : t) (at_ : Time) : t :=
  {| id := id u; email := email u; password := password u; name := name u;
     role := role u; facilityId := facilityId u; isActive := isActive u;
     lastLogin := Some at_ |}.

End User.

Module RefreshToken.

Record t := {
  id          : string;
  token       : Jwt.Token;
  userId      : string;
  expiresAt   : Time;
  isRevoked   : bool;
  createdByIp : option string;
  revokedByIp : option string;
  revokedAt   : option Time
}.

Section Methods.
Variable D : Type.

(** [get isActive()]: [!this.isRevoked && this.expiresAt > new Date()];
    the clock is read only when the flag is clear. *)
Definition isActive (r : t) : M D bool :=
  if isRevoked r then ret false
  else (d <- now ;; ret (d <? expiresAt r))%io.

(** [revoke(revokedByIp)], returning the mutated entity. *)
Definition revoke (r : t) (ip : option string) : M D t :=
  (d <- now ;;
   ret {| id := id r; token := token r; userId := userId r;
          expiresAt := expiresAt r;
          isRevoked := true;
          createdByIp := createdByIp r;
          revokedByIp := ip;
          revokedAt := Some d |})%io.
End Methods.


End RefreshToken.

(** ** services/AuthService.ts: the ORM [AuthService] *)

(** [utils/password.ts] is not among the sources at hand; the three
    functions the service calls are taken as they are used. *)
Record PasswordService := {
  verifyPassword           : string -> string -> bool;   (* password, hash *)
  hashPassword             : string -> string;
  validatePasswordStrength : string -> bool * list string  (* valid, errors *)
}.

Module AuthService.

Record Database := {
  users         : list User.t;
  refreshTokens : list RefreshToken.t;
  facilities    : list Facility.t
}.

Definition withUsers (d : Database) (us : list User.t) : Database :=
  {| users := us; refreshTokens := refreshTokens d; facilities := facilities d |}.

Definition withRefreshTokens (d : Database) (ts : list RefreshToken.t) : Database :=
  {| users := users d; refreshTokens := ts; facilities := facilities d |}.

Record LoginRequest := {
  l_email    : string;
  l_password : string
}.

Record RegisterRequest := {
  r_email      : string;
  r_password   : string;
  r_name       : string;
  r_role       : option User.UserRole;
  r_facilityId : option string
}.

Record FacilityView := {
  fv_id   : string;
  fv_name : string;
  fv_type : string
}.

Record UserView := {
  uv_id         : string;
  uv_email      : string;
  uv_name       : string;
  uv_role       : string;
  uv_facilityId : option string;
  uv_facility   : option FacilityView
}.

Record AuthResponse := {
  user         : UserView;
  token        : Jwt.Token;
  refreshToken_ : Jwt.Token;     (* refreshToken *)
  expiresAt    : Time
}.

(** *** Repository primitives *)

(** [repository.save(entity)] for an entity that carries its primary
    key: the row with that key is replaced, or the entity is
    inserted when no row has it. *)
Definition upsert {A} (key : A -> string) (x : A) (rows : list A) : list A :=
  if existsb (fun r => String.eqb (key r) (key x)) rows
  then map (fun r => if String.eqb (key r) (key x) then x else r) rows
  else rows ++ [x].

(** The [facility] relation of a user (a left join on [facility_id]). *)
Definition facilityOf (d : Database) (u : User.t) : option Facility.t :=
  match User.facilityId u with
  | Some f => find (fun x => String.eqb (Facility.id x) f) (facilities d)
  | None => None
  end.

(** The [user] relation of a refresh token (a left join on [user_id]). *)
Definition userOf (d : Database) (r : RefreshToken.t) : option User.t :=
  find (fun u => String.eqb (User.id u) (RefreshToken.userId r)) (users d).

Definition facilityView (f : option Facility.t) : option FacilityView :=
  option_map (fun f => {| fv_id := Facility.id f; fv_name := Facility.name f;
                          fv_type := Facility.type f |}) f.

Definition userView (u : User.t) (f : option Facility.t) : UserView :=
  {| uv_id := User.id u; uv_email := User.email u; uv_name := User.name u;
     uv_role := User.roleName (User.role u);
     uv_facilityId := User.facilityId u;
     uv_facility := facilityView f |}.

Definition jwtPayloadOf (u : User.t) : Jwt.JwtPayload :=
  {| Jwt.userId := User.id u; Jwt.email := User.email u;
     Jwt.role := User.roleName (User.role u);
     Jwt.facilityId := User.facilityId u |}.

Section Service.
Variable cfg : JwtService.Config.
Variable pw : PasswordService.

Local Open Scope io_scope.

(** A read through a repository ([findOne], [find]). *)
Definition sql {A} (f : Database -> A) : M Database A := query DriverError f.

(** A write through a repository ([save], a query-builder [delete]). *)
Definition dml (f : Database -> Database) : M Database unit :=
  update DriverError (fun d => (tt, f d)).

(** [saveRefreshToken(token, userId, clientIp)]. *)
Definition saveRefreshToken (token : Jwt.Token) (userId : string)
           (clientIp : option string) : M Database unit :=
  expires <- JwtService.getRefreshTokenExpirationDate cfg ;;
  key <- freshId ;;
  dml (fun d =>
         withRefreshTokens d
           (refreshTokens d ++
              [{| RefreshToken.id := key;
                  RefreshToken.token := token;
                  RefreshToken.userId := userId;
                  RefreshToken.expiresAt := expires;
                  RefreshToken.isRevoked := false;
                  RefreshToken.createdByIp := clientIp;
                  RefreshToken.revokedByIp := None;
                  RefreshToken.revokedAt := None |}])).

(** The row filter of [cleanupExpiredTokens]:
    [userId = :userId AND (expiresAt < :now OR isRevoked = true)]. *)
Definition stale (userId : string) (d : Time) (r : RefreshToken.t) : bool :=
  String.eqb (RefreshToken.userId r) userId
  && ((RefreshToken.expiresAt r <? d) || RefreshToken.isRevoked r).

(** [cleanupExpiredTokens(userId)]. *)
Definition cleanupExpiredTokens (userId : string) : M Database unit :=
  d <- now ;;
  dml (fun t =>
         withRefreshTokens t
           (filter (fun r => negb (stale userId d r)) (refreshTokens t))).

(** [login(loginData, clientIp)]. *)
Definition login (loginData : LoginRequest) (clientIp : option string)
  : M Database AuthResponse :=
  let email := l_email loginData in
  let password := l_password loginData in
  found <- sql (fun d =>
             match find (fun u => String.eqb (User.email u) (Str.toLowerCase email)
                                  && User.isActive u) (users d) with
             | Some u => Some (u, facilityOf d u)
             | None => None
             end) ;;
  match found with
  | None => throw (Error "Invalid email or password")
  | Some (u, facility) =>
      if negb (verifyPassword pw password (User.password u))
      then throw (Error "Invalid email or password")
      else
        d <- now ;;
        let u := User.withLastLogin u d in
        dml (fun t => withUsers t (upsert User.id u (users t))) ;;;
        tokens <- JwtService.generateTokenPair cfg (jwtPayloadOf u) ;;
        saveRefreshToken (JwtService.refreshToken tokens) (User.id u) clientIp ;;;
        cleanupExpiredTokens (User.id u) ;;;
        expires <- JwtService.getTokenExpirationDate
                     (JwtService.ACCESS_TOKEN_EXPIRES_IN cfg) ;;
        ret {| user := userView u facility;
               token := JwtService.accessToken tokens;
               refreshToken_ := JwtService.refreshToken tokens;
               expiresAt := expires |}
  end.

(** [register(registerData)]. *)
Definition register (registerData : RegisterRequest) : M Database AuthResponse :=
  let email := r_email registerData in
  let password := r_password registerData in
  let role := match r_role registerData with Some r => r | None => User.DOCTOR end in
  let facilityId := r_facilityId registerData in
  existingUser <- sql (fun d =>
      find (fun u => String.eqb (User.email u) (Str.toLowerCase email)) (users d)) ;;
  match existingUser with
  | Some _ => throw (Error "User with this email already exists")
  | None =>
      let passwordValidation := validatePasswordStrength pw password in
      if negb (fst passwordValidation)
      then throw (Error ("Password validation failed: "
                           ++ String.concat ", " (snd passwordValidation)))
      else
        facility <-
          match facilityId with
          | Some f =>
              if Str.truthy f then
                found <- sql (fun d =>
                    find (fun x => String.eqb (Facility.id x) f && Facility.isActive x)
                         (facilities d)) ;;
                match found with
                | Some x => ret (Some x)
                | None => throw (Error "Invalid facility ID")
                end
              else ret None
          | None => ret None
          end ;;
        let hashedPassword := hashPassword pw password in
        key <- freshId ;;
        let savedUser :=
          {| User.id := key;
             User.email := Str.toLowerCase email;
             User.password := hashedPassword;
             User.name := r_name registerData;
             User.role := role;
             User.facilityId := facilityId;
             User.isActive := true;
             User.lastLogin := None |} in
        dml (fun t => withUsers t (users t ++ [savedUser])) ;;;
        userWithFacility <- sql (fun d =>
            match find (fun u => String.eqb (User.id u) (User.id savedUser)) (users d) with
            | Some u => Some (u, facilityOf d u)
            | None => None
            end) ;;
        tokens <- JwtService.generateTokenPair cfg (jwtPayloadOf savedUser) ;;
        saveRefreshToken (JwtService.refreshToken tokens) (User.id savedUser) None ;;;
        expires <- JwtService.getTokenExpirationDate
                     (JwtService.ACCESS_TOKEN_EXPIRES_IN cfg) ;;
        ret {| user := userView savedUser
                         match userWithFacility with
                         | Some (_, f) => f
                         | None => None
                         end;
               token := JwtService.accessToken tokens;
               refreshToken_ := JwtService.refreshToken tokens;
               expiresAt := expires |}
  end.

(** The lookup of [refreshToken]:
    [findOne({ where: { token, isRevoked: false }, relations: ['user', 'user.facility'] })]. *)
Definition findActiveRow (token : Jwt.Token) (d : Database)
  : option (RefreshToken.t * option (User.t * option Facility.t)) :=
  match find (fun r => Jwt.eqb (RefreshToken.token r) token
                       && negb (RefreshToken.isRevoked r)) (refreshTokens d) with
  | Some r =>
      Some (r, match userOf d r with
               | Some u => Some (u, facilityOf d u)
               | None => None
               end)
  | None => None
  end.

(** [refreshToken(refreshTokenValue, clientIp)]. *)
Definition refreshToken (refreshTokenValue : Jwt.Token) (clientIp : option string)
  : M Database AuthResponse :=
  found <- sql (findActiveRow refreshTokenValue) ;;
  match found with
  | None => throw (Error "Invalid or expired refresh token")
  | Some (row, owner) =>
      active <- RefreshToken.isActive row ;;
      if negb active then throw (Error "Invalid or expired refresh token")
      else
        match owner with
        | None => throw (TypeError "Cannot read properties of null (reading 'isActive')")
        | Some (u, facility) =>
            if negb (User.isActive u) then throw (Error "User account is deactivated")
            else
              tokens <- JwtService.generateTokenPair cfg (jwtPayloadOf u) ;;
              revoked <- RefreshToken.revoke row clientIp ;;
              dml (fun t => withRefreshTokens t
                              (upsert RefreshToken.id revoked (refreshTokens t))) ;;;
              saveRefreshToken (JwtService.refreshToken tokens) (User.id u) clientIp ;;;
              expires <- JwtService.getTokenExpirationDate
                           (JwtService.ACCESS_TOKEN_EXPIRES_IN cfg) ;;
              ret {| user := userView u facility;
                     token := JwtService.accessToken tokens;
                     refreshToken_ := JwtService.refreshToken tokens;
                     expiresAt := expires |}
        end
  end.

(** [logout(refreshTokenValue, clientIp)]. *)
Definition logout (refreshTokenValue : Jwt.Token) (clientIp : option string)
  : M Database unit :=
  found <- sql (fun d =>
      find (fun r => Jwt.eqb (RefreshToken.token r) refreshTokenValue) (refreshTokens d)) ;;
  match found with
  | Some row =>
      if negb (RefreshToken.isRevoked row) then
        revoked <- RefreshToken.revoke row clientIp ;;
        dml (fun t => withRefreshTokens t
                        (upsert RefreshToken.id revoked (refreshTokens t)))
      else ret tt
  | None => ret tt
  end.

(** The loop [for (const token of refreshTokens) token.revoke(clientIp)]. *)
Fixpoint revokeEach (rows : list RefreshToken.t) (clientIp : option string)
  : M Database (list RefreshToken.t) :=
  match rows with
  | [] => ret []
  | r :: rest =>
      r' <- RefreshToken.revoke r clientIp ;;
      rest' <- revokeEach rest clientIp ;;
      ret (r' :: rest')
  end.

(** [logoutFromAllDevices(userId, clientIp)]. *)
Definition logoutFromAllDevices (userId : string) (clientIp : option string)
  : M Database unit :=
  found <- sql (fun d =>
      filter (fun r => String.eqb (RefreshToken.userId r) userId
                       && negb (RefreshToken.isRevoked r)) (refreshTokens d)) ;;
  revoked <- revokeEach found clientIp ;;
  if Nat.ltb 0 (length revoked) then
    dml (fun t => withRefreshTokens t
                    (fold_left (fun rows r => upsert RefreshToken.id r rows)
                               revoked (refreshTokens t)))
  else ret tt.

(** [getUserById(userId)]. *)
Definition getUserById (userId : string)
  : M Database (option (User.t * option Facility.t)) :=
  sql (fun d =>
         match find (fun u => String.eqb (User.id u) userId && User.isActive u)
                    (users d) with
         | Some u => Some (u, facilityOf d u)
         | None => None
         end).

End Service.

End AuthService.

(** ** middleware/auth.ts of the ORM service *)

Module Middleware.
Import AuthService.

(** [req.user] as [authenticateToken] fills it. *)
Record RequestUser := {
  payload          : Jwt.JwtPayload;
  id               : string;
  name             : string;
  isActive         : bool;
  canAccessPatient : bool;
  canModifyPatient : bool;
  isAdmin          : bool
}.

(** What a middleware does with a request: hand it on ([next()], with
    the user it attached) or answer it. *)
Inductive Handled :=
| Next (user : RequestUser)
| Respond (status : Z) (message : string).

Section Handlers.
Variable cfg : JwtService.Config.

Local Open Scope io_scope.

(** [authenticateToken(req, res, next)].  The request carries
    [Some token] when its [Authorization] header is [Bearer <token>]. *)
Definition authenticateToken (bearer : option Jwt.Token) : M Database Handled :=
  try
    match bearer with
    | None => ret (Respond 401 "Access token is required")
    | Some token =>
        if negb (Jwt.truthy token) then ret (Respond 401 "Access token is required")
        else
          p <- JwtService.verifyAccessToken cfg token ;;
          found <- getUserById (Jwt.userId p) ;;
          match found with
          | None => ret (Respond 401 "Invalid or inactive user account")
          | Some (u, _) =>
              if negb (User.isActive u)
              then ret (Respond 401 "Invalid or inactive user account")
              else ret (Next {| payload := p;
                                id := User.id u;
                                name := User.name u;
                                isActive := User.isActive u;
                                canAccessPatient := User.canAccessPatient u;
                                canModifyPatient := User.canModifyPatient u;
                                isAdmin := User.isAdmin u |})
          end
    end
    (fun error =>
       ret (Respond 401
              (if Str.includes "expired" (messageOf error) then "Access token has expired"
               else if Str.includes "invalid" (messageOf error) then "Invalid access token"
               else "Authentication failed"))).

(** [optionalAuth(req, res, next)]: the user it attaches, if any; it
    always hands the request on. *)
Definition optionalAuth (bearer : option Jwt.Token) : M Database (option RequestUser) :=
  try
    match bearer with
    | None => ret None
    | Some token =>
        if negb (Jwt.truthy token) then ret None
        else
          p <- JwtService.verifyAccessToken cfg token ;;
          found <- getUserById (Jwt.userId p) ;;
          match found with
          | None => ret None
          | Some (u, _) =>
              if negb (User.isActive u) then ret None
              else ret (Some {| payload := p;
                                id := User.id u;
                                name := User.name u;
                                isActive := User.isActive u;
                                canAccessPatient := User.canAccessPatient u;
                                canModifyPatient := User.canModifyPatient u;
                                isAdmin := User.isAdmin u |})
          end
    end
    (fun _ => ret None).

End Handlers.

(** What a synchronous guard does with a request: [next()] or an
    answer. *)
Inductive Verdict :=
| Pass
| Deny (status : Z) (message : string).

(** [requireRole(...roles)]: the role it tests is the one spread from
    the token payload into [req.user]. *)
Definition requireRole (roles : list User.UserRole) (user : option RequestUser) : Verdict :=
  match user with
  | None => Deny 401 "Authentication required"
  | Some u =>
      if negb (existsb (fun r => String.eqb (User.roleName r) (Jwt.role (payload u))) roles)
      then Deny 403 "Insufficient permissions"
      else Pass
  end.

Definition requirePatientAccess (user : option RequestUser) : Verdict :=
  match user with
  | None => Deny 401 "Authentication required"
  | Some u =>
      if negb (canAccessPatient u) then Deny 403 "Access to patient data not permitted"
      else Pass
  end.

Definition requirePatientModify (user : option RequestUser) : Verdict :=
  match user with
  | None => Deny 401 "Authentication required"
  | Some u =>
      if negb (canModifyPatient u)
      then Deny 403 "Permission to modify patient data not granted"
      else Pass
  end.

Definition requireAdmin (user : option RequestUser) : Verdict :=
  match user with
  | None => Deny 401 "Authentication required"
  | Some u =>
      if negb (isAdmin u) then Deny 403 "Administrator privileges required"
      else Pass
  end.

(** [a || b] on two optional strings. *)
Definition orElse (a b : option string) : option string :=
  match a with
  | Some s => if Str.truthy s then a else b
  | None => b
  end.

(** [a !== b] on two optional strings.  [None] stands for [null] and
    for [undefined] alike, which JavaScript tells apart: the
    comparison is exact whenever one side is a string. *)
Definition differ (a b : option string) : bool :=
  match a, b with
  | Some x, Some y => negb (String.eqb x y)
  | None, None => false
  | _, _ => true
  end.

(** [requireFacilityAccess]: the facility tested is the one spread
    from the token payload into [req.user]. *)
Definition requireFacilityAccess (user : option RequestUser)
           (paramsFacilityId bodyFacilityId : option string) : Verdict :=
  match user with
  | None => Deny 401 "Authentication required"
  | Some u =>
      let facilityId := orElse paramsFacilityId bodyFacilityId in
      if isAdmin u then Pass
      else if differ (Jwt.facilityId (payload u)) facilityId
      then Deny 403 "Access to this facility not permitted"
      else Pass
  end.

(** The guards every patient route runs first (routes/patients.ts):
    [router.use(authenticateToken, requirePatientAccess)], and the
    writing routes [requirePatientModify] after them.  [Pass] with
    the attached user, or the answer of the first guard that
    answers. *)
Definition guarded (h : Handled) (guards : list (option RequestUser -> Verdict))
  : Handled :=
  match h with
  | Respond st m => Respond st m
  | Next u =>
      fold_left (fun acc g =>
                   match acc with
                   | Respond st m => Respond st m
                   | Next u' =>
                       match g (Some u') with
                       | Pass => Next u'
                       | Deny st m => Respond st m
                       end
                   end) guards (Next u)
  end.

End Middleware.

(** ** services/auth.service.ts: the SQL [AuthService] *)

Module SqlAuthService.

Record UserRow := {
  id         : string;
  email      : string;
  password   : string;
  first_name : string;
  last_name  : string;
  role       : string;
  is_active  : bool;
  last_login : option Time
}.

(** [refresh_tokens]: the table has no revocation column. *)
Record RefreshTokenRow := {
  rt_id      : string;
  user_id    : string;
  token      : Jwt.Token;
  expires_at : Time
}.

Record PatientRow := {
  p_id       : string;
  created_by : string
}.

Record VisitRow := {
  v_id       : string;
  patient_id : string;
  doctor_id  : string
}.

Record Database := {
  users          : list UserRow;
  refresh_tokens : list RefreshTokenRow;
  patients       : list PatientRow;
  visits         : list VisitRow
}.

Definition withRefreshTokens (d : Database) (ts : list RefreshTokenRow) : Database :=
  {| users := users d; refresh_tokens := ts; patients := patients d; visits := visits d |}.

Definition withUsers (d : Database) (us : list UserRow) : Database :=
  {| users := us; refresh_tokens := refresh_tokens d; patients := patients d;
     visits := visits d |}.

(** [config/env.ts]. *)
Record Config := {
  JWT_SECRET             : string;
  JWT_EXPIRES_IN         : JwtService.Duration;
  JWT_REFRESH_EXPIRES_IN : JwtService.Duration
}.

Definition defaults : Config :=
  {| JWT_SECRET := "fallback-secret-change-in-production";
     JWT_EXPIRES_IN := {| JwtService.amount := 7; JwtService.unit := JwtService.Days |};
     JWT_REFRESH_EXPIRES_IN :=
       {| JwtService.amount := 30; JwtService.unit := JwtService.Days |} |}.

Record Tokens := {
  accessToken  : Jwt.Token;
  refreshToken_ : Jwt.Token      (* refreshToken *)
}.

(** The two calls made on the bcryptjs library. *)
Record Bcrypt := {
  hash    : string -> Z -> string;       (* password, rounds *)
  compare : string -> string -> bool     (* password, hash *)
}.

Definition withPassword (u : UserRow) (hashed : string) : UserRow :=
  {| id := id u; email := email u; password := hashed;
     first_name := first_name u; last_name := last_name u; role := role u;
     is_active := is_active u; last_login := last_login u |}.

(** [config/database.ts]: the promisified driver calls.  A rejected
    statement surfaces the driver's error. *)
Module dbManager.

(** [dbManager.get(sql, params)]: the first matching row, if any. *)
Definition get {A} (f : Database -> A) : M Database A := query DriverError f.

(** [dbManager.run(sql, params)], answering [result.changes]. *)
Definition run (f : Database -> nat * Database) : M Database nat :=
  update DriverError f.

End dbManager.

Section Service.
Variable config : Config.

Local Open Scope io_scope.

(** The [JWTPayload] of the SQL service: [{ userId, email, role }]. *)
Definition JWTPayload (userId email role : string) : Jwt.JwtPayload :=
  {| Jwt.userId := userId; Jwt.email := email; Jwt.role := role;
     Jwt.facilityId := None |}.

(** [generateTokens(userId, email, role)]. *)
Definition generateTokens (userId email role : string) : M Database Tokens :=
  let payload := JWTPayload userId email role in
  accessToken <- Jwt.sign payload (JWT_SECRET config)
                   {| Jwt.expiresIn := Some (JwtService.seconds (JWT_EXPIRES_IN config));
                      Jwt.issuer := None; Jwt.audience := None |} ;;
  refreshToken <- Jwt.sign payload (JWT_SECRET config)
                    {| Jwt.expiresIn :=
                         Some (JwtService.seconds (JWT_REFRESH_EXPIRES_IN config));
                       Jwt.issuer := None; Jwt.audience := None |} ;;
  refreshTokenId <- freshId ;;
  d <- now ;;
  let expiresAt := d + 30 * 86400000 in
  dbManager.run (fun t =>
          (1%nat,
           withRefreshTokens t
             (refresh_tokens t ++
                [{| rt_id := refreshTokenId; user_id := userId;
                    token := refreshToken; expires_at := expiresAt |}]))) ;;;
  ret {| accessToken := accessToken; refreshToken_ := refreshToken |}.

(** [DELETE FROM refresh_tokens WHERE token = ?], with the number of
    rows it removed. *)
Definition deleteByToken (tk : Jwt.Token) (t : Database) : nat * Database :=
  (length (filter (fun r => Jwt.eqb (token r) tk) (refresh_tokens t)),
   withRefreshTokens t (filter (fun r => negb (Jwt.eqb (token r) tk)) (refresh_tokens t))).

(** [refreshToken(refreshToken)]. *)
Definition refreshToken (refreshToken : Jwt.Token) : M Database Tokens :=
  try
    (_ <- Jwt.verify refreshToken (JWT_SECRET config)
            {| Jwt.v_issuer := None; Jwt.v_audience := None |} ;;
     d <- now ;;
     tokenRecord <- dbManager.get (fun t =>
         find (fun r => Jwt.eqb (token r) refreshToken && (d <? expires_at r))
              (refresh_tokens t)) ;;
     match tokenRecord with
     | None => throw (AppError "Invalid or expired refresh token" 401)
     | Some tokenRecord =>
         user <- dbManager.get (fun t =>
             find (fun u => String.eqb (id u) (user_id tokenRecord) && is_active u)
                  (users t)) ;;
         match user with
         | None => throw (AppError "User not found or inactive" 401)
         | Some user =>
             dbManager.run (deleteByToken refreshToken) ;;;
             generateTokens (id user) (email user) (role user)
         end
     end)
    (fun error =>
       if isJsonWebTokenError error then throw (AppError "Invalid refresh token" 401)
       else throw error).

(** [logout(refreshToken)]. *)
Definition logout (refreshToken : Jwt.Token) : M Database unit :=
  changes <- dbManager.run (deleteByToken refreshToken) ;;
  if Nat.eqb changes 0 then throw (AppError "Invalid refresh token" 401)
  else ret tt.

(** [DELETE FROM refresh_tokens WHERE expires_at <= CURRENT_TIMESTAMP]. *)
Definition deleteExpired (d : Time) (t : Database) : nat * Database :=
  (length (filter (fun r => expires_at r <=? d) (refresh_tokens t)),
   withRefreshTokens t (filter (fun r => negb (expires_at r <=? d)) (refresh_tokens t))).

(** [cleanExpiredTokens()]: errors are logged and swallowed. *)
Definition cleanExpiredTokens : M Database unit :=
  try
    (d <- now ;;
     _ <- dbManager.run (deleteExpired d) ;;
     ret tt)
    (fun _ => ret tt).

Variable bcrypt : Bcrypt.
Variable BCRYPT_ROUNDS : Z.

(** [UPDATE users SET password = ? WHERE id = ?]. *)
Definition updatePassword (userId hashed : string) (t : Database) : nat * Database :=
  (length (filter (fun u => String.eqb (id u) userId) (users t)),
   withUsers t (map (fun u => if String.eqb (id u) userId then withPassword u hashed else u)
                    (users t))).

(** [DELETE FROM refresh_tokens WHERE user_id = ?]. *)
Definition deleteByUser (userId : string) (t : Database) : nat * Database :=
  (length (filter (fun r => String.eqb (user_id r) userId) (refresh_tokens t)),
   withRefreshTokens t
     (filter (fun r => negb (String.eqb (user_id r) userId)) (refresh_tokens t))).

(** [changePassword(userId, currentPassword, newPassword)]. *)
Definition changePassword (userId currentPassword newPassword : string)
  : M Database unit :=
  user <- dbManager.get (fun t =>
      find (fun u => String.eqb (id u) userId && is_active u) (users t)) ;;
  match user with
  | None => throw (AppError "User not found" 404)
  | Some user =>
      if negb (compare bcrypt currentPassword (password user))
      then throw (AppError "Current password is incorrect" 401)
      else
        let hashedNewPassword := hash bcrypt newPassword BCRYPT_ROUNDS in
        dbManager.run (updatePassword userId hashedNewPassword) ;;;
        dbManager.run (deleteByUser userId) ;;;
        ret tt
  end.

End Service.

End SqlAuthService.

(** ** middleware/auth.ts of the SQL service *)

Module SqlMiddleware.
Import SqlAuthService.

(** [req.user] as [authenticate] fills it. *)
Record RequestUser := {
  id        : string;
  email     : string;
  role      : string;
  firstName : string;
  lastName  : string
}.

Record Request := {
  user            : option RequestUser;
  paramsPatientId : option string;     (* req.params.patientId *)
  bodyPatientId   : option string      (* req.body.patientId *)
}.

(** [a || b] on two optional strings. *)
Definition orElse (a b : option string) : option string :=
  match a with
  | Some s => if Str.truthy s then a else b
  | None => b
  end.

Definition truthy (a : option string) : bool :=
  match a with
  | Some s => Str.truthy s
  | None => false
  end.

(** The existence query of [authorizePatientAccess]:
    [SELECT 1 FROM patients p WHERE p.id = ? AND (p.created_by = ? OR
     EXISTS (SELECT 1 FROM visits v WHERE v.patient_id = p.id AND v.doctor_id = ?))]. *)
Definition hasAccess (patientId userId : string) (d : Database) : bool :=
  existsb (fun p =>
             String.eqb (p_id p) patientId
             && (String.eqb (created_by p) userId
                 || existsb (fun v => String.eqb (patient_id v) (p_id p)
                                      && String.eqb (doctor_id v) userId)
                            (visits d)))
          (patients d).

Local Open Scope io_scope.

(** [authorizePatientAccess(req, res, next)]: [Ok tt] is [next()], the
    request proceeds; [Throw e] is [next(e)], the request goes to the
    error handler. *)
Definition authorizePatientAccess (req : Request) : M Database unit :=
  match user req with
  | None => throw (AppError "Authentication required" 401)
  | Some u =>
      let patientId := orElse (paramsPatientId req) (bodyPatientId req) in
      match patientId with
      | None => throw (AppError "Patient ID is required" 400)
      | Some pid =>
          if negb (Str.truthy pid) then throw (AppError "Patient ID is required" 400)
          else if String.eqb (role u) "admin" then ret tt
          else
            granted <- dbManager.get (hasAccess pid (id u)) ;;
            if negb granted then throw (AppError "Access denied to patient data" 403)
            else ret tt
      end
  end.

(** [UserRole] of types/index.ts, with the strings it stands for. *)
Inductive UserRole := DOCTOR | NURSE | ADMIN | CLINICIAN.

Definition roleName (r : UserRole) : string :=
  match r with
  | DOCTOR => "doctor"
  | NURSE => "nurse"
  | ADMIN => "admin"
  | CLINICIAN => "clinician"
  end.

(** The row [authenticate] reads and the user it attaches. *)
Definition attached (u : UserRow) : RequestUser :=
  {| id := SqlAuthService.id u;
     email := SqlAuthService.email u;
     role := SqlAuthService.role u;
     firstName := first_name u;
     lastName := last_name u |}.

(** [SELECT ... FROM users WHERE id = ? AND is_active = 1]. *)
Definition activeUser (userId : string) (d : Database) : option UserRow :=
  find (fun u => String.eqb (SqlAuthService.id u) userId && is_active u) (users d).

(** [authenticate(req, res, next)]: [Ok u] is [next()] with [req.user]
    set to [u]; [Throw e] is [next(e)].  The request carries
    [Some token] when its [Authorization] header is [Bearer <token>]. *)
Definition authenticate (config : Config) (bearer : option Jwt.Token)
  : M Database RequestUser :=
  try
    match bearer with
    | None => throw (AppError "Access token is required" 401)
    | Some token =>
        decoded <- Jwt.verify token (JWT_SECRET config)
                     {| Jwt.v_issuer := None; Jwt.v_audience := None |} ;;
        user <- dbManager.get (activeUser (Jwt.userId (Jwt.payload decoded))) ;;
        match user with
        | None => throw (AppError "Invalid or expired token" 401)
        | Some user => ret (attached user)
        end
    end
    (fun error =>
       if isJsonWebTokenError error then throw (AppError "Invalid token" 401)
       else if isTokenExpiredError error then throw (AppError "Token expired" 401)
       else throw error).

(** [optionalAuth(req, res, next)]: the user it attaches, if any; it
    always hands the request on. *)
Definition optionalAuth (config : Config) (bearer : option Jwt.Token)
  : M Database (option RequestUser) :=
  try
    match bearer with
    | None => ret None
    | Some token =>
        decoded <- Jwt.verify token (JWT_SECRET config)
                     {| Jwt.v_issuer := None; Jwt.v_audience := None |} ;;
        user <- dbManager.get (activeUser (Jwt.userId (Jwt.payload decoded))) ;;
        match user with
        | None => ret None
        | Some user => ret (Some (attached user))
        end
    end
    (fun _ => ret None).

(** [authorize(...roles)]. *)
Definition authorize (roles : list UserRole) (user : option RequestUser)
  : M Database unit :=
  match user with
  | None => throw (AppError "Authentication required" 401)
  | Some u =>
      if negb (existsb (fun r => String.eqb (roleName r) (role u)) roles)
      then throw (AppError "Insufficient permissions" 403)
      else ret tt
  end.

Record VisitRequest := {
  visitUser     : option RequestUser;
  paramsVisitId : option string;       (* req.params.visitId *)
  bodyVisitId   : option string        (* req.body.visitId *)
}.

(** The existence query of [authorizeVisitAccess]:
    [SELECT 1 FROM visits v JOIN patients p ON v.patient_id = p.id
     WHERE v.id = ? AND (v.doctor_id = ? OR p.created_by = ?)]. *)
Definition hasVisitAccess (visitId userId : string) (d : Database) : bool :=
  existsb (fun v =>
             String.eqb (v_id v) visitId
             && existsb (fun p => String.eqb (patient_id v) (p_id p)
                                  && (String.eqb (doctor_id v) userId
                                      || String.eqb (created_by p) userId))
                        (patients d))
          (visits d).

(** [authorizeVisitAccess(req, res, next)]. *)
Definition authorizeVisitAccess (req : VisitRequest) : M Database unit :=
  match visitUser req with
  | None => throw (AppError "Authentication required" 401)
  | Some u =>
      let visitId := orElse (paramsVisitId req) (bodyVisitId req) in
      match visitId with
      | None => throw (AppError "Visit ID is required" 400)
      | Some vid =>
          if negb (Str.truthy vid) then throw (AppError "Visit ID is required" 400)
          else if String.eqb (role u) "admin" then ret tt
          else
            granted <- dbManager.get (hasVisitAccess vid (id u)) ;;
            if negb granted then throw (AppError "Access denied to visit data" 403)
            else ret tt
      end
  end.

(** *** [rateLimitByUser] *)

(** An entry of the [requests] map. *)
Record Bucket := {
  count     : Z;
  resetTime : Time
}.

(** The [Map<string, { count, resetTime }>] the limiter closes over. *)
Definition Requests := string -> option Bucket.

Definition noRequests : Requests := fun _ => None.

(** [requests.set(key, bucket)]. *)
Definition setBucket (requests : Requests) (key : string) (b : Bucket) : Requests :=
  fun k => if String.eqb k key then Some b else requests k.

(** [req.user?.id || req.ip || 'anonymous']. *)
Definition limiterKey (user : option RequestUser) (ip : option string) : string :=
  match orElse (orElse (option_map id user) ip) (Some "anonymous") with
  | Some k => k
  | None => "anonymous"
  end.

Inductive Limited :=
| Served                          (* next() *)
| TooManyRequests (retryAfter : Z).   (* 429, with retryAfter seconds *)

(** [Math.ceil(x / 1000)] for an integer number of milliseconds. *)
Definition ceilSeconds (ms : Z) : Z := - ((- ms) / 1000).

(** One request through the limiter returned by
    [rateLimitByUser(maxRequests, windowMs)], when [Date.now()] reads
    [t]: what is answered and the map afterwards. *)
Definition rateLimitByUser (maxRequests windowMs : Z) (key : string) (t : Time)
           (requests : Requests) : Limited * Requests :=
  match requests key with
  | None =>
      (Served, setBucket requests key {| count := 1; resetTime := t + windowMs |})
  | Some userRequests =>
      if resetTime userRequests <? t
      then (Served, setBucket requests key {| count := 1; resetTime := t + windowMs |})
      else if maxRequests <=? count userRequests
      then (TooManyRequests (ceilSeconds (resetTime userRequests - t)), requests)
      else (Served,
            setBucket requests key {| count := count userRequests + 1;
                                      resetTime := resetTime userRequests |})
  end.

(** The requests of a client, one after the other: the answers, and
    the map at the end. *)
Fixpoint serve (maxRequests windowMs : Z) (key : string) (times : list Time)
         (requests : Requests) : list Limited * Requests :=
  match times with
  | [] => ([], requests)
  | t :: rest =>
      let (answer, requests') := rateLimitByUser maxRequests windowMs key t requests in
      let (answers, final) := serve maxRequests windowMs key rest requests' in
      (answer :: answers, final)
  end.

End SqlMiddleware.

(** ** routes/patients.ts *)

Module PatientRoutes.
Import Middleware.

Local Open Scope io_scope.

(** The guards in front of a patient route:
    [router.use(authenticateToken, requirePatientAccess)] for every
    route, and [requirePatientModify] after them on the routes that
    write (POST, PUT, DELETE).  [Next u]: the handler runs for [u]. *)
Definition guards (cfg : JwtService.Config) (writes : bool) (bearer : option Jwt.Token)
  : M AuthService.Database Handled :=
  h <- authenticateToken cfg bearer ;;
  ret (guarded h (if writes then [requirePatientAccess; requirePatientModify]
                  else [requirePatientAccess])).

End PatientRoutes.

(** ** controllers/AuthController.ts *)

Module AuthController.
Import AuthService.

(** What an endpoint sends: [res.status(status).json({ success,
    message, errors, data })]. *)
Record Response := {
  status  : Z;
  success : bool;
  message : string;
  errors  : list string;           (* [errors.array()] of a failed validation *)
  data    : option AuthResponse
}.

Definition succeeded (st : Z) (m : string) (d : option AuthResponse) : Response :=
  {| status := st; success := true; message := m; errors := []; data := d |}.

Definition failed (st : Z) (m : string) : Response :=
  {| status := st; success := false; message := m; errors := []; data := None |}.

Definition invalid (validation : list string) : Response :=
  {| status := 400; success := false; message := "Validation failed";
     errors := validation; data := None |}.

Section Endpoints.
Variable cfg : JwtService.Config.
Variable pw : PasswordService.

Local Open Scope io_scope.

(** [login(req, res)].  [validation] is [validationResult(req)], the
    errors the validators of the route left on the request;
    [loginData] is the body they sanitized. *)
Definition login (validation : list string) (loginData : LoginRequest)
           (clientIp : option string) : M Database Response :=
  try
    match validation with
    | _ :: _ => ret (invalid validation)
    | [] =>
        authResponse <- AuthService.login cfg pw loginData clientIp ;;
        ret (succeeded 200 "Login successful" (Some authResponse))
    end
    (fun error => ret (failed 401 (messageOf error))).

(** [register(req, res)]. *)
Definition register (validation : list string) (registerData : RegisterRequest)
  : M Database Response :=
  try
    match validation with
    | _ :: _ => ret (invalid validation)
    | [] =>
        authResponse <- AuthService.register cfg pw registerData ;;
        ret (succeeded 201 "Registration successful" (Some authResponse))
    end
    (fun error =>
       let status := if Str.includes "already exists" (messageOf error) then 409 else 400 in
       ret (failed status (messageOf error))).

(** [refreshToken(req, res)]. *)
Definition refreshToken (validation : list string) (refreshToken : Jwt.Token)
           (clientIp : option string) : M Database Response :=
  try
    match validation with
    | _ :: _ => ret (invalid validation)
    | [] =>
        authResponse <- AuthService.refreshToken cfg refreshToken clientIp ;;
        ret (succeeded 200 "Token refreshed successfully" (Some authResponse))
    end
    (fun error => ret (failed 401 (messageOf error))).

(** [logout(req, res)]; the body may carry no token. *)
Definition logout (refreshToken : option Jwt.Token) (clientIp : option string)
  : M Database Response :=
  try
    (match refreshToken with
     | Some t => if Jwt.truthy t then AuthService.logout t clientIp else ret tt
     | None => ret tt
     end ;;;
     ret (succeeded 200 "Logout successful" None))
    (fun _ => ret (failed 500 "Logout failed")).

(** [logoutFromAllDevices(req, res)]: the user key is the [userId]
    the token payload spread into [req.user]. *)
Definition logoutFromAllDevices (user : option Middleware.RequestUser)
           (clientIp : option string) : M Database Response :=
  try
    match user with
    | None => ret (failed 401 "Authentication required")
    | Some u =>
        let userId := Jwt.userId (Middleware.payload u) in
        if negb (Str.truthy userId) then ret (failed 401 "Authentication required")
        else
          AuthService.logoutFromAllDevices userId clientIp ;;;
          ret (succeeded 200 "Logged out from all devices successfully" None)
    end
    (fun _ => ret (failed 500 "Logout from all devices failed")).

End Endpoints.

End AuthController.

(** ** routes/auth.ts *)

Module AuthRoutes.

Local Open Scope io_scope.

(** [router.post('/logout-all', authenticateToken,
    authController.logoutFromAllDevices)]. *)
Definition logoutAll (cfg : JwtService.Config) (bearer : option Jwt.Token)
           (clientIp : option string) : M AuthService.Database AuthController.Response :=
  h <- Middleware.authenticateToken cfg bearer ;;
  match h with
  | Middleware.Next u => AuthController.logoutFromAllDevices (Some u) clientIp
  | Middleware.Respond st m => ret (AuthController.failed st m)
  end.

End AuthRoutes.

(** ** routes/visits.ts and routes/patients.ts of the SQL service *)

Module SqlRoutes.
Import SqlMiddleware.

Local Open Scope io_scope.

(** The two guards every visit route and patient route starts with:
    [authenticate, authorize(...roles)].  [Ok u]: the next middleware
    runs with [req.user] set to [u]; [Throw e]: the request goes to
    the error handler. *)
Definition guards (config : SqlAuthService.Config) (roles : list UserRole)
           (bearer : option Jwt.Token) : M SqlAuthService.Database RequestUser :=
  u <- authenticate config bearer ;;
  authorize roles (Some u) ;;;
  ret u.

End SqlRoutes.

(** ** Vocabulary of the statements *)

(** A refresh token of the opaque kind: the hex encoding of 64 bytes. *)
Definition opaqueHex (t : Jwt.Token) : Prop :=
  exists bs, length bs = 64%nat /\ t = Jwt.Plain (Str.toHex bs).

(** The refresh token a service call mints under [env]: a call starts
    with nothing drawn and draws once. *)
Definition minted (env : Env) : Jwt.Token :=
  Jwt.Plain (Str.toHex (draw env 0 64)).

(** The user [authenticateToken] attaches for the payload [p] of the
    token and the stored user [u]. *)
Definition requestUserOf (p : Jwt.JwtPayload) (u : User.t) : Middleware.RequestUser :=
  {| Middleware.payload := p;
     Middleware.id := User.id u;
     Middleware.name := User.name u;
     Middleware.isActive := User.isActive u;
     Middleware.canAccessPatient := User.canAccessPatient u;
     Middleware.canModifyPatient := User.canModifyPatient u;
     Middleware.isAdmin := User.isAdmin u |}.

(** The stored, active user with the key [userId], as [getUserById]
    finds it. *)
Definition activeUserById (d : AuthService.Database) (userId : string) : option User.t :=
  find (fun u => String.eqb (User.id u) userId && User.isActive u) (AuthService.users d).

Module Sessions.
Import AuthService.

(** No two rows share a token string. *)
Definition uniqueTokens (d : Database) : Prop :=
  NoDup (map RefreshToken.token (refreshTokens d)).

(** No two rows share a primary key. *)
Definition uniqueIds (d : Database) : Prop :=
  NoDup (map RefreshToken.id (refreshTokens d)).

(** The row filter of [logoutFromAllDevices]:
    [{ userId, isRevoked: false }]. *)
Definition liveOf (userId : string) (r : RefreshToken.t) : bool :=
  String.eqb (RefreshToken.userId r) userId && negb (RefreshToken.isRevoked r).


(** Every row that carries the token string [t] is revoked. *)
Definition spentIn (t : Jwt.Token) (rows : list RefreshToken.t) : Prop :=
  forall r, In r rows ->
            RefreshToken.token r = t -> RefreshToken.isRevoked r = true.

Definition spent (t : Jwt.Token) (d : Database) : Prop :=
  spentIn t (refreshTokens d).

(** The row filter of the rotation lookup:
    [{ token: refreshTokenValue, isRevoked: false }]. *)
Definition presented (t : Jwt.Token) (r : RefreshToken.t) : bool :=
  Jwt.eqb (RefreshToken.token r) t && negb (RefreshToken.isRevoked r).

(** The row a rotation inserts for [userId]: its key is the first
    identifier generated, its expiry is computed from the fourth clock
    reading of the call. *)
Definition issuedRow (cfg : JwtService.Config) (env : Env) (userId : string)
           (ip : option string) : RefreshToken.t :=
  {| RefreshToken.id := uuid env 0;
     RefreshToken.token := minted env;
     RefreshToken.userId := userId;
     RefreshToken.expiresAt :=
       clock env 3 + JwtService.seconds (JwtService.REFRESH_TOKEN_EXPIRES_IN cfg) * 1000;
     RefreshToken.isRevoked := false;
     RefreshToken.createdByIp := ip;
     RefreshToken.revokedByIp := None;
     RefreshToken.revokedAt := None |}.

(** The entity [row.revoke(ip)] leaves when the clock reads [d]. *)
Definition revokedCopy (r : RefreshToken.t) (ip : option string) (d : Time)
  : RefreshToken.t :=
  {| RefreshToken.id := RefreshToken.id r;
     RefreshToken.token := RefreshToken.token r;
     RefreshToken.userId := RefreshToken.userId r;
     RefreshToken.expiresAt := RefreshToken.expiresAt r;
     RefreshToken.isRevoked := true;
     RefreshToken.createdByIp := RefreshToken.createdByIp r;
     RefreshToken.revokedByIp := ip;
     RefreshToken.revokedAt := Some d |}.

(** The calls a client can make on the ORM service. *)
Inductive Call :=
| Login (l : LoginRequest) (ip : option string)
| Register (r : RegisterRequest)
| Refresh (t : Jwt.Token) (ip : option string)
| Logout (t : Jwt.Token) (ip : option string)
| LogoutFromAllDevices (userId : string) (ip : option string)
| GetUserById (userId : string).

Section Traces.
Variable cfg : JwtService.Config.
Variable pw : PasswordService.

Local Open Scope io_scope.

Definition perform (c : Call) : M Database unit :=
  match c with
  | Login l ip => login cfg pw l ip ;;; ret tt
  | Register r => register cfg pw r ;;; ret tt
  | Refresh t ip => refreshToken cfg t ip ;;; ret tt
  | Logout t ip => logout t ip
  | LogoutFromAllDevices u ip => logoutFromAllDevices u ip
  | GetUserById u => getUserById u ;;; ret tt
  end.

(** One call, made under its own view of the world, whether it
    succeeds or throws. *)
Definition step (d : Database) (c : Call * Env) : Database :=
  after (perform (fst c)) (snd c) d.

Definition replay (d : Database) (calls : list (Call * Env)) : Database :=
  fold_left step calls d.

End Traces.

End Sessions.

(** The patient row [patientId] was created by [userId]. *)
Definition owns (d : SqlAuthService.Database) (userId patientId : string) : Prop :=
  exists p, In p (SqlAuthService.patients d)
            /\ SqlAuthService.p_id p = patientId
            /\ SqlAuthService.created_by p = userId.

(** Some visit on the patient row [patientId] has [userId] as doctor. *)
Definition treats (d : SqlAuthService.Database) (userId patientId : string) : Prop :=
  exists p v, In p (SqlAuthService.patients d)
              /\ SqlAuthService.p_id p = patientId
              /\ In v (SqlAuthService.visits d)
              /\ SqlAuthService.patient_id v = patientId
              /\ SqlAuthService.doctor_id v = userId.

(** The visit row [visitId] is joined to a stored patient row, and
    [userId] is the doctor of the visit or created that patient. *)
Definition attends (d : SqlAuthService.Database) (userId visitId : string) : Prop :=
  exists v p, In v (SqlAuthService.visits d)
              /\ SqlAuthService.v_id v = visitId
              /\ In p (SqlAuthService.patients d)
              /\ SqlAuthService.p_id p = SqlAuthService.patient_id v
              /\ (SqlAuthService.doctor_id v = userId
                  \/ SqlAuthService.created_by p = userId).

(** [row.token = t] as the lookups test it. *)
Definition carries (t : Jwt.Token) (r : RefreshToken.t) : bool :=
  Jwt.eqb (RefreshToken.token r) t.

(** The first row that carries [t], if there is one, is revoked. *)
Definition loggedOut (t : Jwt.Token) (d : AuthService.Database) : Prop :=
  forall r, find (carries t) (AuthService.refreshTokens d) = Some r ->
            RefreshToken.isRevoked r = true.

(** ** Sample data *)

(** A small seeded store, used to run the calls on concrete inputs. *)
Module Sample.

Definition env : Env :=
  {| clock := fun k => 1700000000000 + Z.of_nat k;
     entropy := fun k => match Byte.of_nat (k mod 256) with
                         | Some b => b
                         | None => Byte.x00
                         end;
     uuid := fun k => match k with
                      | O => "7d1f0c52-0001"
                      | _ => "7d1f0c52-0002"
                      end;
     fault := fun _ => None |}.

(** The same world with a storage driver that rejects every statement. *)
Definition offline : Env :=
  {| clock := clock env; entropy := entropy env; uuid := uuid env;
     fault := fun _ => Some "SQLITE_BUSY: database is locked" |}.

Definition pw : PasswordService :=
  {| verifyPassword := fun p h => String.eqb ("bcrypt:" ++ p) h;
     hashPassword := fun p => "bcrypt:" ++ p;
     validatePasswordStrength :=
       fun p => (Nat.leb 8 (String.length p),
                 ["Password must be at least 8 characters long"]) |}.

Definition admin : User.t :=
  {| User.id := "u-admin"; User.email := "admin@afyatrack.com";
     User.password := "bcrypt:AfyaTrack123!"; User.name := "Admin";
     User.role := User.ADMIN; User.facilityId := None;
     User.isActive := true; User.lastLogin := None |}.

(** A doctor whose account has been deactivated. *)
Definition doctor : User.t :=
  {| User.id := "u-doc"; User.email := "dr.mwalimu@afyatrack.com";
     User.password := "bcrypt:Daktari2024!"; User.name := "Dr Mwalimu";
     User.role := User.DOCTOR; User.facilityId := None;
     User.isActive := false; User.lastLogin := None |}.

Definition nurse : User.t :=
  {| User.id := "u-nurse"; User.email := "nurse.mwamba@afyatrack.com";
     User.password := "bcrypt:Muuguzi2024!"; User.name := "Nurse Mwamba";
     User.role := User.NURSE; User.facilityId := None;
     User.isActive := true; User.lastLogin := None |}.

(** The live session of the deactivated doctor. *)
Definition doctorSession : RefreshToken.t :=
  {| RefreshToken.id := "rt-1"; RefreshToken.token := Jwt.Plain "5ad0c7";
     RefreshToken.userId := "u-doc";
     RefreshToken.expiresAt := 1700000000000 + 86400000;
     RefreshToken.isRevoked := false; RefreshToken.createdByIp := None;
     RefreshToken.revokedByIp := None; RefreshToken.revokedAt := None |}.

(** A session of the nurse, revoked at logout. *)
Definition nurseSession : RefreshToken.t :=
  {| RefreshToken.id := "rt-2"; RefreshToken.token := Jwt.Plain "91e3b4";
     RefreshToken.userId := "u-nurse";
     RefreshToken.expiresAt := 1700000000000 + 86400000;
     RefreshToken.isRevoked := true; RefreshToken.createdByIp := None;
     RefreshToken.revokedByIp := Some "10.0.0.7";
     RefreshToken.revokedAt := Some 1699999000000 |}.

(** The live session of the administrator. *)
Definition adminSession : RefreshToken.t :=
  {| RefreshToken.id := "rt-3"; RefreshToken.token := Jwt.Plain "c4f1aa";
     RefreshToken.userId := "u-admin";
     RefreshToken.expiresAt := 1700000000000 + 86400000;
     RefreshToken.isRevoked := false; RefreshToken.createdByIp := None;
     RefreshToken.revokedByIp := None; RefreshToken.revokedAt := None |}.

Definition store : AuthService.Database :=
  {| AuthService.users := [admin; doctor; nurse];
     AuthService.refreshTokens := [doctorSession; nurseSession; adminSession];
     AuthService.facilities := [] |}.

Definition adminLogin : AuthService.LoginRequest :=
  {| AuthService.l_email := "Admin@AfyaTrack.com";
     AuthService.l_password := "AfyaTrack123!" |}.


(** An access token of the service for [u] with the role claim
    [role], signed 100 seconds before the sample clock and good for
    fifteen minutes. *)
Definition accessOf (u : User.t) (role : string) : Jwt.Token :=
  Jwt.Signed (JwtService.ACCESS_TOKEN_SECRET JwtService.defaults)
    {| Jwt.payload := {| Jwt.userId := User.id u; Jwt.email := User.email u;
                         Jwt.role := role; Jwt.facilityId := User.facilityId u |};
       Jwt.iat := 1699999900; Jwt.exp := Some 1700000800;
       Jwt.iss := Some "afyatrack-api"; Jwt.aud := Some "afyatrack-frontend" |}.

(** The SQL service's store: one doctor, one patient the doctor
    registered, one patient the doctor has seen, one stranger. *)
Definition sqlDoctor : SqlAuthService.UserRow :=
  {| SqlAuthService.id := "u-doc"; SqlAuthService.email := "dr.mwalimu@afyatrack.com";
     SqlAuthService.password := "bcrypt:Daktari2024!";
     SqlAuthService.first_name := "Juma"; SqlAuthService.last_name := "Mwalimu";
     SqlAuthService.role := "doctor"; SqlAuthService.is_active := true;
     SqlAuthService.last_login := None |}.

Definition sqlSession : SqlAuthService.RefreshTokenRow :=
  {| SqlAuthService.rt_id := "rt-1"; SqlAuthService.user_id := "u-doc";
     SqlAuthService.token := Jwt.Plain "5ad0c7";
     SqlAuthService.expires_at := 1700000000000 + 86400000 |}.

Definition sqlStore : SqlAuthService.Database :=
  {| SqlAuthService.users := [sqlDoctor];
     SqlAuthService.refresh_tokens := [sqlSession];
     SqlAuthService.patients :=
       [{| SqlAuthService.p_id := "p-1"; SqlAuthService.created_by := "u-doc" |};
        {| SqlAuthService.p_id := "p-2"; SqlAuthService.created_by := "u-nurse" |};
        {| SqlAuthService.p_id := "p-3"; SqlAuthService.created_by := "u-nurse" |}];
     SqlAuthService.visits :=
       [{| SqlAuthService.v_id := "v-1"; SqlAuthService.patient_id := "p-2";
           SqlAuthService.doctor_id := "u-doc" |}] |}.

Definition bcrypt : SqlAuthService.Bcrypt :=
  {| SqlAuthService.hash := fun p _ => "bcrypt:" ++ p;
     SqlAuthService.compare := fun p h => String.eqb ("bcrypt:" ++ p) h |}.

Definition doctorVisitRequest (visitId : string) : SqlMiddleware.VisitRequest :=
  {| SqlMiddleware.visitUser :=
       Some {| SqlMiddleware.id := "u-doc";
               SqlMiddleware.email := "dr.mwalimu@afyatrack.com";
               SqlMiddleware.role := "doctor";
               SqlMiddleware.firstName := "Juma";
               SqlMiddleware.lastName := "Mwalimu" |};
     SqlMiddleware.paramsVisitId := Some visitId;
     SqlMiddleware.bodyVisitId := None |}.

Definition doctorRequest (patientId : string) : SqlMiddleware.Request :=
  {| SqlMiddleware.user :=
       Some {| SqlMiddleware.id := "u-doc";
               SqlMiddleware.email := "dr.mwalimu@afyatrack.com";
               SqlMiddleware.role := "doctor";
               SqlMiddleware.firstName := "Juma";
               SqlMiddleware.lastName := "Mwalimu" |};
     SqlMiddleware.paramsPatientId := Some patientId;
     SqlMiddleware.bodyPatientId := None |}.

End Sample.

(** * Proofs *)

Unset Implicit Arguments.

Arguments Str.toHex : simpl never.
Arguments Str.toLowerCase : simpl never.
Arguments draw : simpl never.
Arguments AuthService.upsert : simpl never.
Arguments JwtService.seconds : simpl never.
Arguments Jwt.claimMatches : simpl never.
Arguments Jwt.expired : simpl never.

(** ** Symbolic execution of a call *)

(** Unfolds the monad and the service code down to the primitive
    effects. *)
Ltac io_unfold :=
  unfold after, outcome, writes, run,
    Sessions.replay, Sessions.step, Sessions.perform,
    Middleware.authenticateToken,
    AuthService.login, AuthService.register, AuthService.refreshToken,
    AuthService.logout, AuthService.logoutFromAllDevices,
    AuthService.cleanupExpiredTokens, AuthService.saveRefreshToken,
    AuthService.getUserById, AuthService.sql, AuthService.dml,
    SqlMiddleware.authorizePatientAccess,
    SqlAuthService.logout, SqlAuthService.refreshToken,
    SqlAuthService.cleanExpiredTokens, SqlAuthService.generateTokens,
    SqlAuthService.dbManager.get, SqlAuthService.dbManager.run,
    JwtService.verifyAccessToken,
    JwtService.generateTokenPair, JwtService.generateAccessToken,
    JwtService.generateRefreshToken,
    JwtService.getRefreshTokenExpirationDate, JwtService.getTokenExpirationDate,
    RefreshToken.isActive, RefreshToken.revoke,
    Jwt.verify, Jwt.sign, Jwt.clockTimestamp,
    query, update, statement, try, bind, ret, throw, now, randomBytes, freshId,
    start in *.

(** Case analysis on the innermost scrutinee the goal is stuck on. *)
Ltac crack :=
  match goal with
  | |- context [match ?x with _ => _ end] =>
      lazymatch x with
      | context [match _ with _ => _ end] => fail
      | _ => destruct x eqn:?
      end
  end.

(** The same in a hypothesis. *)
Ltac crack_in H :=
  match type of H with
  | context [match ?x with _ => _ end] =>
      lazymatch x with
      | context [match _ with _ => _ end] => fail
      | _ => destruct x eqn:?
      end
  end.

(** ** Strings *)

Lemma toHex_length (bs : list byte) :
  String.length (Str.toHex bs) = (2 * length bs)%nat.
Proof.
  induction bs as [|b bs IH]; [reflexivity|].
  change (S (S (String.length (Str.toHex bs))) = (2 * S (length bs))%nat).
  rewrite IH. lia.
Qed.

Lemma hexDigit_isHexDigit (n : N) : Str.isHexDigit (Str.hexDigit n) = true.
Proof.
  destruct n as [|p]; [reflexivity|].
  do 4 (destruct p as [p|p|]; try reflexivity).
Qed.

Lemma toHex_hex (bs : list byte) :
  Str.forallb Str.isHexDigit (Str.toHex bs) = true.
Proof.
  induction bs as [|b bs IH]; [reflexivity|].
  change (Str.isHexDigit (Str.hexDigit (Byte.to_N b / 16))
          && (Str.isHexDigit (Str.hexDigit (Byte.to_N b mod 16))
              && Str.forallb Str.isHexDigit (Str.toHex bs)) = true).
  now rewrite !hexDigit_isHexDigit, IH.
Qed.

Lemma draw_length (env : Env) (from n : nat) : length (draw env from n) = n.
Proof. unfold draw. now rewrite length_map, length_seq. Qed.

Lemma minted_opaque (env : Env) : opaqueHex (minted env).
Proof. exists (draw env 0 64). split; [apply draw_length | reflexivity]. Qed.

Lemma opaqueHex_shape (t : Jwt.Token) :
  opaqueHex t ->
  exists h, t = Jwt.Plain h /\ String.length h = 128%nat
            /\ Str.forallb Str.isHexDigit h = true.
Proof.
  intros (bs & Hlen & ->). exists (Str.toHex bs). split; [reflexivity|].
  split; [rewrite toHex_length, Hlen; reflexivity | apply toHex_hex].
Qed.

Lemma Jwt_eqb_eq (x y : Jwt.Token) : Jwt.eqb x y = true <-> x = y.
Proof.
  unfold Jwt.eqb. destruct (Jwt.Token_eq_dec x y); split; congruence.
Qed.

Lemma Jwt_eqb_refl (x : Jwt.Token) : Jwt.eqb x x = true.
Proof. now apply Jwt_eqb_eq. Qed.

Lemma Jwt_eqb_neq (x y : Jwt.Token) : Jwt.eqb x y = false <-> x <> y.
Proof.
  unfold Jwt.eqb. destruct (Jwt.Token_eq_dec x y); split; congruence.
Qed.

(** ** Access-token verification *)

Lemma claimMatches_Some (e : string) (a : option string) :
  Jwt.claimMatches (Some e) a = true <-> a = Some e.
Proof.
  unfold Jwt.claimMatches.
  destruct a as [a|]; [|split; discriminate].
  rewrite String.eqb_eq. split; congruence.
Qed.

(** [verifyAccessToken] as a function of the token and of the one clock
    reading it makes. *)
Lemma verifyAccessToken_run (D : Type) (cfg : JwtService.Config)
      (token : Jwt.Token) (env : Env) (w : World D) :
  JwtService.verifyAccessToken cfg token env w =
  (match token with
   | Jwt.Plain _ => Throw (Error "Invalid access token")
   | Jwt.Garbled _ => Throw (Error "Token verification failed")
   | Jwt.Signed key c =>
       if negb (String.eqb key (JwtService.ACCESS_TOKEN_SECRET cfg))
       then Throw (Error "Invalid access token")
       else if Jwt.expired c (clock env (ticks w) / 1000)
       then Throw (Error "Access token expired")
       else if negb (Jwt.claimMatches (Some "afyatrack-frontend") (Jwt.aud c))
       then Throw (Error "Invalid access token")
       else if negb (Jwt.claimMatches (Some "afyatrack-api") (Jwt.iss c))
       then Throw (Error "Invalid access token")
       else Ok (Jwt.payload c)
   end,
   {| db := db w; ticks := S (ticks w); drawn := drawn w; ids := ids w;
      stmts := stmts w; history := history w |}).
Proof.
  io_unfold. cbn.
  destruct token as [key c|s|s]; cbn; try reflexivity.
  - repeat (crack; cbn; try reflexivity).
  - destruct (Str.truthy s); reflexivity.
Qed.

(** C8, as amended: [verifyAccessToken] issues no storage statement and
    leaves the database alone; on every input it returns the embedded
    payload or throws one of three errors.  It returns the payload
    exactly for a token signed with the access secret, not yet expired,
    with the service's issuer and audience; it throws "Access token
    expired" exactly when the signature is valid and the expiry has
    passed, "Token verification failed" exactly when the library
    raises an exception outside its own [JsonWebTokenError] family,
    and "Invalid access token" in every other case. *)
Theorem verifyAccessToken_outcomes (D : Type) (cfg : JwtService.Config)
        (token : Jwt.Token) (env : Env) (d : D) :
  let secret := JwtService.ACCESS_TOKEN_SECRET cfg in
  let t := clock env 0 / 1000 in
  let r := outcome (JwtService.verifyAccessToken cfg token) env d in
  let w := snd (run (JwtService.verifyAccessToken cfg token) env d) in
  (stmts w = 0%nat /\ db w = d /\ history w = [])
  /\ (forall p, r = Ok p <->
                exists c, token = Jwt.Signed secret c /\ Jwt.payload c = p
                          /\ Jwt.expired c t = false
                          /\ Jwt.aud c = Some "afyatrack-frontend"
                          /\ Jwt.iss c = Some "afyatrack-api")
  /\ (r = Throw (Error "Access token expired") <->
      exists c, token = Jwt.Signed secret c /\ Jwt.expired c t = true)
  /\ (r = Throw (Error "Token verification failed") <->
      exists s, token = Jwt.Garbled s)
  /\ (isOk r = true
      \/ r = Throw (Error "Access token expired")
      \/ r = Throw (Error "Invalid access token")
      \/ r = Throw (Error "Token verification failed")).
Proof.
  cbv zeta. unfold outcome, run. rewrite verifyAccessToken_run. cbn.
  split; [now repeat split|].
  assert (Hm : forall e a, Jwt.claimMatches (Some e) a = false -> a <> Some e).
  { intros e a Hf Ha. apply claimMatches_Some in Ha. congruence. }
  destruct token as [key c|s|s]; cbn.
  - destruct (String.eqb_spec key (JwtService.ACCESS_TOKEN_SECRET cfg)) as [->|Hk]; cbn.
    + destruct (Jwt.expired c (clock env 0 / 1000)) eqn:Hexp; cbn.
      * repeat split; try discriminate; eauto.
        -- intros (c' & Hc & _ & Hl & _). congruence.
        -- intros (? & ?). discriminate.
      * destruct (Jwt.claimMatches (Some "afyatrack-frontend") (Jwt.aud c)) eqn:Haud; cbn.
        -- destruct (Jwt.claimMatches (Some "afyatrack-api") (Jwt.iss c)) eqn:Hiss; cbn.
           ++ apply claimMatches_Some in Haud, Hiss.
              repeat split; try discriminate; eauto.
              ** intros H. exists c. inversion H. now repeat split.
              ** intros (c' & Hc & Hp & _). congruence.
              ** intros (c' & Hc & He). congruence.
              ** intros (? & ?). discriminate.
           ++ apply Hm in Hiss.
              repeat split; try discriminate; eauto.
              ** intros (c' & Hc & _ & _ & _ & Hi). congruence.
              ** intros (c' & Hc & He). congruence.
              ** intros (? & ?). discriminate.
        -- apply Hm in Haud.
           repeat split; try discriminate; eauto.
           ++ intros (c' & Hc & _ & _ & Ha & _). congruence.
           ++ intros (c' & Hc & He). congruence.
           ++ intros (? & ?). discriminate.
    + repeat split; try discriminate; eauto.
      * intros (c' & Hc & _). congruence.
      * intros (c' & Hc & _). congruence.
      * intros (? & ?). discriminate.
  - repeat split; try discriminate; eauto.
    + intros (? & ? & _). discriminate.
    + intros (? & ? & _). discriminate.
  - repeat split; try discriminate; eauto.
    + intros (? & ? & _). discriminate.
    + intros (? & ? & _). discriminate.
    + intros (? & ?). discriminate.
Qed.

(** C8, as stated, fails: a compact token whose payload part is not
    JSON makes the library raise a [SyntaxError], and the service
    answers with a third error, "Token verification failed". *)
Lemma verifyAccessToken_third_error :
  ~ (forall (token : Jwt.Token) (env : Env) (d : unit),
        let r := outcome (JwtService.verifyAccessToken JwtService.defaults token) env d in
        isOk r = true
        \/ r = Throw (Error "Access token expired")
        \/ r = Throw (Error "Invalid access token")).
Proof.
  intros H.
  specialize (H (Jwt.Garbled "eyJhbGciOiJIUzI1NiIsInR5cCI6IkpXVCJ9.bm90anNvbg.c2ln")
                {| clock := fun _ => 0; entropy := fun _ => Byte.x00;
                   uuid := fun _ => ""; fault := fun _ => None |} tt).
  cbv in H. destruct H as [H|[H|H]]; discriminate.
Qed.

(** ** Issuance of refresh tokens *)

(** Runs the symbolic execution of a successful call to its end. *)
Ltac io_success H :=
  io_unfold; cbn in H;
  repeat (crack_in H; cbn in H; try discriminate H).

Lemma login_mints cfg pw l ip env d resp :
  outcome (AuthService.login cfg pw l ip) env d = Ok resp ->
  AuthService.refreshToken_ resp = minted env.
Proof. intros H. io_success H. now inversion H. Qed.

Lemma register_mints cfg pw r env d resp :
  outcome (AuthService.register cfg pw r) env d = Ok resp ->
  AuthService.refreshToken_ resp = minted env.
Proof. intros H. io_success H. all: now inversion H. Qed.

Lemma refreshToken_mints cfg t ip env d resp :
  outcome (AuthService.refreshToken cfg t ip) env d = Ok resp ->
  AuthService.refreshToken_ resp = minted env.
Proof. intros H. io_success H. all: now inversion H. Qed.

Lemma verify_rejects_opaque (D : Type) (t : Jwt.Token) (secret : string)
      (o : Jwt.VerifyOptions) (env : Env) (d : D) :
  opaqueHex t ->
  exists m, outcome (Jwt.verify t secret o) env d = Throw (JsonWebTokenError m).
Proof.
  intros (bs & _ & ->). io_unfold. cbn.
  destruct (Str.truthy (Str.toHex bs)); eexists; reflexivity.
Qed.

Lemma generateTokens_signed config u e r env d tk :
  outcome (SqlAuthService.generateTokens config u e r) env d = Ok tk ->
  SqlAuthService.refreshToken_ tk =
  Jwt.Signed (SqlAuthService.JWT_SECRET config)
    {| Jwt.payload := SqlAuthService.JWTPayload u e r;
       Jwt.iat := clock env 1 / 1000;
       Jwt.exp := Some (clock env 1 / 1000
                        + JwtService.seconds (SqlAuthService.JWT_REFRESH_EXPIRES_IN config));
       Jwt.iss := None;
       Jwt.aud := None |}.
Proof. intros H. io_success H. now inversion H. Qed.

Lemma verify_accepts_signed (D : Type) (secret : string) (c : Jwt.Claims)
      (env : Env) (d : D) :
  Jwt.expired c (clock env 0 / 1000) = false ->
  run (Jwt.verify (Jwt.Signed secret c) secret
         {| Jwt.v_issuer := None; Jwt.v_audience := None |}) env d
  = (Ok c, {| db := d; ticks := 1; drawn := 0; ids := 0; stmts := 0; history := [] |}).
Proof.
  intros He. io_unfold. cbn. now rewrite String.eqb_refl, He.
Qed.

(** C5, as amended: every refresh token the ORM service returns from
    login, registration and rotation is the hex encoding of the 64
    bytes it drew from the random source, 128 hex digits, and the
    library rejects such a string under every secret.  The SQL
    service's [generateTokens] instead returns as refresh token a
    token signed with [JWT_SECRET], which [jwt.verify] accepts, until
    it expires, without issuing a storage statement. *)
Theorem refresh_token_issuance (cfg : JwtService.Config) (pw : PasswordService)
        (config : SqlAuthService.Config) (env : Env) :
  (forall d resp,
      (exists l ip, outcome (AuthService.login cfg pw l ip) env d = Ok resp)
      \/ (exists r, outcome (AuthService.register cfg pw r) env d = Ok resp)
      \/ (exists t ip, outcome (AuthService.refreshToken cfg t ip) env d = Ok resp) ->
      let issued := AuthService.refreshToken_ resp in
      issued = Jwt.Plain (Str.toHex (draw env 0 64))
      /\ length (draw env 0 64) = 64%nat
      /\ (exists h, issued = Jwt.Plain h /\ String.length h = 128%nat
                    /\ Str.forallb Str.isHexDigit h = true)
      /\ (forall (D : Type) secret o env' (d' : D),
             exists m, outcome (Jwt.verify issued secret o) env' d'
                       = Throw (JsonWebTokenError m)))
  /\ (forall d u e r tk,
         outcome (SqlAuthService.generateTokens config u e r) env d = Ok tk ->
         let issued := SqlAuthService.refreshToken_ tk in
         let expiry := clock env 1 / 1000
                       + JwtService.seconds (SqlAuthService.JWT_REFRESH_EXPIRES_IN config) in
         (exists c, issued = Jwt.Signed (SqlAuthService.JWT_SECRET config) c
                    /\ Jwt.payload c = SqlAuthService.JWTPayload u e r
                    /\ Jwt.exp c = Some expiry)
         /\ (forall (D : Type) env' (d' : D),
                clock env' 0 / 1000 < expiry ->
                let v := run (Jwt.verify issued (SqlAuthService.JWT_SECRET config)
                                {| Jwt.v_issuer := None; Jwt.v_audience := None |})
                             env' d' in
                isOk (fst v) = true /\ stmts (snd v) = 0%nat)).
Proof.
  split.
  - intros d resp H.
    assert (Hm : AuthService.refreshToken_ resp = minted env).
    { destruct H as [(l & ip & H)|[(r & H)|(t & ip & H)]];
        eauto using login_mints, register_mints, refreshToken_mints. }
    cbv zeta. rewrite Hm. split; [reflexivity|]. split; [apply draw_length|].
    split; [apply opaqueHex_shape, minted_opaque|].
    intros. apply verify_rejects_opaque, minted_opaque.
  - intros d u e r tk H. apply generateTokens_signed in H. cbv zeta. rewrite H.
    split; [eexists; repeat split|].
    intros D env' d' Hlt. rewrite verify_accepts_signed.
    + now split.
    + unfold Jwt.expired. cbn. apply Z.leb_gt. exact Hlt.
Qed.

(** C5, as stated, fails on the SQL service: the refresh token that
    [generateTokens] returns is a signed token, not the hex encoding
    of random bytes. *)
Lemma sql_refresh_token_is_signed :
  ~ (forall env d u e r tk,
        outcome (SqlAuthService.generateTokens SqlAuthService.defaults u e r) env d = Ok tk ->
        opaqueHex (SqlAuthService.refreshToken_ tk)).
Proof.
  intros H.
  specialize (H Sample.env Sample.sqlStore "u-doc" "dr.mwalimu@afyatrack.com" "doctor").
  vm_compute in H.
  destruct (H _ eq_refl) as (bs & _ & E). discriminate E.
Qed.

(** The administrator's login on the sample store returns an opaque
    refresh token. *)
Lemma refresh_token_issuance_witness :
  match outcome (AuthService.login JwtService.defaults Sample.pw Sample.adminLogin None)
                Sample.env Sample.store with
  | Ok resp =>
      exists h, AuthService.refreshToken_ resp = Jwt.Plain h
                /\ String.length h = 128%nat
                /\ Str.forallb Str.isHexDigit h = true
  | Throw _ => False
  end.
Proof.
  destruct (outcome (AuthService.login JwtService.defaults Sample.pw Sample.adminLogin None)
                    Sample.env Sample.store) as [resp|e] eqn:E.
  - destruct (refresh_token_issuance JwtService.defaults Sample.pw
                SqlAuthService.defaults Sample.env) as [H _].
    apply (H Sample.store resp). left. exists Sample.adminLogin, None. exact E.
  - vm_compute in E. discriminate E.
Defined.

(** ** Access tokens and the refresh-token table *)

Lemma verifyAccessToken_stateless (D D' : Type) cfg token env (d : D) (d' : D') :
  outcome (JwtService.verifyAccessToken cfg token) env d
  = outcome (JwtService.verifyAccessToken cfg token) env d'.
Proof. unfold outcome, run. now rewrite !verifyAccessToken_run. Qed.

Lemma authenticateToken_ignores_sessions cfg bearer env d ts :
  outcome (Middleware.authenticateToken cfg bearer) env
          (AuthService.withRefreshTokens d ts)
  = outcome (Middleware.authenticateToken cfg bearer) env d.
Proof.
  destruct d as [us rs fs].
  unfold outcome, run, Middleware.authenticateToken, try, bind.
  destruct bearer as [token|]; [|reflexivity].
  destruct (Jwt.truthy token); [|reflexivity]. cbn -[JwtService.verifyAccessToken].
  rewrite !verifyAccessToken_run. io_unfold. cbn.
  unfold AuthService.facilityOf. cbn.
  repeat (crack; cbn; try reflexivity).
Qed.

Lemma revokeEach_run rows ip env (w : World AuthService.Database) :
  exists rows',
    AuthService.revokeEach rows ip env w
    = (Ok rows',
       {| db := db w; ticks := (ticks w + length rows)%nat; drawn := drawn w;
          ids := ids w; stmts := stmts w; history := history w |})
    /\ length rows' = length rows
    /\ Forall (fun r => RefreshToken.isRevoked r = true) rows'.
Proof.
  revert w. induction rows as [|r rows IH]; intros w.
  - exists []. cbn. unfold ret. rewrite Nat.add_0_r. destruct w. now repeat split.
  - cbn. io_unfold. cbn.
    destruct (IH {| db := db w; ticks := S (ticks w); drawn := drawn w; ids := ids w;
                    stmts := stmts w; history := history w |}) as (rows' & E & Hl & Hr).
    rewrite E. cbn. eexists. split; [|split].
    + f_equal. f_equal. lia.
    + cbn. now rewrite Hl.
    + constructor; [reflexivity | exact Hr].
Qed.

(** The calls that end or renew a session write to the refresh-token
    table only. *)
Lemma logout_touches_sessions t ip env d :
  exists ts, after (AuthService.logout t ip) env d = AuthService.withRefreshTokens d ts.
Proof.
  destruct d as [us rs fs]. io_unfold. cbn.
  repeat (crack; cbn); eexists; unfold AuthService.withRefreshTokens; cbn; reflexivity.
Qed.

Lemma refreshToken_touches_sessions cfg t ip env d :
  exists ts, after (AuthService.refreshToken cfg t ip) env d
             = AuthService.withRefreshTokens d ts.
Proof.
  destruct d as [us rs fs]. io_unfold. cbn.
  repeat (crack; cbn); eexists; unfold AuthService.withRefreshTokens; cbn; reflexivity.
Qed.

Lemma logoutFromAllDevices_touches_sessions u ip env d :
  exists ts, after (AuthService.logoutFromAllDevices u ip) env d
             = AuthService.withRefreshTokens d ts.
Proof.
  destruct d as [us rs fs].
  unfold after, run, AuthService.logoutFromAllDevices, bind, AuthService.sql, query,
    statement, start. cbn.
  destruct (fault env 0); cbn; [eexists; unfold AuthService.withRefreshTokens; cbn; reflexivity|].
  match goal with
  | |- context [AuthService.revokeEach ?rows ?ip ?env ?w] =>
      destruct (revokeEach_run rows ip env w) as (rows' & E & _ & _); rewrite E
  end.
  cbn. io_unfold. cbn.
  repeat (crack; cbn); eexists; unfold AuthService.withRefreshTokens; cbn; reflexivity.
Qed.

(** The access token a successful login returns. *)
Lemma login_access_token cfg pw l ip env d resp :
  outcome (AuthService.login cfg pw l ip) env d = Ok resp ->
  exists p,
    AuthService.token resp
    = Jwt.Signed (JwtService.ACCESS_TOKEN_SECRET cfg)
        {| Jwt.payload := p;
           Jwt.iat := clock env 1 / 1000;
           Jwt.exp := Some (clock env 1 / 1000
                            + JwtService.seconds (JwtService.ACCESS_TOKEN_EXPIRES_IN cfg));
           Jwt.iss := Some "afyatrack-api";
           Jwt.aud := Some "afyatrack-frontend" |}
    /\ Jwt.userId p = AuthService.uv_id (AuthService.user resp)
    /\ Jwt.email p = AuthService.uv_email (AuthService.user resp)
    /\ Jwt.role p = AuthService.uv_role (AuthService.user resp).
Proof.
  intros H. io_success H. inversion H. cbn. eexists. split; [reflexivity|]. now repeat split.
Qed.

(** C7: the result of access-token verification does not depend on the
    store (same token, same clock: same result on any two stores), the
    authenticating middleware answers the same whatever the
    refresh-token table holds, and logout, rotation and logout from
    all devices change that table only.  So the access token of a
    logged-out session still verifies, to the identity it was issued
    for, until its own expiry, and is refused as expired from then
    on. *)
Theorem access_token_outlives_session (cfg : JwtService.Config) (pw : PasswordService) :
  (forall token env (d d' : AuthService.Database),
      outcome (JwtService.verifyAccessToken cfg token) env d
      = outcome (JwtService.verifyAccessToken cfg token) env d')
  /\ (forall bearer env d ts,
         outcome (Middleware.authenticateToken cfg bearer) env
                 (AuthService.withRefreshTokens d ts)
         = outcome (Middleware.authenticateToken cfg bearer) env d)
  /\ (forall t ip u env d,
         (exists ts, after (AuthService.logout t ip) env d
                     = AuthService.withRefreshTokens d ts)
         /\ (exists ts, after (AuthService.refreshToken cfg t ip) env d
                        = AuthService.withRefreshTokens d ts)
         /\ (exists ts, after (AuthService.logoutFromAllDevices u ip) env d
                        = AuthService.withRefreshTokens d ts))
  /\ (forall l ip env d resp,
         outcome (AuthService.login cfg pw l ip) env d = Ok resp ->
         forall ip' env' env'',
           let d1 := after (AuthService.login cfg pw l ip) env d in
           let d2 := after (AuthService.logout (AuthService.refreshToken_ resp) ip') env' d1 in
           let expiry := clock env 1 / 1000
                         + JwtService.seconds (JwtService.ACCESS_TOKEN_EXPIRES_IN cfg) in
           let verdict := outcome (JwtService.verifyAccessToken cfg (AuthService.token resp))
                                  env'' d2 in
           (clock env'' 0 / 1000 < expiry ->
            exists p, verdict = Ok p
                      /\ Jwt.userId p = AuthService.uv_id (AuthService.user resp)
                      /\ Jwt.email p = AuthService.uv_email (AuthService.user resp))
           /\ (expiry <= clock env'' 0 / 1000 ->
               verdict = Throw (Error "Access token expired"))).
Proof.
  split; [intros; apply verifyAccessToken_stateless|].
  split; [intros; apply authenticateToken_ignores_sessions|].
  split.
  { intros. split; [apply logout_touches_sessions|].
    split; [apply refreshToken_touches_sessions|apply logoutFromAllDevices_touches_sessions]. }
  intros l ip env d resp H ip' env' env''. cbv zeta.
  destruct (login_access_token _ _ _ _ _ _ _ H) as (p & Htok & Hid & Hmail & _).
  unfold outcome, run. rewrite verifyAccessToken_run, Htok. cbn.
  rewrite String.eqb_refl. cbn. unfold Jwt.expired. cbn.
  split.
  - intros Hlt. apply Z.leb_gt in Hlt. rewrite Hlt. cbn.
    unfold Jwt.claimMatches. cbn. eauto.
  - intros Hle. apply Z.leb_le in Hle. now rewrite Hle.
Qed.

(** On the sample store: the administrator logs in, logs out, and the
    access token still verifies one hour later. *)
Lemma access_token_outlives_session_witness :
  match outcome (AuthService.login JwtService.defaults Sample.pw Sample.adminLogin None)
                Sample.env Sample.store with
  | Ok resp =>
      let d1 := after (AuthService.login JwtService.defaults Sample.pw Sample.adminLogin None)
                      Sample.env Sample.store in
      let d2 := after (AuthService.logout (AuthService.refreshToken_ resp) None)
                      Sample.env d1 in
      let later := {| clock := fun _ => 1700000000000 + 3600000;
                      entropy := entropy Sample.env; uuid := uuid Sample.env;
                      fault := fault Sample.env |} in
      exists p,
        outcome (JwtService.verifyAccessToken JwtService.defaults (AuthService.token resp))
                later d2 = Ok p
        /\ Jwt.userId p = AuthService.uv_id (AuthService.user resp)
        /\ Jwt.email p = AuthService.uv_email (AuthService.user resp)
  | Throw _ => False
  end.
Proof.
  destruct (outcome (AuthService.login JwtService.defaults Sample.pw Sample.adminLogin None)
                    Sample.env Sample.store) as [resp|e] eqn:E.
  - destruct (access_token_outlives_session JwtService.defaults Sample.pw)
      as (_ & _ & _ & H).
    apply (H _ _ _ _ _ E None Sample.env). vm_compute. reflexivity.
  - vm_compute in E. discriminate E.
Defined.

(** ** Patient-access authorization *)

Lemma hasAccess_spec patientId userId d :
  SqlMiddleware.hasAccess patientId userId d = true
  <-> owns d userId patientId \/ treats d userId patientId.
Proof.
  unfold SqlMiddleware.hasAccess, owns, treats. rewrite existsb_exists. split.
  - intros (p & Hp & H). apply andb_true_iff in H. destruct H as [Hid H].
    apply String.eqb_eq in Hid. apply orb_true_iff in H. destruct H as [H|H].
    + apply String.eqb_eq in H. left. eauto.
    + apply existsb_exists in H. destruct H as (v & Hv & H).
      apply andb_true_iff in H. destruct H as [H1 H2].
      apply String.eqb_eq in H1, H2. right. exists p, v.
      repeat split; congruence.
  - intros [(p & Hp & Hid & Hc)|(p & v & Hp & Hid & Hv & Hpv & Hd)];
      exists p; (split; [exact Hp|]); apply andb_true_iff;
      (split; [now apply String.eqb_eq|]); apply orb_true_iff.
    + left. now apply String.eqb_eq.
    + right. apply existsb_exists. exists v. split; [exact Hv|].
      apply andb_true_iff. split; apply String.eqb_eq; congruence.
Qed.

(** C9: for an authenticated request that names a patient, the
    ownership check lets the request through exactly when the user is
    an administrator, or created the patient row, or is the doctor of
    some visit on that patient; it never writes.  When the lookup is
    rejected by the storage driver the request is let through only
    for an administrator (for whom no lookup is made); every other
    user is denied with the driver's error.  A user who is none of
    the three is denied with status 403. *)
Theorem authorizePatientAccess_decision
        (req : SqlMiddleware.Request) (u : SqlMiddleware.RequestUser)
        (patientId : string) (env : Env) (d : SqlAuthService.Database) :
  SqlMiddleware.user req = Some u ->
  SqlMiddleware.orElse (SqlMiddleware.paramsPatientId req)
                       (SqlMiddleware.bodyPatientId req) = Some patientId ->
  Str.truthy patientId = true ->
  let r := outcome (SqlMiddleware.authorizePatientAccess req) env d in
  let userId := SqlMiddleware.id u in
  let isAdmin := SqlMiddleware.role u = "admin" in
  (fault env 0 = None ->
   (r = Ok tt <-> isAdmin \/ owns d userId patientId \/ treats d userId patientId)
   /\ (r <> Ok tt -> r = Throw (AppError "Access denied to patient data" 403)))
  /\ (forall msg, fault env 0 = Some msg ->
                  (r = Ok tt <-> isAdmin)
                  /\ (~ isAdmin -> r = Throw (DriverError msg)))
  /\ after (SqlMiddleware.authorizePatientAccess req) env d = d.
Proof.
  intros Hu Hp Ht. cbv zeta.
  unfold outcome, after, run, SqlMiddleware.authorizePatientAccess.
  rewrite Hu, Hp, Ht. cbn.
  destruct (String.eqb_spec (SqlMiddleware.role u) "admin") as [Ha|Ha].
  - cbn. repeat split; auto; try congruence.
  - io_unfold. cbn. split; [|split].
    + intros Hf. rewrite Hf. cbn.
      destruct (SqlMiddleware.hasAccess patientId (SqlMiddleware.id u) d) eqn:Hacc; cbn.
      * apply hasAccess_spec in Hacc. repeat split; auto; try congruence.
      * assert (Hn : ~ (owns d (SqlMiddleware.id u) patientId
                        \/ treats d (SqlMiddleware.id u) patientId)).
        { rewrite <- hasAccess_spec. congruence. }
        repeat split; auto; try discriminate. intros [?|?]; tauto.
    + intros msg Hf. rewrite Hf. cbn. repeat split; auto; try discriminate; tauto.
    + destruct (fault env 0); cbn; [reflexivity|].
      destruct (SqlMiddleware.hasAccess patientId (SqlMiddleware.id u) d); reflexivity.
Qed.

(** On the sample store the doctor reaches a patient of another user
    through a visit. *)
Lemma authorizePatientAccess_decision_witness :
  outcome (SqlMiddleware.authorizePatientAccess (Sample.doctorRequest "p-2"))
          Sample.env Sample.sqlStore = Ok tt
  /\ outcome (SqlMiddleware.authorizePatientAccess (Sample.doctorRequest "p-3"))
             Sample.env Sample.sqlStore
     = Throw (AppError "Access denied to patient data" 403)
  /\ outcome (SqlMiddleware.authorizePatientAccess (Sample.doctorRequest "p-2"))
             Sample.offline Sample.sqlStore
     = Throw (DriverError "SQLITE_BUSY: database is locked").
Proof.
  split; [|split].
  - apply (@authorizePatientAccess_decision
             (Sample.doctorRequest "p-2")
             {| SqlMiddleware.id := "u-doc";
                SqlMiddleware.email := "dr.mwalimu@afyatrack.com";
                SqlMiddleware.role := "doctor";
                SqlMiddleware.firstName := "Juma";
                SqlMiddleware.lastName := "Mwalimu" |}
             "p-2" Sample.env Sample.sqlStore eq_refl eq_refl eq_refl); [reflexivity|].
    right. right. unfold treats.
    exists {| SqlAuthService.p_id := "p-2"; SqlAuthService.created_by := "u-nurse" |},
           {| SqlAuthService.v_id := "v-1"; SqlAuthService.patient_id := "p-2";
              SqlAuthService.doctor_id := "u-doc" |}.
    cbn. tauto.
  - vm_compute. reflexivity.
  - vm_compute. reflexivity.
Defined.

(** ** The sweeps *)







(** ** Logout *)

Lemma upsert_present {A} (key : A -> string) (x : A) (rows : list A) :
  In x rows \/ (exists y, In y rows /\ key y = key x) ->
  AuthService.upsert key x rows
  = map (fun r => if String.eqb (key r) (key x) then x else r) rows.
Proof.
  intros H. unfold AuthService.upsert.
  assert (E : existsb (fun r => String.eqb (key r) (key x)) rows = true).
  { apply existsb_exists. destruct H as [H|(y & H & Hk)].
    - exists x. split; [exact H | apply String.eqb_refl].
    - exists y. split; [exact H | now apply String.eqb_eq]. }
  now rewrite E.
Qed.

(** After the first row that carries [t] has been replaced, through
    its key, by a revoked copy, the first row that carries [t] is
    revoked. *)
Lemma find_after_revocation t r rc rows r' :
  find (carries t) rows = Some r ->
  RefreshToken.token rc = t ->
  RefreshToken.isRevoked rc = true ->
  RefreshToken.id rc = RefreshToken.id r ->
  find (carries t)
       (map (fun x => if String.eqb (RefreshToken.id x) (RefreshToken.id rc)
                      then rc else x) rows) = Some r' ->
  RefreshToken.isRevoked r' = true.
Proof.
  intros Hf Ht Hr Hid. induction rows as [|x xs IH]; [discriminate|].
  cbn in *. destruct (carries t x) eqn:Hx.
  - inversion Hf; subst x. rewrite Hid, String.eqb_refl.
    unfold carries at 1. rewrite Ht, Jwt_eqb_refl. congruence.
  - destruct (String.eqb (RefreshToken.id x) (RefreshToken.id rc)).
    + unfold carries at 1. rewrite Ht, Jwt_eqb_refl. congruence.
    + rewrite Hx. auto.
Qed.

(** The ORM [logout], statement by statement. *)
Lemma logout_run t ip env d :
  run (AuthService.logout t ip) env d
  = match fault env 0 with
    | Some m => (Throw (DriverError m),
                 {| db := d; ticks := 0; drawn := 0; ids := 0; stmts := 1; history := [] |})
    | None =>
        match find (carries t) (AuthService.refreshTokens d) with
        | None => (Ok tt, {| db := d; ticks := 0; drawn := 0; ids := 0; stmts := 1;
                             history := [] |})
        | Some r =>
            if RefreshToken.isRevoked r
            then (Ok tt, {| db := d; ticks := 0; drawn := 0; ids := 0; stmts := 1;
                            history := [] |})
            else
              match fault env 1 with
              | Some m => (Throw (DriverError m),
                           {| db := d; ticks := 1; drawn := 0; ids := 0; stmts := 2;
                              history := [] |})
              | None =>
                  let d' := AuthService.withRefreshTokens d
                              (AuthService.upsert RefreshToken.id
                                 (Sessions.revokedCopy r ip (clock env 0))
                                 (AuthService.refreshTokens d)) in
                  (Ok tt, {| db := d'; ticks := 1; drawn := 0; ids := 0; stmts := 2;
                             history := [d'] |})
              end
        end
    end.
Proof.
  io_unfold. cbn. unfold carries.
  repeat (crack; cbn in *; try discriminate; try reflexivity).
Qed.

Lemma logout_revokes t ip env d :
  outcome (AuthService.logout t ip) env d = Ok tt ->
  loggedOut t (after (AuthService.logout t ip) env d).
Proof.
  unfold outcome, after. rewrite logout_run.
  destruct (fault env 0); [discriminate|].
  destruct (find (carries t) (AuthService.refreshTokens d)) as [r|] eqn:Hf; cbn.
  - destruct (RefreshToken.isRevoked r) eqn:Hr; cbn.
    + intros _ r' Hr'. congruence.
    + destruct (fault env 1); [discriminate|]. cbn. intros _ r' Hr'.
      assert (Hin : In r (AuthService.refreshTokens d) /\ RefreshToken.token r = t).
      { apply find_some in Hf. destruct Hf as [Hin Hf]. unfold carries in Hf.
        apply Jwt_eqb_eq in Hf. now split. }
      destruct Hin as [Hin Ht].
      unfold AuthService.withRefreshTokens in Hr'. cbn [AuthService.refreshTokens] in Hr'.
      rewrite upsert_present in Hr' by (right; exists r; now split).
      exact (find_after_revocation t r (Sessions.revokedCopy r ip (clock env 0)) _ r'
               Hf Ht eq_refl eq_refl Hr').
  - intros _ r' Hr'. congruence.
Qed.

Lemma logout_again t ip env d :
  loggedOut t d -> fault env 0 = None ->
  run (AuthService.logout t ip) env d
  = (Ok tt, {| db := d; ticks := 0; drawn := 0; ids := 0; stmts := 1; history := [] |}).
Proof.
  intros Hl Hf. rewrite logout_run, Hf.
  destruct (find (carries t) (AuthService.refreshTokens d)) as [r|] eqn:E; [|reflexivity].
  now rewrite (Hl r E).
Qed.

Lemma filter_none_left {A} (p : A -> bool) (l : list A) :
  filter p (filter (fun x => negb (p x)) l) = [].
Proof.
  induction l as [|x xs IH]; [reflexivity|]. cbn.
  destruct (p x) eqn:E; cbn; [exact IH | now rewrite E].
Qed.

Lemma filter_twice {A} (p : A -> bool) (l : list A) :
  filter p (filter p l) = filter p l.
Proof.
  induction l as [|x xs IH]; [reflexivity|]. cbn.
  destruct (p x) eqn:E; cbn; [rewrite E; now f_equal | exact IH].
Qed.

(** [DELETE ... WHERE token = ?] run twice deletes nothing the second
    time. *)
Lemma deleteByToken_again t d :
  SqlAuthService.deleteByToken t (snd (SqlAuthService.deleteByToken t d))
  = (0%nat, snd (SqlAuthService.deleteByToken t d)).
Proof.
  unfold SqlAuthService.deleteByToken, SqlAuthService.withRefreshTokens. cbn.
  rewrite (filter_none_left (fun r => Jwt.eqb (SqlAuthService.token r) t)).
  rewrite (filter_twice (fun r => negb (Jwt.eqb (SqlAuthService.token r) t))).
  reflexivity.
Qed.

Lemma sql_logout_run t env d :
  run (SqlAuthService.logout t) env d
  = match fault env 0 with
    | Some m => (Throw (DriverError m),
                 {| db := d; ticks := 0; drawn := 0; ids := 0; stmts := 1; history := [] |})
    | None =>
        let d' := snd (SqlAuthService.deleteByToken t d) in
        (if Nat.eqb (fst (SqlAuthService.deleteByToken t d)) 0
         then Throw (AppError "Invalid refresh token" 401) else Ok tt,
         {| db := d'; ticks := 0; drawn := 0; ids := 0; stmts := 1; history := [d'] |})
    end.
Proof.
  io_unfold. cbn. destruct (fault env 0); [reflexivity|]. cbn.
  crack; reflexivity.
Qed.

(** C4, as amended.  The ORM [logout] is idempotent: once a call has
    completed, the first row that carries the token is revoked, and a
    second call (whatever its address and clock) completes without
    error and leaves the table exactly as the first call left it.  The
    SQL [logout] reaches the same end state twice, the row deleted,
    but its second call is an error: with no row left to delete it
    throws "Invalid refresh token" (401). *)
Theorem logout_twice :
  (forall t ip env d ip' env',
      outcome (AuthService.logout t ip) env d = Ok tt ->
      fault env' 0 = None ->
      let d1 := after (AuthService.logout t ip) env d in
      loggedOut t d1
      /\ outcome (AuthService.logout t ip') env' d1 = Ok tt
      /\ after (AuthService.logout t ip') env' d1 = d1)
  /\ (forall t env d env',
         fault env 0 = None ->
         fault env' 0 = None ->
         let d1 := after (SqlAuthService.logout t) env d in
         (forall r, In r (SqlAuthService.refresh_tokens d1) -> SqlAuthService.token r <> t)
         /\ outcome (SqlAuthService.logout t) env' d1
            = Throw (AppError "Invalid refresh token" 401)
         /\ after (SqlAuthService.logout t) env' d1 = d1).
Proof.
  split.
  - intros t ip env d ip' env' Hok Hf. cbv zeta.
    pose proof (logout_revokes t ip env d Hok) as Hl.
    split; [exact Hl|].
    set (d1 := after (AuthService.logout t ip) env d) in *.
    unfold outcome, after. rewrite (logout_again t ip' env' d1 Hl Hf). now split.
  - intros t env d env' Hf Hf'. cbv zeta.
    assert (Ed : after (SqlAuthService.logout t) env d
                 = snd (SqlAuthService.deleteByToken t d)).
    { unfold after. now rewrite sql_logout_run, Hf. }
    rewrite Ed. set (d1 := snd (SqlAuthService.deleteByToken t d)). split.
    + intros r Hin. subst d1. cbn in Hin. apply filter_In in Hin. destruct Hin as [_ Hn].
      apply negb_true_iff in Hn. now apply Jwt_eqb_neq.
    + unfold outcome, after. rewrite sql_logout_run, Hf'. cbv zeta. subst d1.
      rewrite deleteByToken_again. now split.
Qed.

(** C4, as stated, fails on the SQL service: the first logout of the
    doctor's session succeeds and the second one throws. *)
Lemma sql_logout_twice_throws :
  ~ (forall t env env' d,
        isOk (outcome (SqlAuthService.logout t) env d) = true ->
        isOk (outcome (SqlAuthService.logout t) env'
                      (after (SqlAuthService.logout t) env d)) = true).
Proof.
  intros H.
  specialize (H (Jwt.Plain "5ad0c7") Sample.env Sample.env Sample.sqlStore eq_refl).
  vm_compute in H. discriminate H.
Qed.

(** On the sample store: the administrator's session is logged out
    twice through the ORM service. *)
Lemma logout_twice_witness :
  let d1 := after (AuthService.logout (Jwt.Plain "c4f1aa") (Some "10.0.0.9"))
                  Sample.env Sample.store in
  loggedOut (Jwt.Plain "c4f1aa") d1
  /\ outcome (AuthService.logout (Jwt.Plain "c4f1aa") None) Sample.env d1 = Ok tt
  /\ after (AuthService.logout (Jwt.Plain "c4f1aa") None) Sample.env d1 = d1.
Proof.
  destruct logout_twice as [H _].
  exact (H (Jwt.Plain "c4f1aa") (Some "10.0.0.9") Sample.env Sample.store None Sample.env
           eq_refl eq_refl).
Defined.

(** ** Email addresses at login and registration *)










(** ** Rotation *)

Lemma presented_spec t r :
  Sessions.presented t r = true
  <-> RefreshToken.token r = t /\ RefreshToken.isRevoked r = false.
Proof.
  unfold Sessions.presented.
  rewrite andb_true_iff, negb_true_iff, Jwt_eqb_eq. tauto.
Qed.

Lemma unique_token_row (rows : list RefreshToken.t) (x y : RefreshToken.t) :
  NoDup (map RefreshToken.token rows) ->
  In x rows -> In y rows -> RefreshToken.token x = RefreshToken.token y -> x = y.
Proof.
  induction rows as [|z zs IH]; [contradiction|].
  cbn. intros Hnd Hx Hy E. inversion Hnd as [|? ? Hz Hzs]; subst.
  destruct Hx as [->|Hx], Hy as [->|Hy]; auto.
  - exfalso. apply Hz. rewrite E. now apply in_map.
  - exfalso. apply Hz. rewrite <- E. now apply in_map.
Qed.

(** A successful rotation, read back from its result: the row it
    found, the owner, and the two writes it made. *)
Lemma refreshToken_success cfg t ip env d resp w :
  run (AuthService.refreshToken cfg t ip) env d = (Ok resp, w) ->
  exists x u,
    find (Sessions.presented t) (AuthService.refreshTokens d) = Some x
    /\ clock env 0 < RefreshToken.expiresAt x
    /\ AuthService.userOf d x = Some u
    /\ User.isActive u = true
    /\ AuthService.refreshToken_ resp = minted env
    /\ AuthService.uv_id (AuthService.user resp) = User.id u
    /\ let s1 := AuthService.withRefreshTokens d
                   (AuthService.upsert RefreshToken.id
                      (Sessions.revokedCopy x ip (clock env 2))
                      (AuthService.refreshTokens d)) in
       let s2 := AuthService.withRefreshTokens s1
                   (AuthService.refreshTokens s1
                      ++ [Sessions.issuedRow cfg env (User.id u) ip]) in
       db w = s2 /\ history w = [s2; s1].
Proof.
  intros H. unfold run in H. io_unfold. cbn in H.
  unfold AuthService.findActiveRow in H. fold (Sessions.presented t) in H.
  repeat (crack_in H; cbn in H; try discriminate H).
  inversion H; subst; clear H. cbn.
  match goal with
  | Hx : find (Sessions.presented t) _ = Some ?x, Hu : AuthService.userOf _ _ = Some ?u |- _ =>
      exists x, u
  end.
  repeat split; auto.
  - match goal with
    | Hlt : negb (_ <? _) = false |- _ => apply negb_false_iff in Hlt; now apply Z.ltb_lt
    end.
  - now apply negb_false_iff.
Qed.

(** When the lookup is answered, rotation throws "Invalid or expired
    refresh token" exactly when no unrevoked row carries the token or
    the one found is past its expiry. *)
Lemma refreshToken_rejected cfg t ip env d :
  fault env 0 = None ->
  outcome (AuthService.refreshToken cfg t ip) env d
  = Throw (Error "Invalid or expired refresh token")
  <-> match find (Sessions.presented t) (AuthService.refreshTokens d) with
      | None => True
      | Some x => RefreshToken.expiresAt x <= clock env 0
      end.
Proof.
  intros Hf. io_unfold. cbn. rewrite Hf. cbn.
  unfold AuthService.findActiveRow. fold (Sessions.presented t).
  destruct (find (Sessions.presented t) (AuthService.refreshTokens d)) as [x|] eqn:Hx;
    cbn; [|tauto].
  pose proof (find_some _ _ Hx) as [_ Hp]. apply presented_spec in Hp.
  destruct Hp as [_ Hr]. rewrite Hr. cbn.
  destruct (clock env 0 <? RefreshToken.expiresAt x) eqn:Hlt; cbn.
  - apply Z.ltb_lt in Hlt. split; [|lia].
    intros H. exfalso.
    repeat (crack_in H; cbn in H; try discriminate H).
  - apply Z.ltb_ge in Hlt. tauto.
Qed.









(** ** Spent tokens stay spent *)

Lemma spentIn_app t rows x :
  Sessions.spentIn t rows ->
  RefreshToken.token x <> t \/ RefreshToken.isRevoked x = true ->
  Sessions.spentIn t (rows ++ [x]).
Proof.
  intros H Hx r Hin Ht. apply in_app_or in Hin. destruct Hin as [Hin|[<-|[]]].
  - now apply H.
  - destruct Hx; [contradiction | assumption].
Qed.

Lemma spentIn_filter t rows p :
  Sessions.spentIn t rows -> Sessions.spentIn t (filter p rows).
Proof. intros H r Hin. apply filter_In in Hin. now apply H. Qed.

Lemma spentIn_upsert t rows x :
  Sessions.spentIn t rows ->
  RefreshToken.token x <> t \/ RefreshToken.isRevoked x = true ->
  Sessions.spentIn t (AuthService.upsert RefreshToken.id x rows).
Proof.
  intros H Hx. unfold AuthService.upsert.
  destruct (existsb _ rows); [|now apply spentIn_app].
  intros r Hin Ht. apply in_map_iff in Hin. destruct Hin as (y & Hy & Hin).
  destruct (String.eqb (RefreshToken.id y) (RefreshToken.id x)); subst r.
  - destruct Hx; [contradiction | assumption].
  - now apply H.
Qed.

Lemma spentIn_upsert_all t revoked rows :
  Sessions.spentIn t rows ->
  Forall (fun r => RefreshToken.isRevoked r = true) revoked ->
  Sessions.spentIn t (fold_left (fun rows r => AuthService.upsert RefreshToken.id r rows)
                                revoked rows).
Proof.
  intros H Hr. revert rows H. induction Hr as [|x xs Hx _ IH]; intros rows H; [exact H|].
  cbn. apply IH. apply spentIn_upsert; auto.
Qed.

(** Revoking, through its key, the one row that carries [t]. *)
Lemma spentIn_revoke t rows x ip now :
  NoDup (map RefreshToken.token rows) ->
  In x rows -> RefreshToken.token x = t ->
  Sessions.spentIn t (AuthService.upsert RefreshToken.id
                        (Sessions.revokedCopy x ip now) rows).
Proof.
  intros Hnd Hin Ht. rewrite upsert_present by (right; exists x; now split).
  intros r Hr Htr. apply in_map_iff in Hr. destruct Hr as (y & Hy & Hiny).
  cbn in Hy. destruct (String.eqb_spec (RefreshToken.id y) (RefreshToken.id x)) as [E|E].
  - now subst r.
  - subst r. exfalso. apply E. f_equal.
    eapply unique_token_row; eauto. congruence.
Qed.

(** Closes a goal [spent t d'] where [d'] is the database some path
    of a call leaves. *)
Ltac spent_step :=
  first
    [ assumption
    | apply spentIn_filter
    | apply spentIn_app; [|left; assumption]
    | apply spentIn_app; [|right; reflexivity]
    | apply spentIn_upsert; [|right; reflexivity]
    | apply spentIn_upsert_all; [|assumption] ].

Ltac spent_leaf :=
  unfold Sessions.spent in *; cbn [AuthService.refreshTokens AuthService.withRefreshTokens
                                   AuthService.withUsers db snd];
  repeat spent_step.

Lemma step_spent cfg pw t d c env :
  Sessions.spent t d -> minted env <> t ->
  Sessions.spent t (Sessions.step cfg pw d (c, env)).
Proof.
  intros Hs Hm. unfold minted in Hm.
  destruct c as [l ip|r|t' ip|t' ip|u ip|u]; unfold Sessions.step, Sessions.perform; cbn [fst snd].
  1-4,6: io_unfold; cbn; repeat (crack; cbn); spent_leaf.
  unfold after, run, AuthService.logoutFromAllDevices, bind, AuthService.sql, query,
    statement, start. cbn.
  destruct (fault env 0); cbn; [exact Hs|].
  match goal with
  | |- context [AuthService.revokeEach ?rows ?ip ?env ?w] =>
      destruct (revokeEach_run rows ip env w) as (rows' & E & _ & Hrev); rewrite E
  end.
  cbn. io_unfold. cbn. repeat (crack; cbn); spent_leaf.
Qed.

Lemma replay_spent cfg pw t calls d :
  Sessions.spent t d ->
  Forall (fun c => minted (snd c) <> t) calls ->
  Sessions.spent t (Sessions.replay cfg pw d calls).
Proof.
  intros Hs Hf. revert d Hs. induction Hf as [|[c env] calls Hc _ IH]; intros d Hs.
  - exact Hs.
  - cbn. apply IH. now apply step_spent.
Qed.

(** A spent token is refused, whatever the clock reads. *)
Lemma spent_refused cfg t ip env d :
  Sessions.spent t d -> fault env 0 = None ->
  outcome (AuthService.refreshToken cfg t ip) env d
  = Throw (Error "Invalid or expired refresh token").
Proof.
  intros Hs Hf. apply (refreshToken_rejected cfg t ip env d Hf).
  destruct (find (Sessions.presented t) (AuthService.refreshTokens d)) as [x|] eqn:Hx;
    [|trivial].
  pose proof (find_some _ _ Hx) as [Hin Hp]. apply presented_spec in Hp.
  destruct Hp as [Ht Hr]. rewrite (Hs x Hin Ht) in Hr. discriminate.
Qed.

(** Whether or not its lookup is answered, the presentation of a
    spent token never succeeds. *)
Lemma spent_never_accepted cfg t ip env d :
  Sessions.spent t d ->
  isOk (outcome (AuthService.refreshToken cfg t ip) env d) = false.
Proof.
  intros Hs. destruct (fault env 0) as [m|] eqn:Hf.
  - io_unfold. cbn. now rewrite Hf.
  - now rewrite (spent_refused cfg t ip env d Hs Hf).
Qed.

(** C1: after a successful rotation of [t] (in a table with unique
    token strings, the token minted being another string), the
    rotation has made exactly two writes, the revocation first and the
    insertion of the replacement second, and [t] is spent in both
    states; the row that carried [t] is still stored, revoked, with
    the expiry, still ahead at the time of the rotation, that it had.
    From then on, after any sequence of service calls that mint other
    strings (each under its own clock and storage faults), a
    presentation of [t] never succeeds, and when its lookup is
    answered it fails with "Invalid or expired refresh token",
    whatever the clock reads. *)
Theorem rotated_token_never_reusable
        (cfg : JwtService.Config) (pw : PasswordService) (t : Jwt.Token)
        (ip : option string) (env : Env) (d : AuthService.Database)
        (resp : AuthService.AuthResponse) :
  Sessions.uniqueTokens d ->
  outcome (AuthService.refreshToken cfg t ip) env d = Ok resp ->
  AuthService.refreshToken_ resp <> t ->
  let d1 := after (AuthService.refreshToken cfg t ip) env d in
  (exists s1 old new,
      writes (AuthService.refreshToken cfg t ip) env d = [s1; d1]
      /\ Sessions.spent t s1
      /\ Sessions.spent t d1
      /\ AuthService.refreshTokens d1 = (AuthService.refreshTokens s1 ++ [new])%list
      /\ RefreshToken.token new = AuthService.refreshToken_ resp
      /\ In old (AuthService.refreshTokens d1)
      /\ RefreshToken.token old = t
      /\ RefreshToken.isRevoked old = true
      /\ clock env 0 < RefreshToken.expiresAt old)
  /\ (forall calls ip' env',
         Forall (fun c => minted (snd c) <> t) calls ->
         let again := outcome (AuthService.refreshToken cfg t ip') env'
                              (Sessions.replay cfg pw d1 calls) in
         isOk again = false
         /\ (fault env' 0 = None ->
             again = Throw (Error "Invalid or expired refresh token"))).
Proof.
  intros Hu Hok Hfresh. cbv zeta. unfold outcome, after, writes in *.
  destruct (run (AuthService.refreshToken cfg t ip) env d) as [res w] eqn:E.
  cbn in Hok. subst res. cbn [snd].
  destruct (refreshToken_success _ _ _ _ _ _ _ E)
    as (x & u & Hx & Hlt & Hown & Hact & Hmint & Hid & Hdb & Hhist).
  pose proof (find_some _ _ Hx) as [Hin Hp]. apply presented_spec in Hp.
  destruct Hp as [Ht Hr].
  set (s1 := AuthService.withRefreshTokens d
               (AuthService.upsert RefreshToken.id
                  (Sessions.revokedCopy x ip (clock env 2))
                  (AuthService.refreshTokens d))) in *.
  assert (Hs1 : Sessions.spent t s1).
  { unfold Sessions.spent, s1. cbn. now apply spentIn_revoke. }
  assert (Hs2 : Sessions.spent t (db w)).
  { rewrite Hdb. unfold Sessions.spent. cbn. apply spentIn_app; [exact Hs1|].
    left. cbn. congruence. }
  split.
  - exists s1, (Sessions.revokedCopy x ip (clock env 2)),
           (Sessions.issuedRow cfg env (User.id u) ip).
    rewrite Hhist, Hdb. cbn [rev app].
    repeat split; auto.
    + now rewrite <- Hdb.
    + cbn. apply in_or_app. left.
      rewrite upsert_present by (right; exists x; now split).
      apply in_map_iff. exists x. split; [|exact Hin]. cbn. now rewrite String.eqb_refl.
  - intros calls ip' env' Hcalls. cbv zeta.
    pose proof (replay_spent cfg pw t calls (db w) Hs2 Hcalls) as Hs.
    split; [now apply spent_never_accepted | intros Hf; now apply spent_refused].
Qed.

(** On the sample store: the administrator's session is rotated, the
    nurse then logs in, and the old token is presented again one
    millisecond after the rotation, a day before its expiry. *)
Lemma rotated_token_never_reusable_witness :
  let t := RefreshToken.token Sample.adminSession in
  let d1 := after (AuthService.refreshToken JwtService.defaults t None)
                  Sample.env Sample.store in
  let nurseLogin := Sessions.Login
                      {| AuthService.l_email := "nurse.mwamba@afyatrack.com";
                         AuthService.l_password := "Muuguzi2024!" |} None in
  outcome (AuthService.refreshToken JwtService.defaults t None) Sample.env
          (Sessions.replay JwtService.defaults Sample.pw d1 [(nurseLogin, Sample.env)])
  = Throw (Error "Invalid or expired refresh token").
Proof.
  cbv zeta.
  assert (Hu : Sessions.uniqueTokens Sample.store).
  { unfold Sessions.uniqueTokens. cbn.
    repeat (constructor; [cbn; intuition discriminate|]). constructor. }
  destruct (outcome (AuthService.refreshToken JwtService.defaults
                       (RefreshToken.token Sample.adminSession) None)
                    Sample.env Sample.store) as [resp|e] eqn:E;
    [|vm_compute in E; discriminate E].
  assert (Hfresh : AuthService.refreshToken_ resp <> RefreshToken.token Sample.adminSession).
  { vm_compute in E. inversion E. discriminate. }
  destruct (rotated_token_never_reusable JwtService.defaults Sample.pw
              (RefreshToken.token Sample.adminSession) None Sample.env Sample.store resp
              Hu E Hfresh) as [_ H].
  apply H; [|reflexivity].
  constructor; [|constructor]. cbn. vm_compute. discriminate.
Defined.

(** * Further properties *)

(** Unfolds, on top of [io_unfold], the code added to the embedding. *)
Ltac io_more :=
  unfold JwtService.getTokenExpirationDateOf, JwtService.isTokenExpired, Jwt.decode,
    Middleware.optionalAuth,
    SqlMiddleware.authenticate, SqlMiddleware.optionalAuth, SqlMiddleware.authorize,
    SqlMiddleware.authorizeVisitAccess,
    SqlAuthService.changePassword in *;
  io_unfold.

(** ** The [Authorization] header *)

Lemma prefix_drop (p s : string) :
  String.prefix p s = true -> s = p ++ Str.drop (String.length p) s.
Proof.
  revert s. induction p as [|a p IH]; intros s H; [reflexivity|].
  destruct s as [|b s]; [discriminate|]. cbn in H.
  destruct (ascii_dec a b) as [->|]; [|discriminate].
  cbn. f_equal. now apply IH.
Qed.

Lemma prefix_append (p r : string) : String.prefix p (p ++ r) = true.
Proof.
  induction p as [|a p IH]; cbn; [now destruct r|].
  destruct (ascii_dec a a); [exact IH | congruence].
Qed.

Lemma drop_append (p r : string) : Str.drop (String.length p) (p ++ r) = r.
Proof. induction p as [|a p IH]; [now destruct r | exact IH]. Qed.

(** X1: [extractTokenFromHeader] returns a token exactly for a header
    that is the seven characters [Bearer ] followed by that token,
    and then returns the rest of the header unchanged (possibly the
    empty string); a missing header, an empty one, another scheme or
    another letter case give [null]. *)
Theorem extractTokenFromHeader_spec (authHeader : option string) (token : string) :
  JwtService.extractTokenFromHeader authHeader = Some token
  <-> authHeader = Some ("Bearer " ++ token).
Proof.
  unfold JwtService.extractTokenFromHeader. split.
  - destruct authHeader as [h|]; [|discriminate].
    destruct (Str.truthy h); [|discriminate].
    destruct (String.prefix "Bearer " h) eqn:Hp; [|discriminate].
    cbn [negb orb]. intros [= <-].
    exact (f_equal Some (prefix_drop "Bearer " h Hp)).
  - intros ->. change (Str.truthy ("Bearer " ++ token)) with true.
    rewrite prefix_append. cbn [negb orb].
    exact (f_equal Some (drop_append "Bearer " token)).
Qed.

(** ** Expiry settings *)










(** ** Expiry without verification *)

Lemma expiry_in_seconds (e t : Z) : (e * 1000 <=? t) = (e <=? t / 1000).
Proof.
  destruct (Z.leb_spec (e * 1000) t) as [H|H]; symmetry.
  - apply Z.leb_le. apply (Z.div_le_lower_bound t 1000 e); lia.
  - apply Z.leb_gt. apply (Z.div_lt_upper_bound t 1000 e); lia.
Qed.

(** X3: [isTokenExpired] never throws, and answers [false] exactly
    for a token of the compact form whose [exp] claim is present, not
    zero, and ahead of the clock: it reads the claim without checking
    the signature, so the key the token was signed with plays no
    part, and a token without [exp] counts as expired.  On a token
    that carries the access secret, issuer and audience and a
    non-zero [exp], it answers [true] exactly when
    [verifyAccessToken] throws "Access token expired" at the same
    clock reading. *)
Theorem isTokenExpired_spec (D : Type) (cfg : JwtService.Config) (token : Jwt.Token)
        (env : Env) (d : D) :
  let result := outcome (JwtService.isTokenExpired token) env d in
  (exists b, result = Ok b)
  /\ (result = Ok false <->
      exists key c e, token = Jwt.Signed key c /\ Jwt.exp c = Some e
                      /\ e <> 0 /\ clock env 0 < e * 1000)
  /\ (forall c e,
         token = Jwt.Signed (JwtService.ACCESS_TOKEN_SECRET cfg) c ->
         Jwt.exp c = Some e -> e <> 0 ->
         Jwt.iss c = Some "afyatrack-api" ->
         Jwt.aud c = Some "afyatrack-frontend" ->
         (result = Ok true <->
          outcome (JwtService.verifyAccessToken cfg token) env d
          = Throw (Error "Access token expired"))).
Proof.
  cbv zeta.
  assert (Hrun : outcome (JwtService.isTokenExpired token) env d
                 = Ok match token with
                      | Jwt.Signed _ c =>
                          match Jwt.exp c with
                          | Some e => if e =? 0 then true else e * 1000 <=? clock env 0
                          | None => true
                          end
                      | _ => true
                      end).
  { io_more. cbn. destruct token as [key c|s|s]; cbn; try reflexivity.
    destruct (Jwt.exp c) as [e|]; cbn; [|reflexivity].
    destruct (e =? 0); reflexivity. }
  rewrite Hrun. split; [eauto|]. split.
  - split.
    + intros H. destruct token as [key c|s|s]; try discriminate H.
      destruct (Jwt.exp c) as [e|] eqn:He; [|discriminate H].
      destruct (Z.eqb_spec e 0); [discriminate H|].
      inversion H as [H']. apply Z.leb_gt in H'. exists key, c, e. auto.
    + intros (key & c & e & -> & He & Hne & Hlt). rewrite He.
      destruct (Z.eqb_spec e 0); [contradiction|].
      apply Z.leb_gt in Hlt. now rewrite Hlt.
  - intros c e -> He Hne Hiss Haud.
    unfold outcome, run. rewrite verifyAccessToken_run. cbn.
    rewrite String.eqb_refl, He. cbn. unfold Jwt.expired. rewrite He.
    destruct (Z.eqb_spec e 0); [contradiction|].
    rewrite expiry_in_seconds.
    destruct (e <=? clock env 0 / 1000); cbn.
    + tauto.
    + unfold Jwt.claimMatches. rewrite Haud, Hiss. cbn.
      split; discriminate.
Qed.

(** An access token of the service, a day before its expiry on the
    sample clock: not expired for either function. *)
Lemma isTokenExpired_spec_witness :
  let token :=
    Jwt.Signed "your-secret-key"
      {| Jwt.payload := {| Jwt.userId := "u-admin";
                           Jwt.email := "admin@afyatrack.com";
                           Jwt.role := "admin"; Jwt.facilityId := None |};
         Jwt.iat := 1700000000; Jwt.exp := Some 1700086400;
         Jwt.iss := Some "afyatrack-api"; Jwt.aud := Some "afyatrack-frontend" |} in
  outcome (JwtService.isTokenExpired token) Sample.env tt = Ok false
  /\ (outcome (JwtService.isTokenExpired token) Sample.env tt = Ok true
      <-> outcome (JwtService.verifyAccessToken JwtService.defaults token) Sample.env tt
          = Throw (Error "Access token expired")).
Proof.
  cbv zeta.
  destruct (isTokenExpired_spec unit JwtService.defaults
              (Jwt.Signed "your-secret-key"
                 {| Jwt.payload := {| Jwt.userId := "u-admin";
                                      Jwt.email := "admin@afyatrack.com";
                                      Jwt.role := "admin"; Jwt.facilityId := None |};
                    Jwt.iat := 1700000000; Jwt.exp := Some 1700086400;
                    Jwt.iss := Some "afyatrack-api";
                    Jwt.aud := Some "afyatrack-frontend" |})
              Sample.env tt) as (_ & Hfalse & Hagree).
  split.
  - apply Hfalse. do 3 eexists. split; [reflexivity|]. split; [reflexivity|].
    split; [discriminate | reflexivity].
  - apply (Hagree _ 1700086400 eq_refl eq_refl); [discriminate | reflexivity | reflexivity].
Defined.

(** ** The authenticating middleware of the ORM service *)

Lemma activeUserById_active d userId u :
  activeUserById d userId = Some u -> User.id u = userId /\ User.isActive u = true.
Proof.
  unfold activeUserById. intros H. apply find_some in H. destruct H as [_ H].
  apply andb_true_iff in H. destruct H as [H1 H2]. now apply String.eqb_eq in H1.
Qed.

(** [authenticateToken] when the user lookup is answered. *)
Lemma authenticateToken_run cfg bearer env d :
  fault env 0 = None ->
  outcome (Middleware.authenticateToken cfg bearer) env d
  = Ok match bearer with
       | None => Middleware.Respond 401 "Access token is required"
       | Some token =>
           if negb (Jwt.truthy token)
           then Middleware.Respond 401 "Access token is required"
           else
             match outcome (JwtService.verifyAccessToken cfg token) env d with
             | Ok p =>
                 match activeUserById d (Jwt.userId p) with
                 | Some u => Middleware.Next (requestUserOf p u)
                 | None => Middleware.Respond 401 "Invalid or inactive user account"
                 end
             | Throw e =>
                 Middleware.Respond 401
                   (if Str.includes "expired" (messageOf e) then "Access token has expired"
                    else if Str.includes "invalid" (messageOf e) then "Invalid access token"
                    else "Authentication failed")
             end
       end.
Proof.
  intros Hf. unfold outcome, run, Middleware.authenticateToken, try, bind.
  destruct bearer as [token|]; [|reflexivity].
  destruct (Jwt.truthy token); [|reflexivity]. cbn [negb].
  rewrite !verifyAccessToken_run. cbn [fst].
  match goal with
  | |- context [match ?v with Ok _ => _ | Throw _ => _ end] => destruct v as [p|e] eqn:Hv
  end; [|reflexivity].
  io_unfold. cbn. rewrite Hf. cbn. unfold activeUserById, requestUserOf.
  destruct (find _ (AuthService.users d)) as [u|] eqn:Hu; cbn; [|reflexivity].
  apply find_some in Hu. destruct Hu as [_ Hu]. apply andb_true_iff in Hu.
  destruct Hu as [_ Ha]. now rewrite Ha.
Qed.

(** X4: what [authenticateToken] answers when the user lookup is
    answered.  It never throws.  It hands the request on exactly when
    the bearer token passes [verifyAccessToken] and the user its
    [userId] names is stored and active; the attached user then has
    that user's key, name and permissions and the token's payload.  A
    verified token of a missing or deactivated user is answered 401
    "Invalid or inactive user account".  A token that fails
    verification is answered 401 "Access token has expired" when the
    failure is "Access token expired" and 401 "Authentication failed"
    for every other failure: the answer "Invalid access token" is
    never given, because the test [includes('invalid')] does not match
    the capitalised message of the verifier. *)
Theorem authenticateToken_decision (cfg : JwtService.Config) (bearer : option Jwt.Token)
        (env : Env) (d : AuthService.Database) :
  fault env 0 = None ->
  let r := outcome (Middleware.authenticateToken cfg bearer) env d in
  let verified token := outcome (JwtService.verifyAccessToken cfg token) env d in
  (exists h, r = Ok h)
  /\ (forall ru, r = Ok (Middleware.Next ru) <->
                 exists token p u,
                   bearer = Some token /\ verified token = Ok p
                   /\ activeUserById d (Jwt.userId p) = Some u
                   /\ ru = requestUserOf p u)
  /\ (forall token p,
         bearer = Some token -> verified token = Ok p ->
         activeUserById d (Jwt.userId p) = None ->
         r = Ok (Middleware.Respond 401 "Invalid or inactive user account"))
  /\ (forall token,
         bearer = Some token -> Jwt.truthy token = true ->
         verified token = Throw (Error "Access token expired") ->
         r = Ok (Middleware.Respond 401 "Access token has expired"))
  /\ (forall token e,
         bearer = Some token -> Jwt.truthy token = true ->
         verified token = Throw e -> e <> Error "Access token expired" ->
         r = Ok (Middleware.Respond 401 "Authentication failed"))
  /\ ((forall token, bearer = Some token -> Jwt.truthy token = false) ->
      r = Ok (Middleware.Respond 401 "Access token is required"))
  /\ (forall st, r <> Ok (Middleware.Respond st "Invalid access token")).
Proof.
  intros Hf. cbv zeta. rewrite (authenticateToken_run cfg bearer env d Hf).
  split; [eauto|].
  assert (Hthrown : forall token e,
             outcome (JwtService.verifyAccessToken cfg token) env d = Throw e ->
             e = Error "Access token expired" \/ e = Error "Invalid access token"
             \/ e = Error "Token verification failed").
  { intros token e. unfold outcome, run. rewrite verifyAccessToken_run. cbn.
    destruct token as [key c|s|s]; cbn;
      repeat (crack; cbn; try discriminate);
      intros H; inversion H; auto. }
  assert (Htruthy : forall token p,
             outcome (JwtService.verifyAccessToken cfg token) env d = Ok p ->
             Jwt.truthy token = true).
  { intros token p. unfold outcome, run. rewrite verifyAccessToken_run. cbn.
    destruct token as [key c|s|s]; cbn; [reflexivity|discriminate|discriminate]. }
  split; [|split; [|split; [|split; [|split]]]].
  - intros ru. split.
    + destruct bearer as [token|]; [|discriminate].
      destruct (Jwt.truthy token); cbn [negb]; [|discriminate].
      destruct (outcome (JwtService.verifyAccessToken cfg token) env d) as [p|e] eqn:Hv;
        [|discriminate].
      destruct (activeUserById d (Jwt.userId p)) as [u|] eqn:Hu; [|discriminate].
      intros H. inversion H. exists token, p, u. auto.
    + intros (token & p & u & -> & Hv & Hu & ->).
      rewrite (Htruthy _ _ Hv), Hv, Hu. reflexivity.
  - intros token p -> Hv Hu. now rewrite (Htruthy _ _ Hv), Hv, Hu.
  - intros token -> Ht Hv. now rewrite Ht, Hv.
  - intros token e -> Ht Hv Hne. rewrite Ht, Hv. cbn [negb].
    destruct (Hthrown _ _ Hv) as [->|[->| ->]]; [contradiction|reflexivity|reflexivity].
  - intros Hnone. destruct bearer as [token|]; [|reflexivity].
    now rewrite (Hnone token eq_refl).
  - intros st. destruct bearer as [token|]; [|discriminate].
    destruct (Jwt.truthy token); cbn [negb]; [|discriminate].
    destruct (outcome (JwtService.verifyAccessToken cfg token) env d) as [p|e] eqn:Hv.
    + destruct (activeUserById d (Jwt.userId p)); discriminate.
    + destruct (Hthrown _ _ Hv) as [->|[->| ->]]; discriminate.
Qed.

(** The nurse of the sample store presents her access token. *)
Lemma authenticateToken_decision_witness :
  fault Sample.env 0 = None
  /\ outcome (Middleware.authenticateToken JwtService.defaults
                (Some (Sample.accessOf Sample.nurse "nurse"))) Sample.env Sample.store
     = Ok (Middleware.Next
             (requestUserOf
                {| Jwt.userId := "u-nurse"; Jwt.email := "nurse.mwamba@afyatrack.com";
                   Jwt.role := "nurse"; Jwt.facilityId := None |}
                Sample.nurse)).
Proof.
  split; [reflexivity|].
  destruct (authenticateToken_decision JwtService.defaults
              (Some (Sample.accessOf Sample.nurse "nurse")) Sample.env Sample.store
              eq_refl) as (_ & Hnext & _).
  apply Hnext.
  exists (Sample.accessOf Sample.nurse "nurse"),
    {| Jwt.userId := "u-nurse"; Jwt.email := "nurse.mwamba@afyatrack.com";
       Jwt.role := "nurse"; Jwt.facilityId := None |},
    Sample.nurse.
  split; [reflexivity|]. split; [vm_compute; reflexivity|].
  split; reflexivity.
Defined.

(** X5: [optionalAuth] never fails and never answers; whatever the
    storage driver does, it attaches a user exactly when
    [authenticateToken] hands the request on, and it is the same
    user. *)
Theorem optionalAuth_agrees (cfg : JwtService.Config) (bearer : option Jwt.Token)
        (env : Env) (d : AuthService.Database) :
  let r := outcome (Middleware.optionalAuth cfg bearer) env d in
  (exists attached, r = Ok attached)
  /\ (forall ru, r = Ok (Some ru) <->
                 outcome (Middleware.authenticateToken cfg bearer) env d
                 = Ok (Middleware.Next ru))
  /\ after (Middleware.optionalAuth cfg bearer) env d = d.
Proof.
  cbv zeta. unfold outcome, after, run, Middleware.optionalAuth,
              Middleware.authenticateToken, try, bind.
  destruct bearer as [token|]; [|cbn; split; [eauto|split; [split; discriminate|reflexivity]]].
  destruct (Jwt.truthy token); cbn [negb];
    [|cbn; split; [eauto|split; [split; discriminate|reflexivity]]].
  rewrite !verifyAccessToken_run. cbn [fst snd].
  match goal with
  | |- context [match ?v with Ok _ => _ | Throw _ => _ end] => destruct v as [p|e] eqn:Hv
  end; [|cbn; split; [eauto|split; [split; discriminate|reflexivity]]].
  io_unfold. cbn.
  destruct (fault env 0); cbn;
    [split; [eauto|split; [split; discriminate|reflexivity]]|].
  destruct (find _ (AuthService.users d)) as [u|]; cbn;
    [|split; [eauto|split; [split; discriminate|reflexivity]]].
  destruct (User.isActive u); cbn;
    [|split; [eauto|split; [split; discriminate|reflexivity]]].
  split; [eauto|]. split; [|reflexivity].
  intros ru. split; intros H; inversion H; reflexivity.
Qed.

(** ** Guards behind the authenticating middleware *)

(** A request is only handed on when the user lookup was answered. *)
Lemma authenticateToken_next cfg bearer env d ru :
  outcome (Middleware.authenticateToken cfg bearer) env d = Ok (Middleware.Next ru) ->
  fault env 0 = None.
Proof.
  unfold outcome, run, Middleware.authenticateToken, try, bind.
  destruct bearer as [token|]; [|discriminate].
  destruct (Jwt.truthy token); cbn [negb]; [|discriminate].
  rewrite !verifyAccessToken_run. cbn [fst snd].
  match goal with
  | |- context [match ?v with Ok _ => _ | Throw _ => _ end] => destruct v as [p|e] eqn:Hv
  end; [|discriminate].
  io_unfold. cbn. destruct (fault env 0); cbn; [discriminate|reflexivity].
Qed.

(** What [authenticateToken] attaches. *)
Lemma authenticateToken_attaches cfg bearer env d ru :
  outcome (Middleware.authenticateToken cfg bearer) env d = Ok (Middleware.Next ru) ->
  exists token p u,
    bearer = Some token
    /\ outcome (JwtService.verifyAccessToken cfg token) env d = Ok p
    /\ activeUserById d (Jwt.userId p) = Some u
    /\ ru = requestUserOf p u.
Proof.
  intros H. pose proof (authenticateToken_next _ _ _ _ _ H) as Hf.
  rewrite (authenticateToken_run cfg bearer env d Hf) in H.
  destruct bearer as [token|]; [|discriminate].
  destruct (Jwt.truthy token); cbn [negb] in H; [|discriminate].
  destruct (outcome (JwtService.verifyAccessToken cfg token) env d) as [p|e] eqn:Hv;
    [|discriminate].
  destruct (activeUserById d (Jwt.userId p)) as [u|] eqn:Hu; [|discriminate].
  inversion H. exists token, p, u. auto.
Qed.

(** X6: the guards in front of the patient routes.  Whatever role the
    token claims, a reading route runs its handler exactly for a
    verified token of a stored, active doctor, nurse or administrator,
    and a writing route exactly for a doctor or an administrator.  A
    request [authenticateToken] answers gets that answer; an
    authenticated receptionist is answered 403 "Access to patient
    data not permitted" on every route, and an authenticated nurse
    403 "Permission to modify patient data not granted" on a writing
    route. *)
Theorem patient_route_guards (cfg : JwtService.Config) (writes : bool)
        (bearer : option Jwt.Token) (env : Env) (d : AuthService.Database) :
  let r := outcome (PatientRoutes.guards cfg writes bearer) env d in
  let authenticated := outcome (Middleware.authenticateToken cfg bearer) env d in
  (forall ru, r = Ok (Middleware.Next ru) <->
              exists token p u,
                bearer = Some token
                /\ outcome (JwtService.verifyAccessToken cfg token) env d = Ok p
                /\ fault env 0 = None
                /\ activeUserById d (Jwt.userId p) = Some u
                /\ ru = requestUserOf p u
                /\ (User.role u = User.DOCTOR \/ User.role u = User.ADMIN
                    \/ (writes = false /\ User.role u = User.NURSE)))
  /\ (forall st m, authenticated = Ok (Middleware.Respond st m) ->
                   r = Ok (Middleware.Respond st m))
  /\ (forall p u, authenticated = Ok (Middleware.Next (requestUserOf p u)) ->
                  User.role u = User.RECEPTIONIST ->
                  r = Ok (Middleware.Respond 403 "Access to patient data not permitted"))
  /\ (forall p u, authenticated = Ok (Middleware.Next (requestUserOf p u)) ->
                  User.role u = User.NURSE -> writes = true ->
                  r = Ok (Middleware.Respond 403
                            "Permission to modify patient data not granted")).
Proof.
  cbv zeta.
  assert (Hrun : outcome (PatientRoutes.guards cfg writes bearer) env d
                 = match outcome (Middleware.authenticateToken cfg bearer) env d with
                   | Ok h => Ok (Middleware.guarded h
                                   (if writes
                                    then [Middleware.requirePatientAccess;
                                          Middleware.requirePatientModify]
                                    else [Middleware.requirePatientAccess]))
                   | Throw e => Throw e
                   end).
  { unfold PatientRoutes.guards, outcome, run, bind; unfold ret.
    destruct (Middleware.authenticateToken cfg bearer env _) as [[h|e] w]; reflexivity. }
  rewrite Hrun. clear Hrun.
  assert (Hguard : forall p u,
             Middleware.guarded (Middleware.Next (requestUserOf p u))
               (if writes
                then [Middleware.requirePatientAccess; Middleware.requirePatientModify]
                else [Middleware.requirePatientAccess])
             = match User.role u, writes with
               | User.RECEPTIONIST, _ =>
                   Middleware.Respond 403 "Access to patient data not permitted"
               | User.NURSE, true =>
                   Middleware.Respond 403 "Permission to modify patient data not granted"
               | _, _ => Middleware.Next (requestUserOf p u)
               end).
  { intros p u. unfold requestUserOf, User.canAccessPatient, User.canModifyPatient.
    destruct writes, (User.role u); reflexivity. }
  split; [|split; [|split]].
  - intros ru. split.
    + destruct (outcome (Middleware.authenticateToken cfg bearer) env d) as [h|e] eqn:Ha;
        [|discriminate].
      destruct h as [ru'|st m]; [|discriminate].
      pose proof (authenticateToken_next _ _ _ _ _ Ha) as Hf.
      destruct (authenticateToken_attaches _ _ _ _ _ Ha) as (token & p & u & Hb & Hv & Hu & ->).
      rewrite Hguard. intros H. exists token, p, u.
      destruct (User.role u) eqn:Hr, writes; try discriminate H;
        inversion H; repeat split; auto.
    + intros (token & p & u & -> & Hv & Hf & Hu & -> & Hrole).
      rewrite (authenticateToken_run cfg _ env d Hf).
      assert (Ht : Jwt.truthy token = true).
      { revert Hv. unfold outcome, run. rewrite verifyAccessToken_run. cbn.
        destruct token; cbn; [reflexivity|discriminate|discriminate]. }
      rewrite Ht, Hv, Hu. cbn [negb]. rewrite Hguard.
      destruct Hrole as [Hr|[Hr|[Hw Hr]]]; rewrite Hr; try rewrite Hw;
        try reflexivity; destruct writes; reflexivity.
  - intros st m ->. reflexivity.
  - intros p u -> Hr. rewrite Hguard, Hr. reflexivity.
  - intros p u -> Hr ->. rewrite Hguard, Hr. reflexivity.
Qed.

(** The nurse of the sample store reads patient data with a token
    that claims the role of a receptionist. *)
Lemma patient_route_guards_witness :
  outcome (PatientRoutes.guards JwtService.defaults false
             (Some (Sample.accessOf Sample.nurse "receptionist"))) Sample.env Sample.store
  = Ok (Middleware.Next
          (requestUserOf
             {| Jwt.userId := "u-nurse"; Jwt.email := "nurse.mwamba@afyatrack.com";
                Jwt.role := "receptionist"; Jwt.facilityId := None |}
             Sample.nurse))
  /\ outcome (PatientRoutes.guards JwtService.defaults true
                (Some (Sample.accessOf Sample.nurse "receptionist")))
       Sample.env Sample.store
     = Ok (Middleware.Respond 403 "Permission to modify patient data not granted").
Proof.
  split.
  - apply (patient_route_guards JwtService.defaults false
             (Some (Sample.accessOf Sample.nurse "receptionist")) Sample.env Sample.store).
    exists (Sample.accessOf Sample.nurse "receptionist"),
      {| Jwt.userId := "u-nurse"; Jwt.email := "nurse.mwamba@afyatrack.com";
         Jwt.role := "receptionist"; Jwt.facilityId := None |},
      Sample.nurse.
    split; [reflexivity|]. split; [vm_compute; reflexivity|].
    split; [reflexivity|]. split; [reflexivity|]. split; [reflexivity|].
    right. right. split; reflexivity.
  - apply (patient_route_guards JwtService.defaults true
             (Some (Sample.accessOf Sample.nurse "receptionist")) Sample.env Sample.store)
      with (p := {| Jwt.userId := "u-nurse"; Jwt.email := "nurse.mwamba@afyatrack.com";
                    Jwt.role := "receptionist"; Jwt.facilityId := None |})
           (u := Sample.nurse);
      [vm_compute; reflexivity | reflexivity | reflexivity].
Defined.

Lemma requireRole_spec roles ru :
  Middleware.requireRole roles (Some ru) = Middleware.Pass
  <-> exists r, In r roles /\ User.roleName r = Jwt.role (Middleware.payload ru).
Proof.
  unfold Middleware.requireRole.
  destruct (existsb _ roles) eqn:He; cbn.
  - apply existsb_exists in He. destruct He as (r & Hin & Hr).
    apply String.eqb_eq in Hr. split; eauto.
  - split; [discriminate|]. intros (r & Hin & Hr).
    assert (Ht : existsb (fun r => String.eqb (User.roleName r)
                                     (Jwt.role (Middleware.payload ru))) roles = true).
    { apply existsb_exists. exists r. split; [assumption|]. now apply String.eqb_eq. }
    congruence.
Qed.

(** X7: which guards follow the token and which follow storage.  For
    a request [authenticateToken] handed on, [requireRole] passes
    exactly when the role claim of the bearer token is one of the
    listed roles, whatever role is stored for the user, while
    [requireAdmin] passes exactly when the stored role is
    administrator, whatever the token claims.  When the request names
    a facility, [requireFacilityAccess] passes exactly for a stored
    administrator or a token whose facility claim is that facility;
    the facility is read from the route parameter, and from the body
    when there is none. *)
Theorem guards_after_authentication (cfg : JwtService.Config)
        (bearer : option Jwt.Token) (env : Env) (d : AuthService.Database)
        (ru : Middleware.RequestUser) :
  outcome (Middleware.authenticateToken cfg bearer) env d = Ok (Middleware.Next ru) ->
  exists c u,
    bearer = Some (Jwt.Signed (JwtService.ACCESS_TOKEN_SECRET cfg) c)
    /\ In u (AuthService.users d)
    /\ User.id u = Jwt.userId (Jwt.payload c)
    /\ (forall roles,
           Middleware.requireRole roles (Some ru) = Middleware.Pass
           <-> exists r, In r roles /\ User.roleName r = Jwt.role (Jwt.payload c))
    /\ (Middleware.requireAdmin (Some ru) = Middleware.Pass <-> User.role u = User.ADMIN)
    /\ (forall f body,
           Str.truthy f = true ->
           (Middleware.requireFacilityAccess (Some ru) (Some f) body = Middleware.Pass
            <-> User.role u = User.ADMIN \/ Jwt.facilityId (Jwt.payload c) = Some f))
    /\ (forall f,
           Str.truthy f = true ->
           (Middleware.requireFacilityAccess (Some ru) None (Some f) = Middleware.Pass
            <-> User.role u = User.ADMIN \/ Jwt.facilityId (Jwt.payload c) = Some f)).
Proof.
  intros H.
  destruct (authenticateToken_attaches _ _ _ _ _ H) as (token & p & u & -> & Hv & Hu & ->).
  assert (Htok : exists c, token = Jwt.Signed (JwtService.ACCESS_TOKEN_SECRET cfg) c
                           /\ Jwt.payload c = p).
  { revert Hv. unfold outcome, run. rewrite verifyAccessToken_run. cbn.
    destruct token as [key c|s|s]; cbn; [|discriminate|discriminate].
    destruct (String.eqb_spec key (JwtService.ACCESS_TOKEN_SECRET cfg)) as [->|]; cbn;
      [|discriminate].
    repeat (crack; cbn; try discriminate).
    intros Hp. inversion Hp. eauto. }
  destruct Htok as (c & -> & <-).
  pose proof (activeUserById_active _ _ _ Hu) as [Hid _].
  apply find_some in Hu. destruct Hu as [Hin _].
  assert (Hfac : forall f,
             Str.truthy f = true ->
             (Middleware.requireFacilityAccess
                (Some (requestUserOf (Jwt.payload c) u)) (Some f) None = Middleware.Pass
              <-> User.role u = User.ADMIN \/ Jwt.facilityId (Jwt.payload c) = Some f)).
  { intros f Hf. unfold Middleware.requireFacilityAccess, Middleware.orElse,
                   Middleware.differ, requestUserOf, User.isAdmin. cbn. rewrite Hf.
    destruct (Jwt.facilityId (Jwt.payload c)) as [g|].
    - destruct (String.eqb_spec g f) as [->|Hne]; cbn.
      + destruct (User.role u); split; auto.
      + destruct (User.role u); split; auto; try discriminate;
          intros [Hr|Hg]; try discriminate; congruence.
    - destruct (User.role u); split; auto; try discriminate;
        intros [Hr|Hg]; discriminate. }
  exists c, u. split; [reflexivity|]. split; [assumption|]. split; [assumption|].
  split; [|split; [|split]].
  - intros roles. apply requireRole_spec.
  - unfold Middleware.requireAdmin, requestUserOf, User.isAdmin. cbn.
    destruct (User.role u); split; auto; discriminate.
  - intros f body Hf. rewrite <- (Hfac f Hf).
    unfold Middleware.requireFacilityAccess, Middleware.orElse. now rewrite Hf.
  - intros f Hf. rewrite <- (Hfac f Hf).
    unfold Middleware.requireFacilityAccess, Middleware.orElse. now rewrite Hf.
Qed.

(** The nurse of the sample store presents a token that claims the
    role of an administrator: [requireRole(ADMIN)] lets her pass and
    [requireAdmin] does not. *)
Lemma guards_after_authentication_witness :
  let ru := requestUserOf
              {| Jwt.userId := "u-nurse"; Jwt.email := "nurse.mwamba@afyatrack.com";
                 Jwt.role := "admin"; Jwt.facilityId := None |}
              Sample.nurse in
  outcome (Middleware.authenticateToken JwtService.defaults
             (Some (Sample.accessOf Sample.nurse "admin"))) Sample.env Sample.store
  = Ok (Middleware.Next ru)
  /\ Middleware.requireRole [User.ADMIN] (Some ru) = Middleware.Pass
  /\ Middleware.requireAdmin (Some ru) <> Middleware.Pass.
Proof.
  cbv zeta.
  assert (Hrun : outcome (Middleware.authenticateToken JwtService.defaults
                            (Some (Sample.accessOf Sample.nurse "admin")))
                   Sample.env Sample.store
                 = Ok (Middleware.Next
                         (requestUserOf
                            {| Jwt.userId := "u-nurse";
                               Jwt.email := "nurse.mwamba@afyatrack.com";
                               Jwt.role := "admin"; Jwt.facilityId := None |}
                            Sample.nurse))) by (vm_compute; reflexivity).
  split; [exact Hrun|].
  destruct (guards_after_authentication _ _ _ _ _ Hrun)
    as (c & u & Hb & Hin & Hid & Hrole & Hadmin & _).
  inversion Hb as [Hc]. subst c.
  split.
  - apply Hrole. exists User.ADMIN. split; [now left | reflexivity].
  - intros Hp. apply Hadmin in Hp.
    destruct Hin as [<-|[<-|[<-|[]]]]; discriminate.
Defined.

(** ** Logout from all devices *)

Lemma unique_id_row (rows : list RefreshToken.t) (x y : RefreshToken.t) :
  NoDup (map RefreshToken.id rows) ->
  In x rows -> In y rows -> RefreshToken.id x = RefreshToken.id y -> x = y.
Proof.
  induction rows as [|z zs IH]; [contradiction|].
  cbn. intros Hnd Hx Hy E. inversion Hnd as [|? ? Hz Hzs]; subst.
  destruct Hx as [->|Hx], Hy as [->|Hy]; auto.
  - exfalso. apply Hz. rewrite E. now apply in_map.
  - exfalso. apply Hz. rewrite <- E. now apply in_map.
Qed.

(** The loop revokes each row in turn, one clock reading per row. *)
Lemma revokeEach_copies rows ip env (w : World AuthService.Database) :
  exists rows',
    AuthService.revokeEach rows ip env w
    = (Ok rows',
       {| db := db w; ticks := (ticks w + length rows)%nat; drawn := drawn w;
          ids := ids w; stmts := stmts w; history := history w |})
    /\ Forall2 (fun r r' => exists k, r' = Sessions.revokedCopy r ip (clock env k))
               rows rows'.
Proof.
  revert w. induction rows as [|r rows IH]; intros w.
  - exists []. cbn. unfold ret. rewrite Nat.add_0_r. destruct w. split; constructor.
  - cbn. io_unfold. cbn.
    destruct (IH {| db := db w; ticks := S (ticks w); drawn := drawn w; ids := ids w;
                    stmts := stmts w; history := history w |}) as (rows' & E & Hr).
    rewrite E. cbn. eexists. split.
    + f_equal. f_equal. lia.
    + constructor; [|exact Hr]. exists (ticks w). reflexivity.
Qed.

(** Saving a batch of entities whose keys are all stored, no key
    twice, replaces each stored row by the entity with its key. *)
Lemma save_batch (batch rows : list RefreshToken.t) :
  NoDup (map RefreshToken.id batch) ->
  incl (map RefreshToken.id batch) (map RefreshToken.id rows) ->
  fold_left (fun acc r => AuthService.upsert RefreshToken.id r acc) batch rows
  = map (fun r =>
           match find (fun x => String.eqb (RefreshToken.id x) (RefreshToken.id r)) batch with
           | Some x => x
           | None => r
           end) rows.
Proof.
  revert rows. induction batch as [|x batch IH]; intros rows Hnd Hincl.
  - cbn. symmetry. apply map_id.
  - cbn [fold_left]. inversion Hnd as [|? ? Hx Hb]; subst.
    assert (Hin : exists y, In y rows /\ RefreshToken.id y = RefreshToken.id x).
    { assert (H : In (RefreshToken.id x) (map RefreshToken.id rows))
        by (apply Hincl; now left).
      apply in_map_iff in H. destruct H as (y & Hy & Hin). eauto. }
    rewrite (upsert_present RefreshToken.id x rows (or_intror Hin)).
    rewrite IH; [|exact Hb|].
    + rewrite map_map. apply map_ext. intros r. cbn [find].
      destruct (String.eqb_spec (RefreshToken.id r) (RefreshToken.id x)) as [E|E].
      * rewrite E, String.eqb_refl.
        destruct (find _ batch) as [y|] eqn:Hy; [|reflexivity].
        exfalso. apply find_some in Hy. destruct Hy as [Hy Hk].
        apply String.eqb_eq in Hk. apply Hx. rewrite <- Hk. now apply in_map.
      * destruct (String.eqb_spec (RefreshToken.id x) (RefreshToken.id r));
          [congruence | reflexivity].
    + rewrite map_map. intros k Hk.
      assert (H : In k (map RefreshToken.id rows)) by (apply Hincl; now right).
      apply in_map_iff in H. destruct H as (y & <- & Hy).
      apply in_map_iff. exists y. split; [|exact Hy].
      destruct (String.eqb_spec (RefreshToken.id y) (RefreshToken.id x)); congruence.
Qed.

Lemma Forall2_pick_r {A B} (R : A -> B -> Prop) (xs : list A) (ys : list B) (y : B) :
  Forall2 R xs ys -> In y ys -> exists x, In x xs /\ R x y.
Proof.
  induction 1 as [|x y0 xs ys Hxy _ IH]; [contradiction|].
  intros [<-|Hin].
  - exists x. split; [now left | assumption].
  - destruct (IH Hin) as (x' & Hx' & Hr). exists x'. split; [now right | assumption].
Qed.

Lemma Forall2_pick_l {A B} (R : A -> B -> Prop) (xs : list A) (ys : list B) (x : A) :
  Forall2 R xs ys -> In x xs -> exists y, In y ys /\ R x y.
Proof.
  induction 1 as [|x0 y xs ys Hxy _ IH]; [contradiction|].
  intros [<-|Hin].
  - exists y. split; [now left | assumption].
  - destruct (IH Hin) as (y' & Hy' & Hr). exists y'. split; [now right | assumption].
Qed.

Lemma Forall2_map_each {A B} (R : A -> B -> Prop) (g : A -> B) (xs : list A) :
  (forall x, In x xs -> R x (g x)) -> Forall2 R xs (map g xs).
Proof.
  induction xs as [|x xs IH]; intros H; cbn; constructor.
  - apply H. now left.
  - apply IH. intros y Hy. apply H. now right.
Qed.

Lemma NoDup_map_filter {A B} (key : A -> B) (f : A -> bool) (xs : list A) :
  NoDup (map key xs) -> NoDup (map key (filter f xs)).
Proof.
  induction xs as [|x xs IH]; cbn; intros H; [constructor|].
  inversion H as [|? ? Hx Hxs]; subst.
  destruct (f x); cbn; [constructor|]; auto.
  intros Hin. apply Hx. apply in_map_iff in Hin. destruct Hin as (y & <- & Hy).
  apply filter_In in Hy. apply in_map. tauto.
Qed.

(** [logoutFromAllDevices] from any point of a request, when both of
    its statements are answered: it succeeds, and the table it leaves
    is the old one with each unrevoked row of the user replaced by a
    revoked copy. *)
Lemma logoutFromAllDevices_from userId ip env (w : World AuthService.Database) :
  fault env (stmts w) = None -> fault env (S (stmts w)) = None ->
  Sessions.uniqueIds (db w) ->
  exists rows',
    fst (AuthService.logoutFromAllDevices userId ip env w) = Ok tt
    /\ db (snd (AuthService.logoutFromAllDevices userId ip env w))
       = AuthService.withRefreshTokens (db w) rows'
    /\ Forall2 (fun r r' =>
                  if Sessions.liveOf userId r
                  then exists k, r' = Sessions.revokedCopy r ip (clock env k)
                  else r' = r)
               (AuthService.refreshTokens (db w)) rows'.
Proof.
  intros Hf0 Hf1 Hu.
  unfold AuthService.logoutFromAllDevices, bind, AuthService.sql, query, statement.
  rewrite Hf0. cbn.
  change (fun r => String.eqb (RefreshToken.userId r) userId
                   && negb (RefreshToken.isRevoked r))
    with (Sessions.liveOf userId).
  match goal with
  | |- context [AuthService.revokeEach ?rows ?ip ?env ?w] =>
      destruct (revokeEach_copies rows ip env w) as (revoked & E & Hcopies); rewrite E
  end.
  cbn.
  set (g := fun r => match find (fun x => String.eqb (RefreshToken.id x) (RefreshToken.id r))
                                revoked with
                     | Some x => x
                     | None => r
                     end).
  assert (Hrel : Forall2 (fun r r' =>
                            if Sessions.liveOf userId r
                            then exists k, r' = Sessions.revokedCopy r ip (clock env k)
                            else r' = r)
                         (AuthService.refreshTokens (db w))
                         (map g (AuthService.refreshTokens (db w)))).
  { apply Forall2_map_each. intros r Hr. unfold g.
    destruct (find _ revoked) as [x'|] eqn:Hfind.
    - apply find_some in Hfind. destruct Hfind as [Hx' Hk]. apply String.eqb_eq in Hk.
      destruct (Forall2_pick_r _ _ _ _ Hcopies Hx') as (x & Hx & (k & ->)).
      apply filter_In in Hx. destruct Hx as [Hx Hlive]. cbn in Hk.
      assert (x = r) by (apply (unique_id_row _ _ _ Hu Hx Hr Hk)). subst x.
      rewrite Hlive. eauto.
    - destruct (Sessions.liveOf userId r) eqn:Hlive; [|reflexivity].
      exfalso.
      assert (Hx : In r (filter (Sessions.liveOf userId) (AuthService.refreshTokens (db w))))
        by (apply filter_In; auto).
      destruct (Forall2_pick_l _ _ _ _ Hcopies Hx) as (x' & Hx' & (k & ->)).
      apply (find_none _ _ Hfind) in Hx'. cbn in Hx'.
      now rewrite String.eqb_refl in Hx'. }
  exists (map g (AuthService.refreshTokens (db w))).
  destruct revoked as [|x revoked]; cbn.
  - split; [reflexivity|]. split; [|exact Hrel].
    unfold g. cbn. rewrite map_id. destruct (db w) as [us rs fs]. reflexivity.
  - io_unfold. cbn. rewrite Hf1. cbn. split; [reflexivity|]. split; [|exact Hrel].
    unfold AuthService.withRefreshTokens. cbn. f_equal.
    assert (Hids : map RefreshToken.id (x :: revoked)
                   = map RefreshToken.id
                       (filter (Sessions.liveOf userId) (AuthService.refreshTokens (db w)))).
    { clear E Hrel. induction Hcopies as [|a b l l' (k & ->) _ IH]; [reflexivity|].
      cbn. now rewrite IH. }
    apply (save_batch (x :: revoked)).
    + rewrite Hids. apply NoDup_map_filter. exact Hu.
    + rewrite Hids. intros k Hk. apply in_map_iff in Hk. destruct Hk as (y & <- & Hy).
      apply filter_In in Hy. apply in_map. tauto.
Qed.

(** After that rewriting every row of the user is revoked. *)
Lemma sessions_revoked userId ip env rows rows' :
  Forall2 (fun r r' =>
             if Sessions.liveOf userId r
             then exists k, r' = Sessions.revokedCopy r ip (clock env k)
             else r' = r) rows rows' ->
  forall r r', In r rows ->
               (if Sessions.liveOf userId r
                then exists k, r' = Sessions.revokedCopy r ip (clock env k)
                else r' = r) ->
               (RefreshToken.userId r' = RefreshToken.userId r
                /\ RefreshToken.token r' = RefreshToken.token r)
               /\ (RefreshToken.userId r = userId -> RefreshToken.isRevoked r' = true).
Proof.
  intros _ r r' _ Hr. unfold Sessions.liveOf in Hr. split.
  - destruct (_ && _); [destruct Hr as (k & ->)|subst r']; split; reflexivity.
  - intros Huser. rewrite Huser, String.eqb_refl in Hr. cbn in Hr.
    destruct (RefreshToken.isRevoked r) eqn:Hrv; cbn in Hr.
    + now subst r'.
    + destruct Hr as (k & ->). reflexivity.
Qed.

(** X8: [logoutFromAllDevices], when storage answers its two
    statements and no two rows share a primary key, succeeds and
    rewrites the refresh-token table row by row: every unrevoked row
    of the user becomes its revoked copy (flag set, the caller's
    address and a clock reading of the call recorded, token, owner
    and expiry kept), every other row stays as it is, and no row is
    added or removed; users and facilities are not written.
    Afterwards every row of the user is revoked, and when token
    strings are unique every refresh token the user held is refused
    by rotation, whatever the clock reads. *)
Theorem logoutFromAllDevices_revokes (userId : string) (ip : option string)
        (env : Env) (d : AuthService.Database) :
  fault env 0 = None -> fault env 1 = None -> Sessions.uniqueIds d ->
  let d' := after (AuthService.logoutFromAllDevices userId ip) env d in
  outcome (AuthService.logoutFromAllDevices userId ip) env d = Ok tt
  /\ AuthService.users d' = AuthService.users d
  /\ AuthService.facilities d' = AuthService.facilities d
  /\ Forall2 (fun r r' =>
                if Sessions.liveOf userId r
                then exists k, r' = Sessions.revokedCopy r ip (clock env k)
                else r' = r)
             (AuthService.refreshTokens d) (AuthService.refreshTokens d')
  /\ (forall r', In r' (AuthService.refreshTokens d') ->
                 RefreshToken.userId r' = userId -> RefreshToken.isRevoked r' = true)
  /\ (Sessions.uniqueTokens d ->
      forall r cfg ip' env',
        In r (AuthService.refreshTokens d) -> RefreshToken.userId r = userId ->
        fault env' 0 = None ->
        outcome (AuthService.refreshToken cfg (RefreshToken.token r) ip') env' d'
        = Throw (Error "Invalid or expired refresh token")).
Proof.
  intros Hf0 Hf1 Hu. cbv zeta. unfold outcome, after, run.
  destruct (logoutFromAllDevices_from userId ip env (start d) Hf0 Hf1 Hu)
    as (rows' & Hok & Hafter & Hrel).
  rewrite Hafter. cbn [start db] in *.
  cbn [AuthService.withRefreshTokens AuthService.users
         AuthService.facilities AuthService.refreshTokens].
  pose proof (sessions_revoked userId ip env _ _ Hrel) as Hrows.
  split; [exact Hok|]. split; [reflexivity|]. split; [reflexivity|].
  split; [exact Hrel|]. split.
  - intros r' Hin Huser.
    destruct (Forall2_pick_r _ _ _ _ Hrel Hin) as (r & Hr & HR).
    destruct (Hrows r r' Hr HR) as [[Hsame _] Hrev]. apply Hrev. congruence.
  - intros Htok r cfg ip' env' Hr Huser Hf.
    apply spent_refused; [|exact Hf].
    intros r' Hin Ht. cbn [AuthService.refreshTokens AuthService.withRefreshTokens] in Hin.
    destruct (Forall2_pick_r _ _ _ _ Hrel Hin) as (r0 & Hr0 & HR).
    destruct (Hrows r0 r' Hr0 HR) as [[_ Hsame] Hrev].
    assert (r0 = r).
    { apply (unique_token_row _ _ _ Htok Hr0 Hr). congruence. }
    subst r0. apply (Hrev Huser).
Qed.

(** The administrator of the sample store logs out everywhere: the
    live session token is refused afterwards. *)
Lemma logoutFromAllDevices_revokes_witness :
  Sessions.uniqueIds Sample.store
  /\ outcome (AuthService.logoutFromAllDevices "u-admin" (Some "10.0.0.9"))
       Sample.env Sample.store = Ok tt
  /\ outcome (AuthService.refreshToken JwtService.defaults
                (RefreshToken.token Sample.adminSession) None) Sample.env
       (after (AuthService.logoutFromAllDevices "u-admin" (Some "10.0.0.9"))
          Sample.env Sample.store)
     = Throw (Error "Invalid or expired refresh token").
Proof.
  assert (Hi : Sessions.uniqueIds Sample.store).
  { unfold Sessions.uniqueIds. cbn.
    repeat (constructor; [cbn; intuition discriminate|]). constructor. }
  assert (Hu : Sessions.uniqueTokens Sample.store).
  { unfold Sessions.uniqueTokens. cbn.
    repeat (constructor; [cbn; intuition discriminate|]). constructor. }
  destruct (logoutFromAllDevices_revokes "u-admin" (Some "10.0.0.9") Sample.env
              Sample.store eq_refl eq_refl Hi) as (Hok & _ & _ & _ & _ & Hrefused).
  split; [exact Hi|]. split; [exact Hok|].
  apply (Hrefused Hu Sample.adminSession); [|reflexivity|reflexivity].
  cbn. auto.
Defined.

(** ** Login *)









(** ** The authenticating middleware of the SQL service *)

(** [authenticate], by the token presented. *)
Lemma authenticate_run config bearer env d :
  run (SqlMiddleware.authenticate config bearer) env d
  = match bearer with
    | None => (Throw (AppError "Access token is required" 401), start d)
    | Some token =>
        let w1 := {| db := d; ticks := 1; drawn := 0; ids := 0; stmts := 0;
                     history := [] |} in
        let w2 := {| db := d; ticks := 1; drawn := 0; ids := 0; stmts := 1;
                     history := [] |} in
        match token with
        | Jwt.Plain _ => (Throw (AppError "Invalid token" 401), w1)
        | Jwt.Garbled _ => (Throw SyntaxError, w1)
        | Jwt.Signed key c =>
            if negb (String.eqb key (SqlAuthService.JWT_SECRET config))
            then (Throw (AppError "Invalid token" 401), w1)
            else if Jwt.expired c (clock env 0 / 1000)
            then (Throw (AppError "Invalid token" 401), w1)
            else
              match fault env 0 with
              | Some m => (Throw (DriverError m), w2)
              | None =>
                  match SqlMiddleware.activeUser (Jwt.userId (Jwt.payload c)) d with
                  | Some u => (Ok (SqlMiddleware.attached u), w2)
                  | None => (Throw (AppError "Invalid or expired token" 401), w2)
                  end
              end
        end
    end.
Proof.
  io_more. cbn. destruct bearer as [[key c|s|s]|]; cbn; try reflexivity.
  - destruct (String.eqb key (SqlAuthService.JWT_SECRET config)); cbn; [|reflexivity].
    destruct (Jwt.expired c (clock env 0 / 1000)); cbn; [reflexivity|].
    unfold Jwt.claimMatches. cbn.
    destruct (fault env 0); cbn; [reflexivity|].
    destruct (SqlMiddleware.activeUser (Jwt.userId (Jwt.payload c)) d); reflexivity.
  - destruct (Str.truthy s); reflexivity.
Qed.



(** The tokens [generateTokens] returns. *)
Lemma generateTokens_pair config u e r env d tk :
  outcome (SqlAuthService.generateTokens config u e r) env d = Ok tk ->
  SqlAuthService.accessToken tk
  = Jwt.Signed (SqlAuthService.JWT_SECRET config)
      {| Jwt.payload := SqlAuthService.JWTPayload u e r;
         Jwt.iat := clock env 0 / 1000;
         Jwt.exp := Some (clock env 0 / 1000
                          + JwtService.seconds (SqlAuthService.JWT_EXPIRES_IN config));
         Jwt.iss := None;
         Jwt.aud := None |}
  /\ SqlAuthService.refreshToken_ tk
     = Jwt.Signed (SqlAuthService.JWT_SECRET config)
         {| Jwt.payload := SqlAuthService.JWTPayload u e r;
            Jwt.iat := clock env 1 / 1000;
            Jwt.exp := Some (clock env 1 / 1000
                             + JwtService.seconds
                                 (SqlAuthService.JWT_REFRESH_EXPIRES_IN config));
            Jwt.iss := None;
            Jwt.aud := None |}.
Proof. intros H. io_success H. now inversion H. Qed.

(** X12: the SQL service's refresh token opens the API.  Both tokens
    of [generateTokens] are signed with the one secret over the same
    payload and differ in their timestamps only, and [authenticate]
    asks for nothing else: presented as a bearer token, the refresh
    token authenticates its user for as long as it has not expired
    (its own, longer lifetime) and the user is stored and active,
    whether or not its row is still in the refresh-token table. *)
Theorem refresh_token_authenticates (config : SqlAuthService.Config)
        (userId email role : string) (env env' : Env)
        (d d' : SqlAuthService.Database) (tk : SqlAuthService.Tokens)
        (u : SqlAuthService.UserRow) :
  outcome (SqlAuthService.generateTokens config userId email role) env d = Ok tk ->
  fault env' 0 = None ->
  SqlMiddleware.activeUser userId d' = Some u ->
  clock env' 0 / 1000
  < clock env 1 / 1000 + JwtService.seconds (SqlAuthService.JWT_REFRESH_EXPIRES_IN config) ->
  outcome (SqlMiddleware.authenticate config (Some (SqlAuthService.refreshToken_ tk)))
          env' d'
  = Ok (SqlMiddleware.attached u).
Proof.
  intros Hg Hf Hu Hlt.
  destruct (generateTokens_pair _ _ _ _ _ _ _ Hg) as [_ Hr]. rewrite Hr.
  unfold outcome. rewrite authenticate_run. cbn.
  assert (He : Jwt.expired
                 {| Jwt.payload := SqlAuthService.JWTPayload userId email role;
                    Jwt.iat := clock env 1 / 1000;
                    Jwt.exp := Some (clock env 1 / 1000
                                     + JwtService.seconds
                                         (SqlAuthService.JWT_REFRESH_EXPIRES_IN config));
                    Jwt.iss := None; Jwt.aud := None |} (clock env' 0 / 1000) = false).
  { unfold Jwt.expired. cbn. apply Z.leb_gt. exact Hlt. }
  now rewrite String.eqb_refl, He, Hf, Hu.
Qed.

(** The refresh token issued to the sample doctor, presented as a
    bearer token. *)
Lemma refresh_token_authenticates_witness :
  exists tk,
    outcome (SqlAuthService.generateTokens SqlAuthService.defaults "u-doc"
               "dr.mwalimu@afyatrack.com" "doctor") Sample.env Sample.sqlStore = Ok tk
    /\ outcome (SqlMiddleware.authenticate SqlAuthService.defaults
                  (Some (SqlAuthService.refreshToken_ tk))) Sample.env Sample.sqlStore
       = Ok (SqlMiddleware.attached Sample.sqlDoctor).
Proof.
  destruct (outcome (SqlAuthService.generateTokens SqlAuthService.defaults "u-doc"
                       "dr.mwalimu@afyatrack.com" "doctor") Sample.env Sample.sqlStore)
    as [tk|e] eqn:E; [|vm_compute in E; discriminate E].
  exists tk. split; [reflexivity|].
  apply (refresh_token_authenticates SqlAuthService.defaults "u-doc"
           "dr.mwalimu@afyatrack.com" "doctor" Sample.env Sample.env
           Sample.sqlStore Sample.sqlStore tk Sample.sqlDoctor E);
    [reflexivity | reflexivity | vm_compute; reflexivity].
Defined.

(** X13: the SQL service's [optionalAuth] never fails and never
    writes; whatever the storage driver does, it attaches a user
    exactly when [authenticate] accepts the same request, and it
    attaches the same user. *)
Theorem sql_optionalAuth_agrees (config : SqlAuthService.Config)
        (bearer : option Jwt.Token) (env : Env) (d : SqlAuthService.Database) :
  let r := outcome (SqlMiddleware.optionalAuth config bearer) env d in
  (exists attached, r = Ok attached)
  /\ (forall ru, r = Ok (Some ru) <->
                 outcome (SqlMiddleware.authenticate config bearer) env d = Ok ru)
  /\ after (SqlMiddleware.optionalAuth config bearer) env d = d.
Proof.
  cbv zeta. unfold outcome at 3. rewrite authenticate_run.
  io_more. cbn. destruct bearer as [[key c|s|s]|]; cbn.
  - destruct (String.eqb key (SqlAuthService.JWT_SECRET config)); cbn;
      [|split; [eauto|split; [split; discriminate|reflexivity]]].
    destruct (Jwt.expired c (clock env 0 / 1000)); cbn;
      [split; [eauto|split; [split; discriminate|reflexivity]]|].
    unfold Jwt.claimMatches. cbn.
    destruct (fault env 0); cbn;
      [split; [eauto|split; [split; discriminate|reflexivity]]|].
    destruct (SqlMiddleware.activeUser (Jwt.userId (Jwt.payload c)) d); cbn;
      [|split; [eauto|split; [split; discriminate|reflexivity]]].
    split; [eauto|]. split; [|reflexivity].
    intros ru. split; intros H; inversion H; reflexivity.
  - split; [eauto|split; [split; discriminate|reflexivity]].
  - destruct (Str.truthy s); cbn; split; eauto; split; try reflexivity; split; discriminate.
  - split; [eauto|split; [split; discriminate|reflexivity]].
Qed.

(** ** Visit-access authorization *)

Lemma hasVisitAccess_spec visitId userId d :
  SqlMiddleware.hasVisitAccess visitId userId d = true <-> attends d userId visitId.
Proof.
  unfold SqlMiddleware.hasVisitAccess, attends. rewrite existsb_exists. split.
  - intros (v & Hv & H). apply andb_true_iff in H. destruct H as [Hid H].
    apply String.eqb_eq in Hid. apply existsb_exists in H. destruct H as (p & Hp & H).
    apply andb_true_iff in H. destruct H as [Hj H]. apply String.eqb_eq in Hj.
    apply orb_true_iff in H. exists v, p.
    repeat split; auto. destruct H as [H|H]; apply String.eqb_eq in H; auto.
  - intros (v & p & Hv & Hid & Hp & Hj & H). exists v. split; [exact Hv|].
    apply andb_true_iff. split; [now apply String.eqb_eq|].
    apply existsb_exists. exists p. split; [exact Hp|].
    apply andb_true_iff. split; [now apply String.eqb_eq|].
    apply orb_true_iff. destruct H as [H|H]; [left|right]; now apply String.eqb_eq.
Qed.

(** X14: for an authenticated request that names a visit,
    [authorizeVisitAccess] lets the request through exactly when the
    user is an administrator, or the visit is joined to a stored
    patient and the user is the visit's doctor or created that
    patient; it never writes.  A visit whose patient row is missing
    is closed to its own doctor.  When the lookup is rejected by the
    storage driver only an administrator passes; every other user is
    denied with the driver's error, and a user who is none of the
    above with status 403. *)
Theorem authorizeVisitAccess_decision
        (req : SqlMiddleware.VisitRequest) (u : SqlMiddleware.RequestUser)
        (visitId : string) (env : Env) (d : SqlAuthService.Database) :
  SqlMiddleware.visitUser req = Some u ->
  SqlMiddleware.orElse (SqlMiddleware.paramsVisitId req)
                       (SqlMiddleware.bodyVisitId req) = Some visitId ->
  Str.truthy visitId = true ->
  let r := outcome (SqlMiddleware.authorizeVisitAccess req) env d in
  let userId := SqlMiddleware.id u in
  let isAdmin := SqlMiddleware.role u = "admin" in
  (fault env 0 = None ->
   (r = Ok tt <-> isAdmin \/ attends d userId visitId)
   /\ (r <> Ok tt -> r = Throw (AppError "Access denied to visit data" 403)))
  /\ (forall msg, fault env 0 = Some msg ->
                  (r = Ok tt <-> isAdmin)
                  /\ (~ isAdmin -> r = Throw (DriverError msg)))
  /\ (forall v, In v (SqlAuthService.visits d) -> SqlAuthService.v_id v = visitId ->
                (forall v', In v' (SqlAuthService.visits d) ->
                            SqlAuthService.v_id v' = visitId -> v' = v) ->
                (forall p, In p (SqlAuthService.patients d) ->
                           SqlAuthService.p_id p <> SqlAuthService.patient_id v) ->
                ~ isAdmin -> r <> Ok tt)
  /\ after (SqlMiddleware.authorizeVisitAccess req) env d = d.
Proof.
  intros Hu Hp Ht. cbv zeta.
  unfold outcome, after, run, SqlMiddleware.authorizeVisitAccess.
  rewrite Hu, Hp, Ht. cbn.
  destruct (String.eqb_spec (SqlMiddleware.role u) "admin") as [Ha|Ha].
  - cbn. repeat split; auto; try congruence.
  - io_unfold. cbn. split; [|split; [|split]].
    + intros Hf. rewrite Hf. cbn.
      destruct (SqlMiddleware.hasVisitAccess visitId (SqlMiddleware.id u) d) eqn:Hacc; cbn.
      * apply hasVisitAccess_spec in Hacc. repeat split; auto; try congruence.
      * assert (Hn : ~ attends d (SqlMiddleware.id u) visitId).
        { rewrite <- hasVisitAccess_spec. congruence. }
        repeat split; auto; try discriminate. intros [?|?]; tauto.
    + intros msg Hf. rewrite Hf. cbn. repeat split; auto; try discriminate; tauto.
    + intros v Hv Hid Hone Hdangling _.
      destruct (fault env 0); cbn; [discriminate|].
      destruct (SqlMiddleware.hasVisitAccess visitId (SqlMiddleware.id u) d) eqn:Hacc; cbn;
        [|discriminate].
      exfalso. apply hasVisitAccess_spec in Hacc.
      destruct Hacc as (v' & p & Hv' & Hid' & Hpin & Hj & _).
      assert (v' = v) by (apply Hone; assumption). subst v'.
      exact (Hdangling p Hpin Hj).
    + destruct (fault env 0); cbn; [reflexivity|].
      destruct (SqlMiddleware.hasVisitAccess visitId (SqlMiddleware.id u) d); reflexivity.
Qed.

(** On the sample store the doctor reaches the visit they made on a
    patient of another user. *)
Lemma authorizeVisitAccess_decision_witness :
  outcome (SqlMiddleware.authorizeVisitAccess (Sample.doctorVisitRequest "v-1"))
          Sample.env Sample.sqlStore = Ok tt.
Proof.
  apply (authorizeVisitAccess_decision
           (Sample.doctorVisitRequest "v-1")
           {| SqlMiddleware.id := "u-doc";
              SqlMiddleware.email := "dr.mwalimu@afyatrack.com";
              SqlMiddleware.role := "doctor";
              SqlMiddleware.firstName := "Juma";
              SqlMiddleware.lastName := "Mwalimu" |}
           "v-1" Sample.env Sample.sqlStore eq_refl eq_refl eq_refl); [reflexivity|].
  right. unfold attends.
  exists {| SqlAuthService.v_id := "v-1"; SqlAuthService.patient_id := "p-2";
            SqlAuthService.doctor_id := "u-doc" |},
         {| SqlAuthService.p_id := "p-2"; SqlAuthService.created_by := "u-nurse" |}.
  cbn. tauto.
Defined.

(** X15: access to a visit carries access to its patient.  When
    [authorizeVisitAccess] lets a user who is not an administrator
    through, the visit is stored, and [authorizePatientAccess] lets
    the same user through on every request that names the patient of
    that visit, once its lookup is answered: the doctor of the visit
    treats the patient, and the other way in is having created the
    patient. *)
Theorem visit_access_reaches_patient
        (req : SqlMiddleware.VisitRequest) (u : SqlMiddleware.RequestUser)
        (env : Env) (d : SqlAuthService.Database) :
  SqlMiddleware.visitUser req = Some u ->
  SqlMiddleware.role u <> "admin" ->
  outcome (SqlMiddleware.authorizeVisitAccess req) env d = Ok tt ->
  exists v,
    In v (SqlAuthService.visits d)
    /\ SqlMiddleware.orElse (SqlMiddleware.paramsVisitId req)
                            (SqlMiddleware.bodyVisitId req)
       = Some (SqlAuthService.v_id v)
    /\ forall req' env',
        SqlMiddleware.user req' = Some u ->
        SqlMiddleware.orElse (SqlMiddleware.paramsPatientId req')
                             (SqlMiddleware.bodyPatientId req')
        = Some (SqlAuthService.patient_id v) ->
        Str.truthy (SqlAuthService.patient_id v) = true ->
        fault env' 0 = None ->
        outcome (SqlMiddleware.authorizePatientAccess req') env' d = Ok tt.
Proof.
  intros Hu Ha H. apply String.eqb_neq in Ha.
  unfold outcome, run, SqlMiddleware.authorizeVisitAccess in H. rewrite Hu in H.
  destruct (SqlMiddleware.orElse (SqlMiddleware.paramsVisitId req)
                                 (SqlMiddleware.bodyVisitId req)) as [vid|];
    [|discriminate H].
  destruct (Str.truthy vid); cbn in H; [|discriminate H].
  rewrite Ha in H. io_unfold. cbn in H.
  destruct (fault env 0); cbn in H; [discriminate H|].
  destruct (SqlMiddleware.hasVisitAccess vid (SqlMiddleware.id u) d) eqn:Hacc; cbn in H;
    [|discriminate H].
  apply hasVisitAccess_spec in Hacc.
  destruct Hacc as (v & p & Hv & Hid & Hp & Hj & Hwho).
  exists v. split; [exact Hv|]. split; [now rewrite Hid|].
  intros req' env' Hu' Hpid Ht Hf.
  rewrite Hu', Hpid, Ht. cbn. rewrite Ha. cbn. rewrite Hf. cbn.
  assert (Hgranted : SqlMiddleware.hasAccess (SqlAuthService.patient_id v)
                       (SqlMiddleware.id u) d = true).
  { apply hasAccess_spec. destruct Hwho as [Hdoc|Hown].
    - right. exists p, v. repeat split; auto.
    - left. exists p. repeat split; auto. }
  now rewrite Hgranted.
Qed.

(** On the sample store, the doctor's visit and its patient. *)
Lemma visit_access_reaches_patient_witness :
  exists v,
    In v (SqlAuthService.visits Sample.sqlStore)
    /\ SqlAuthService.v_id v = "v-1"
    /\ outcome (SqlMiddleware.authorizePatientAccess
                  (Sample.doctorRequest (SqlAuthService.patient_id v)))
         Sample.env Sample.sqlStore = Ok tt.
Proof.
  destruct (visit_access_reaches_patient
              (Sample.doctorVisitRequest "v-1")
              {| SqlMiddleware.id := "u-doc";
                 SqlMiddleware.email := "dr.mwalimu@afyatrack.com";
                 SqlMiddleware.role := "doctor";
                 SqlMiddleware.firstName := "Juma";
                 SqlMiddleware.lastName := "Mwalimu" |}
              Sample.env Sample.sqlStore eq_refl)
    as (v & Hv & Hid & Hpatient); [discriminate | vm_compute; reflexivity |].
  exists v. split; [exact Hv|]. split; [cbn in Hid; congruence|].
  destruct Hv as [<-|[]].
  apply Hpatient; reflexivity.
Defined.

(** ** The rate limiter *)

(** Requests of one client inside a window that is already open. *)
Lemma serve_open_window maxRequests windowMs key times :
  forall requests c reset,
    requests key = Some {| SqlMiddleware.count := c; SqlMiddleware.resetTime := reset |} ->
    Forall (fun t => t <= reset) times ->
    (forall j t,
        nth_error times j = Some t ->
        nth_error (fst (SqlMiddleware.serve maxRequests windowMs key times requests)) j
        = Some (if c + Z.of_nat j <? maxRequests then SqlMiddleware.Served
                else SqlMiddleware.TooManyRequests (SqlMiddleware.ceilSeconds (reset - t))))
    /\ (forall k, k <> key ->
                  snd (SqlMiddleware.serve maxRequests windowMs key times requests) k
                  = requests k).
Proof.
  induction times as [|t0 times IH]; intros requests c reset Hb Hin.
  - split; [intros [|j] t; discriminate | reflexivity].
  - inversion Hin as [|? ? Ht0 Hrest]; subst.
    cbn [SqlMiddleware.serve]. unfold SqlMiddleware.rateLimitByUser. rewrite Hb.
    cbn [SqlMiddleware.resetTime SqlMiddleware.count].
    assert (Hw : (reset <? t0) = false) by (apply Z.ltb_ge; lia). rewrite Hw.
    destruct (Z.leb_spec maxRequests c) as [Hfull|Hroom].
    + destruct (IH requests c reset Hb Hrest) as [Hans Hkeys].
      destruct (SqlMiddleware.serve maxRequests windowMs key times requests)
        as [answers final] eqn:Es.
      cbn [fst snd] in *. split; [|exact Hkeys].
      intros [|j] t Ht; cbn in Ht |- *.
      * inversion Ht; subst. rewrite Z.add_0_r.
        assert (E : (c <? maxRequests) = false) by (apply Z.ltb_ge; lia).
        now rewrite E.
      * rewrite (Hans j t Ht).
        assert (E1 : (c + Z.of_nat j <? maxRequests) = false) by (apply Z.ltb_ge; lia).
        assert (E2 : (c + Z.pos (Pos.of_succ_nat j) <? maxRequests) = false)
          by (apply Z.ltb_ge; lia).
        now rewrite E1, E2.
    + set (requests' := SqlMiddleware.setBucket requests key
                          {| SqlMiddleware.count := c + 1;
                             SqlMiddleware.resetTime := reset |}).
      assert (Hb' : requests' key
                    = Some {| SqlMiddleware.count := c + 1;
                              SqlMiddleware.resetTime := reset |}).
      { unfold requests', SqlMiddleware.setBucket. now rewrite String.eqb_refl. }
      destruct (IH requests' (c + 1) reset Hb' Hrest) as [Hans Hkeys].
      destruct (SqlMiddleware.serve maxRequests windowMs key times requests')
        as [answers final] eqn:Es.
      cbn [fst snd] in *. split.
      * intros [|j] t Ht; cbn in Ht |- *.
        -- inversion Ht; subst. rewrite Z.add_0_r.
           assert (E : (c <? maxRequests) = true) by (apply Z.ltb_lt; lia).
           now rewrite E.
        -- rewrite (Hans j t Ht).
           replace (c + Z.pos (Pos.of_succ_nat j)) with (c + 1 + Z.of_nat j) by lia.
           reflexivity.
      * intros k Hk. rewrite (Hkeys k Hk). unfold requests', SqlMiddleware.setBucket.
        apply String.eqb_neq in Hk. now rewrite Hk.
Qed.

(** X16: one window of the limiter returned by [rateLimitByUser].
    Let a request of a client open a window (the client has no entry,
    or its entry lapsed), and let more requests of the client follow
    before the window lapses.  Then the request that opens the window
    is served whatever the limit is, and the i-th request after it is
    served exactly when i is below the limit; every other one is
    answered 429 with the seconds left in the window, rounded up, and
    the entries of other clients are not touched. *)
Theorem rate_limit_window (maxRequests windowMs : Z) (key : string)
        (t0 : Time) (times : list Time) (requests : SqlMiddleware.Requests) :
  match requests key with
  | None => True
  | Some b => SqlMiddleware.resetTime b < t0
  end ->
  Forall (fun t => t <= t0 + windowMs) times ->
  let answers := fst (SqlMiddleware.serve maxRequests windowMs key (t0 :: times) requests) in
  let final := snd (SqlMiddleware.serve maxRequests windowMs key (t0 :: times) requests) in
  (forall i t,
      nth_error (t0 :: times) i = Some t ->
      nth_error answers i
      = Some (if (i =? 0)%nat || (Z.of_nat i <? maxRequests)
              then SqlMiddleware.Served
              else SqlMiddleware.TooManyRequests
                     (SqlMiddleware.ceilSeconds (t0 + windowMs - t))))
  /\ (forall i t retryAfter,
         nth_error (t0 :: times) i = Some t ->
         nth_error answers i = Some (SqlMiddleware.TooManyRequests retryAfter) ->
         t0 + windowMs - t <= retryAfter * 1000 < t0 + windowMs - t + 1000)
  /\ (forall k, k <> key -> final k = requests k).
Proof.
  intros Hopen Hin. cbv zeta.
  set (requests' := SqlMiddleware.setBucket requests key
                      {| SqlMiddleware.count := 1;
                         SqlMiddleware.resetTime := t0 + windowMs |}).
  assert (Hfirst : SqlMiddleware.rateLimitByUser maxRequests windowMs key t0 requests
                   = (SqlMiddleware.Served, requests')).
  { unfold SqlMiddleware.rateLimitByUser.
    destruct (requests key) as [b|]; [|reflexivity].
    assert (E : (SqlMiddleware.resetTime b <? t0) = true) by (apply Z.ltb_lt; lia).
    now rewrite E. }
  assert (Hb' : requests' key
                = Some {| SqlMiddleware.count := 1;
                          SqlMiddleware.resetTime := t0 + windowMs |}).
  { unfold requests', SqlMiddleware.setBucket. now rewrite String.eqb_refl. }
  destruct (serve_open_window maxRequests windowMs key times requests' 1 (t0 + windowMs)
              Hb' Hin) as [Hans Hkeys].
  cbn [SqlMiddleware.serve]. rewrite Hfirst.
  destruct (SqlMiddleware.serve maxRequests windowMs key times requests')
    as [answers final] eqn:Es.
  cbn [fst snd] in *.
  assert (Htable : forall i t,
             nth_error (t0 :: times) i = Some t ->
             nth_error (SqlMiddleware.Served :: answers) i
             = Some (if (i =? 0)%nat || (Z.of_nat i <? maxRequests)
                     then SqlMiddleware.Served
                     else SqlMiddleware.TooManyRequests
                            (SqlMiddleware.ceilSeconds (t0 + windowMs - t)))).
  { intros [|j] t Ht; cbn in Ht |- *; [reflexivity|].
    rewrite (Hans j t Ht).
    replace (1 + Z.of_nat j) with (Z.pos (Pos.of_succ_nat j)) by lia. reflexivity. }
  split; [exact Htable|]. split.
  - intros i t retryAfter Ht Hr. rewrite (Htable i t Ht) in Hr.
    destruct ((i =? 0)%nat || (Z.of_nat i <? maxRequests)); [discriminate Hr|].
    inversion Hr. unfold SqlMiddleware.ceilSeconds.
    pose proof (Z.div_mod (- (t0 + windowMs - t)) 1000 ltac:(lia)) as Hdm.
    pose proof (Z.mod_pos_bound (- (t0 + windowMs - t)) 1000 ltac:(lia)) as Hmb.
    lia.
  - intros k Hk. rewrite (Hkeys k Hk). unfold requests', SqlMiddleware.setBucket.
    apply String.eqb_neq in Hk. now rewrite Hk.
Qed.

(** Three requests in a window with a limit of two, then the same
    with a limit of zero: the opening request is served either way. *)
Lemma rate_limit_window_witness :
  fst (SqlMiddleware.serve 2 60000 "u-doc" [1700000000000; 1700000000500; 1700000001000]
         SqlMiddleware.noRequests)
  = [SqlMiddleware.Served; SqlMiddleware.Served; SqlMiddleware.TooManyRequests 59]
  /\ nth_error (fst (SqlMiddleware.serve 0 60000 "u-doc"
                       [1700000000000; 1700000000500] SqlMiddleware.noRequests)) 0
     = Some SqlMiddleware.Served.
Proof.
  split; [vm_compute; reflexivity|].
  apply (rate_limit_window 0 60000 "u-doc" 1700000000000 [1700000000500]
           SqlMiddleware.noRequests I) with (t := 1700000000000); [|reflexivity].
  constructor; [|constructor]. vm_compute. discriminate.
Defined.

(** ** Rotation in the SQL service *)

(** The SQL [refreshToken] under a storage driver that answers, by
    the token presented. *)
Lemma sql_refreshToken_run config token env d :
  healthy env ->
  let w1 := {| db := d; ticks := 1; drawn := 0; ids := 0; stmts := 0; history := [] |} in
  run (SqlAuthService.refreshToken config token) env d
  = match token with
    | Jwt.Plain _ => (Throw (AppError "Invalid refresh token" 401), w1)
    | Jwt.Garbled _ => (Throw SyntaxError, w1)
    | Jwt.Signed key c =>
        if negb (String.eqb key (SqlAuthService.JWT_SECRET config))
        then (Throw (AppError "Invalid refresh token" 401), w1)
        else if Jwt.expired c (clock env 0 / 1000)
        then (Throw (AppError "Invalid refresh token" 401), w1)
        else
          match find (fun r => Jwt.eqb (SqlAuthService.token r) token
                               && (clock env 1 <? SqlAuthService.expires_at r))
                     (SqlAuthService.refresh_tokens d) with
          | None =>
              (Throw (AppError "Invalid or expired refresh token" 401),
               {| db := d; ticks := 2; drawn := 0; ids := 0; stmts := 1; history := [] |})
          | Some row =>
              match SqlMiddleware.activeUser (SqlAuthService.user_id row) d with
              | None =>
                  (Throw (AppError "User not found or inactive" 401),
                   {| db := d; ticks := 2; drawn := 0; ids := 0; stmts := 2;
                      history := [] |})
              | Some u =>
                  let payload := SqlAuthService.JWTPayload (SqlAuthService.id u)
                                   (SqlAuthService.email u) (SqlAuthService.role u) in
                  let issued :=
                    Jwt.Signed (SqlAuthService.JWT_SECRET config)
                      {| Jwt.payload := payload;
                         Jwt.iat := clock env 3 / 1000;
                         Jwt.exp := Some (clock env 3 / 1000
                                          + JwtService.seconds
                                              (SqlAuthService.JWT_REFRESH_EXPIRES_IN config));
                         Jwt.iss := None; Jwt.aud := None |} in
                  let d1 := SqlAuthService.withRefreshTokens d
                              (filter (fun r => negb (Jwt.eqb (SqlAuthService.token r) token))
                                      (SqlAuthService.refresh_tokens d)) in
                  let d2 := SqlAuthService.withRefreshTokens d1
                              (SqlAuthService.refresh_tokens d1
                                 ++ [{| SqlAuthService.rt_id := uuid env 0;
                                        SqlAuthService.user_id := SqlAuthService.id u;
                                        SqlAuthService.token := issued;
                                        SqlAuthService.expires_at :=
                                          clock env 4 + 30 * 86400000 |}]) in
                  (Ok {| SqlAuthService.accessToken :=
                           Jwt.Signed (SqlAuthService.JWT_SECRET config)
                             {| Jwt.payload := payload;
                                Jwt.iat := clock env 2 / 1000;
                                Jwt.exp := Some (clock env 2 / 1000
                                                 + JwtService.seconds
                                                     (SqlAuthService.JWT_EXPIRES_IN config));
                                Jwt.iss := None; Jwt.aud := None |};
                         SqlAuthService.refreshToken_ := issued |},
                   {| db := d2; ticks := 5; drawn := 0; ids := 1; stmts := 4;
                      history := [d2; d1] |})
              end
          end
    end.
Proof.
  intros Hh. unfold healthy in Hh. cbv zeta. io_unfold. cbn.
  destruct token as [key c|s|s]; cbn; try reflexivity.
  - destruct (String.eqb key (SqlAuthService.JWT_SECRET config)); cbn; [|reflexivity].
    destruct (Jwt.expired c (clock env 0 / 1000)); cbn; [reflexivity|].
    unfold Jwt.claimMatches. cbn. rewrite !Hh. cbn.
    destruct (find _ (SqlAuthService.refresh_tokens d)) as [row|]; cbn; [|reflexivity].
    rewrite !Hh. cbn. unfold SqlMiddleware.activeUser.
    destruct (find _ (SqlAuthService.users d)) as [u|]; cbn; [|reflexivity].
    rewrite !Hh. cbn. rewrite ?Hh. reflexivity.
  - destruct (Str.truthy s); reflexivity.
Qed.


Lemma find_absent {A} (p : A -> bool) (rows : list A) :
  (forall r, In r rows -> p r = false) -> find p rows = None.
Proof.
  intros Hrows. induction rows as [|r rows IH]; cbn; [reflexivity|].
  rewrite (Hrows r (or_introl eq_refl)). apply IH. intros y Hy. apply Hrows. now right.
Qed.



(** ** Password change in the SQL service *)

(** [changePassword], statement by statement. *)
Lemma changePassword_run bcrypt rounds userId current new env d :
  run (SqlAuthService.changePassword bcrypt rounds userId current new) env d
  = let world s h x := {| db := x; ticks := 0; drawn := 0; ids := 0; stmts := s;
                          history := h |} in
    match fault env 0 with
    | Some m => (Throw (DriverError m), world 1%nat [] d)
    | None =>
        match SqlMiddleware.activeUser userId d with
        | None => (Throw (AppError "User not found" 404), world 1%nat [] d)
        | Some u =>
            if negb (SqlAuthService.compare bcrypt current (SqlAuthService.password u))
            then (Throw (AppError "Current password is incorrect" 401), world 1%nat [] d)
            else
              match fault env 1 with
              | Some m => (Throw (DriverError m), world 2%nat [] d)
              | None =>
                  let d1 := snd (SqlAuthService.updatePassword userId
                                   (SqlAuthService.hash bcrypt new rounds) d) in
                  match fault env 2 with
                  | Some m => (Throw (DriverError m), world 3%nat [d1] d1)
                  | None =>
                      let d2 := snd (SqlAuthService.deleteByUser userId d1) in
                      (Ok tt, world 3%nat [d2; d1] d2)
                  end
              end
        end
    end.
Proof.
  io_more. cbn. unfold SqlMiddleware.activeUser.
  destruct (fault env 0); cbn; [reflexivity|].
  destruct (find _ (SqlAuthService.users d)) as [u|]; cbn; [|reflexivity].
  destruct (SqlAuthService.compare bcrypt current (SqlAuthService.password u)); cbn;
    [|reflexivity].
  destruct (fault env 1); cbn; [reflexivity|].
  destruct (fault env 2); cbn; reflexivity.
Qed.

Lemma find_map_invariant {A} (p : A -> bool) (f : A -> A) (rows : list A) :
  (forall x, p (f x) = p x) ->
  find p (map f rows) = option_map f (find p rows).
Proof.
  intros Hp. induction rows as [|x rows IH]; cbn; [reflexivity|].
  rewrite Hp. destruct (p x); [reflexivity | exact IH].
Qed.

(** X18: [changePassword] in the SQL service.  When storage answers,
    it succeeds exactly for a stored, active user whose current
    password [bcrypt.compare] accepts.  On success the user's row
    carries the hash of the new password, every refresh-token row of
    the user is deleted and every other row is kept, so a refresh
    token that only the user's rows carried is refused by rotation
    from then on; but [authenticate] answers every bearer token as it
    did before: the access tokens already issued stay good.  A
    refusal ("User not found", "Current password is incorrect")
    writes nothing.  The two writes are separate statements: when the
    driver rejects the second, the password is changed and the
    sessions stay. *)
Theorem changePassword_ends_sessions (bcrypt : SqlAuthService.Bcrypt) (rounds : Z)
        (userId current new : string) (env : Env) (d : SqlAuthService.Database) :
  let call := SqlAuthService.changePassword bcrypt rounds userId current new in
  let r := outcome call env d in
  let d' := after call env d in
  let changed u := if String.eqb (SqlAuthService.id u) userId
                   then SqlAuthService.withPassword u (SqlAuthService.hash bcrypt new rounds)
                   else u in
  (fault env 0 = None -> fault env 1 = None -> fault env 2 = None ->
   (r = Ok tt <->
    exists u, SqlMiddleware.activeUser userId d = Some u
              /\ SqlAuthService.compare bcrypt current (SqlAuthService.password u) = true))
  /\ (r = Ok tt ->
      SqlAuthService.users d' = map changed (SqlAuthService.users d)
      /\ (forall row, In row (SqlAuthService.refresh_tokens d')
                      <-> In row (SqlAuthService.refresh_tokens d)
                          /\ SqlAuthService.user_id row <> userId)
      /\ SqlAuthService.patients d' = SqlAuthService.patients d
      /\ SqlAuthService.visits d' = SqlAuthService.visits d
      /\ (forall config token env',
             (forall row, In row (SqlAuthService.refresh_tokens d) ->
                          SqlAuthService.token row = token ->
                          SqlAuthService.user_id row = userId) ->
             healthy env' ->
             isOk (outcome (SqlAuthService.refreshToken config token) env' d') = false)
      /\ (forall config bearer env',
             outcome (SqlMiddleware.authenticate config bearer) env' d'
             = outcome (SqlMiddleware.authenticate config bearer) env' d))
  /\ (forall m st, r = Throw (AppError m st) ->
                   d' = d /\ writes call env d = [])
  /\ (forall m u,
         fault env 0 = None -> fault env 1 = None -> fault env 2 = Some m ->
         SqlMiddleware.activeUser userId d = Some u ->
         SqlAuthService.compare bcrypt current (SqlAuthService.password u) = true ->
         r = Throw (DriverError m)
         /\ SqlAuthService.users d' = map changed (SqlAuthService.users d)
         /\ SqlAuthService.refresh_tokens d' = SqlAuthService.refresh_tokens d).
Proof.
  cbv zeta. unfold outcome, after, writes. rewrite changePassword_run. cbv zeta.
  split; [|split; [|split]].
  - intros Hf0 Hf1 Hf2. rewrite Hf0, Hf1, Hf2.
    destruct (SqlMiddleware.activeUser userId d) as [u|]; cbn.
    + destruct (SqlAuthService.compare bcrypt current (SqlAuthService.password u)) eqn:Hc;
        cbn.
      * split; [eauto | reflexivity].
      * split; [discriminate|]. intros (u' & Hu' & Hc'). inversion Hu'. congruence.
    + split; [discriminate|]. intros (u' & Hu' & _). discriminate.
  - destruct (fault env 0); cbn; [discriminate|].
    destruct (SqlMiddleware.activeUser userId d) as [u|]; cbn; [|discriminate].
    destruct (SqlAuthService.compare bcrypt current (SqlAuthService.password u)); cbn;
      [|discriminate].
    destruct (fault env 1); cbn; [discriminate|].
    destruct (fault env 2); cbn; [discriminate|].
    intros _.
    set (d' := SqlAuthService.withRefreshTokens _ _).
    assert (Hrows : forall row, In row (SqlAuthService.refresh_tokens d')
                                <-> In row (SqlAuthService.refresh_tokens d)
                                    /\ SqlAuthService.user_id row <> userId).
    { intros row. unfold d'. cbn. rewrite filter_In, negb_true_iff, String.eqb_neq.
      tauto. }
    split; [reflexivity|]. split; [exact Hrows|]. split; [reflexivity|].
    split; [reflexivity|]. split.
    + intros config token env' Hown Hh'. unfold outcome.
      rewrite (sql_refreshToken_run config token env' d' Hh'). cbv zeta.
      destruct token as [key c|s|s]; try reflexivity.
      destruct (negb (String.eqb key (SqlAuthService.JWT_SECRET config))); [reflexivity|].
      destruct (Jwt.expired c (clock env' 0 / 1000)); [reflexivity|].
      rewrite find_absent; [reflexivity|].
      intros row Hrow. apply Hrows in Hrow. destruct Hrow as [Hin Hne].
      destruct (Jwt.eqb (SqlAuthService.token row) (Jwt.Signed key c)) eqn:E;
        [|reflexivity].
      apply Jwt_eqb_eq in E. exfalso. apply Hne. now apply Hown.
    + intros config bearer env'. unfold outcome. rewrite !authenticate_run.
      assert (Hsame : forall uid,
                 option_map SqlMiddleware.attached (SqlMiddleware.activeUser uid d')
                 = option_map SqlMiddleware.attached (SqlMiddleware.activeUser uid d)).
      { intros uid. unfold SqlMiddleware.activeUser, d'. cbn.
        rewrite find_map_invariant.
        - destruct (find _ (SqlAuthService.users d)) as [x|]; cbn; [|reflexivity].
          destruct (String.eqb (SqlAuthService.id x) userId); reflexivity.
        - intros x. destruct (String.eqb (SqlAuthService.id x) userId); reflexivity. }
      destruct bearer as [[key c|s|s]|]; cbv beta iota zeta; try reflexivity.
      destruct (negb (String.eqb key (SqlAuthService.JWT_SECRET config))); [reflexivity|].
      destruct (Jwt.expired c (clock env' 0 / 1000)); [reflexivity|].
      destruct (fault env' 0); [reflexivity|].
      specialize (Hsame (Jwt.userId (Jwt.payload c))).
      destruct (SqlMiddleware.activeUser (Jwt.userId (Jwt.payload c)) d'),
        (SqlMiddleware.activeUser (Jwt.userId (Jwt.payload c)) d);
        cbn in Hsame |- *; congruence.
  - intros m st.
    destruct (fault env 0); cbn; [discriminate|].
    destruct (SqlMiddleware.activeUser userId d) as [u|]; cbn; [|auto].
    destruct (SqlAuthService.compare bcrypt current (SqlAuthService.password u)); cbn;
      [|auto].
    destruct (fault env 1); cbn; [discriminate|].
    destruct (fault env 2); cbn; discriminate.
  - intros m u Hf0 Hf1 Hf2 Hu Hc. rewrite Hf0, Hu, Hc, Hf1, Hf2. cbn.
    split; [reflexivity|]. split; reflexivity.
Qed.

(** The sample doctor changes the password: the call succeeds and the
    stored session token is refused afterwards. *)
Lemma changePassword_ends_sessions_witness :
  let call := SqlAuthService.changePassword Sample.bcrypt 12 "u-doc" "Daktari2024!"
                "Daktari2025!" in
  outcome call Sample.env Sample.sqlStore = Ok tt
  /\ isOk (outcome (SqlAuthService.refreshToken SqlAuthService.defaults
                      (SqlAuthService.token Sample.sqlSession)) Sample.env
             (after call Sample.env Sample.sqlStore)) = false.
Proof.
  cbv zeta.
  destruct (changePassword_ends_sessions Sample.bcrypt 12 "u-doc" "Daktari2024!"
              "Daktari2025!" Sample.env Sample.sqlStore) as (Hiff & Hafter & _).
  assert (Hok : outcome (SqlAuthService.changePassword Sample.bcrypt 12 "u-doc"
                           "Daktari2024!" "Daktari2025!") Sample.env Sample.sqlStore
                = Ok tt).
  { apply (Hiff eq_refl eq_refl eq_refl). exists Sample.sqlDoctor.
    split; reflexivity. }
  split; [exact Hok|].
  destruct (Hafter Hok) as (_ & _ & _ & _ & Hrefused & _).
  apply Hrefused; [|intros k; reflexivity].
  intros row Hrow _. cbn in Hrow. destruct Hrow as [<-|[]]. reflexivity.
Defined.

(** ** The authentication endpoints *)

(** The world [authenticateToken] leaves. *)
Lemma authenticateToken_world cfg bearer env d :
  (forall ru,
      outcome (Middleware.authenticateToken cfg bearer) env d = Ok (Middleware.Next ru) ->
      run (Middleware.authenticateToken cfg bearer) env d
      = (Ok (Middleware.Next ru),
         {| db := d; ticks := 1; drawn := 0; ids := 0; stmts := 1; history := [] |}))
  /\ (exists h, outcome (Middleware.authenticateToken cfg bearer) env d = Ok h)
  /\ after (Middleware.authenticateToken cfg bearer) env d = d
  /\ writes (Middleware.authenticateToken cfg bearer) env d = [].
Proof.
  unfold outcome, after, writes, run, Middleware.authenticateToken, try, bind.
  destruct bearer as [token|]; [|cbn; repeat split; eauto; discriminate].
  destruct (Jwt.truthy token); cbn [negb]; [|cbn; repeat split; eauto; discriminate].
  rewrite !verifyAccessToken_run. cbn [fst snd].
  match goal with
  | |- context [match ?v with Ok _ => _ | Throw _ => _ end] => destruct v as [p|e] eqn:Hv
  end; [|cbn; repeat split; eauto; discriminate].
  io_unfold. cbn.
  destruct (fault env 0); cbn; [repeat split; eauto; discriminate|].
  destruct (find _ (AuthService.users d)) as [u|]; cbn;
    [|repeat split; eauto; discriminate].
  destruct (User.isActive u); cbn; [|repeat split; eauto; discriminate].
  repeat split; eauto. intros ru H. inversion H. reflexivity.
Qed.

(** X19: the route [POST /logout-all].  When [authenticateToken]
    hands the request on and storage answers, the endpoint answers
    200 and the sessions it revokes are those of the authenticated
    user: the key it passes to the service is the [userId] claim of
    the token, which is the key of the stored user the middleware
    found.  Every unrevoked row of that user is replaced by its
    revoked copy, no other row changes, and afterwards every row of
    the user is revoked.  A request the middleware answers gets that
    answer and nothing is written. *)
Theorem logout_all_route (cfg : JwtService.Config) (bearer : option Jwt.Token)
        (ip : option string) (env : Env) (d : AuthService.Database) :
  fault env 1 = None -> fault env 2 = None -> Sessions.uniqueIds d ->
  let r := outcome (AuthRoutes.logoutAll cfg bearer ip) env d in
  let d' := after (AuthRoutes.logoutAll cfg bearer ip) env d in
  let authenticated := outcome (Middleware.authenticateToken cfg bearer) env d in
  (forall ru,
      authenticated = Ok (Middleware.Next ru) ->
      Str.truthy (Middleware.id ru) = true ->
      r = Ok (AuthController.succeeded 200 "Logged out from all devices successfully" None)
      /\ AuthService.users d' = AuthService.users d
      /\ Forall2 (fun x x' =>
                    if Sessions.liveOf (Middleware.id ru) x
                    then exists k, x' = Sessions.revokedCopy x ip (clock env k)
                    else x' = x)
                 (AuthService.refreshTokens d) (AuthService.refreshTokens d')
      /\ (forall x', In x' (AuthService.refreshTokens d') ->
                     RefreshToken.userId x' = Middleware.id ru ->
                     RefreshToken.isRevoked x' = true))
  /\ (forall st m,
         authenticated = Ok (Middleware.Respond st m) ->
         r = Ok (AuthController.failed st m) /\ d' = d).
Proof.
  intros Hf1 Hf2 Hu. cbv zeta.
  destruct (authenticateToken_world cfg bearer env d) as (Hnext & _ & Hdb & _).
  split.
  - intros ru Ha Hkey.
    destruct (authenticateToken_attaches _ _ _ _ _ Ha) as (token & p & u & _ & _ & Hact & ->).
    apply activeUserById_active in Hact. destruct Hact as [Hid _].
    specialize (Hnext _ Ha). cbn [requestUserOf Middleware.id] in *.
    unfold outcome, after, run, AuthRoutes.logoutAll, bind in *.
    rewrite Hnext. unfold AuthController.logoutFromAllDevices, try, bind.
    cbn [Middleware.payload requestUserOf]. rewrite <- Hid, Hkey. cbn [negb].
    set (w := {| db := d; ticks := 1; drawn := 0; ids := 0; stmts := 1; history := [] |}).
    destruct (logoutFromAllDevices_from (User.id u) ip env w Hf1 Hf2 Hu)
      as (rows' & Hok & Hafter & Hrel).
    destruct (AuthService.logoutFromAllDevices (User.id u) ip env w) as [res w'].
    cbn [fst snd] in *. subst res. unfold ret. cbn [fst snd]. rewrite Hafter.
    cbn [w db AuthService.withRefreshTokens AuthService.users AuthService.refreshTokens]
      in *.
    split; [reflexivity|]. split; [reflexivity|]. split; [exact Hrel|].
    intros x' Hin Huser.
    destruct (Forall2_pick_r _ _ _ _ Hrel Hin) as (x & Hx & HR).
    destruct (sessions_revoked (User.id u) ip env _ _ Hrel x x' Hx HR) as [[Hsame _] Hrev].
    apply Hrev. congruence.
  - intros st m Ha.
    unfold outcome, after, run, AuthRoutes.logoutAll, bind in *.
    destruct (Middleware.authenticateToken cfg bearer env (start d)) as [res w].
    cbn [fst snd] in *. subst res. unfold ret. cbn [fst snd]. split; [reflexivity|].
    exact Hdb.
Qed.

(** The administrator of the sample store calls the route with an
    access token. *)
Lemma logout_all_route_witness :
  let call := AuthRoutes.logoutAll JwtService.defaults
                (Some (Sample.accessOf Sample.admin "admin")) None in
  outcome call Sample.env Sample.store
  = Ok (AuthController.succeeded 200 "Logged out from all devices successfully" None)
  /\ forall x', In x' (AuthService.refreshTokens (after call Sample.env Sample.store)) ->
                RefreshToken.userId x' = "u-admin" -> RefreshToken.isRevoked x' = true.
Proof.
  cbv zeta.
  assert (Hi : Sessions.uniqueIds Sample.store).
  { unfold Sessions.uniqueIds. cbn.
    repeat (constructor; [cbn; intuition discriminate|]). constructor. }
  destruct (logout_all_route JwtService.defaults
              (Some (Sample.accessOf Sample.admin "admin")) None Sample.env Sample.store
              eq_refl eq_refl Hi) as [Hnext _].
  destruct (Hnext (requestUserOf
                     {| Jwt.userId := "u-admin"; Jwt.email := "admin@afyatrack.com";
                        Jwt.role := "admin"; Jwt.facilityId := None |} Sample.admin))
    as (Hok & _ & _ & Hrevoked); [vm_compute; reflexivity | reflexivity |].
  split; [exact Hok | exact Hrevoked].
Defined.

(** The logout endpoint in terms of the service call it makes. *)
Lemma logout_endpoint_run token ip env d :
  run (AuthController.logout token ip) env d
  = match token with
    | None => (Ok (AuthController.succeeded 200 "Logout successful" None), start d)
    | Some t =>
        if Jwt.truthy t then
          match run (AuthService.logout t ip) env d with
          | (Ok _, w) => (Ok (AuthController.succeeded 200 "Logout successful" None), w)
          | (Throw _, w) => (Ok (AuthController.failed 500 "Logout failed"), w)
          end
        else (Ok (AuthController.succeeded 200 "Logout successful" None), start d)
    end.
Proof.
  unfold AuthController.logout, run, try, bind. unfold ret.
  destruct token as [t|]; [|reflexivity].
  destruct (Jwt.truthy t); [|reflexivity].
  destruct (AuthService.logout t ip env (start d)) as [[[]|e] w]; reflexivity.
Qed.

(** X20: the endpoint [POST /logout] never throws and answers 200
    "Logout successful" or 500 "Logout failed".  When storage answers
    it answers 200 whatever token the body carries: a live token, a
    revoked one and one that was never issued get the same answer.
    A body without a token is answered 200 without a statement being
    issued.  The endpoint can be called again: after a 200, a second
    call with the same body is answered 200 once its lookup is
    answered, and leaves the database as the first call left it.  A
    500 means nothing was written. *)
Theorem logout_endpoint (token : option Jwt.Token) (ip : option string)
        (env : Env) (d : AuthService.Database) :
  let call := AuthController.logout token ip in
  let ok := Ok (AuthController.succeeded 200 "Logout successful" None) in
  let r := outcome call env d in
  (r = ok \/ r = Ok (AuthController.failed 500 "Logout failed"))
  /\ (fault env 0 = None -> fault env 1 = None -> r = ok)
  /\ ((forall t, token = Some t -> Jwt.truthy t = false) ->
      run call env d = (ok, start d))
  /\ (r = ok ->
      forall ip' env',
        fault env' 0 = None ->
        outcome (AuthController.logout token ip') env' (after call env d) = ok
        /\ after (AuthController.logout token ip') env' (after call env d)
           = after call env d)
  /\ (r = Ok (AuthController.failed 500 "Logout failed") -> after call env d = d).
Proof.
  cbv zeta. unfold outcome, after. rewrite logout_endpoint_run.
  destruct token as [t|].
  2:{ split; [now left|]. split; [reflexivity|]. split; [reflexivity|]. split.
      - intros _ ip' env' _. rewrite logout_endpoint_run. now split.
      - discriminate. }
  destruct (Jwt.truthy t) eqn:Ht.
  2:{ split; [now left|]. split; [reflexivity|]. split; [reflexivity|]. split.
      - intros _ ip' env' _. rewrite logout_endpoint_run, Ht. now split.
      - discriminate. }
  split; [|split; [|split; [|split]]].
  - destruct (run (AuthService.logout t ip) env d) as [[[]|e] w]; [now left | now right].
  - intros Hf0 Hf1. rewrite logout_run, Hf0.
    destruct (find (carries t) (AuthService.refreshTokens d)) as [x|]; [|reflexivity].
    destruct (RefreshToken.isRevoked x); [reflexivity|]. now rewrite Hf1.
  - intros Hnone. specialize (Hnone t eq_refl). congruence.
  - intros Hok ip' env' Hf'. rewrite logout_endpoint_run, Ht.
    assert (Hserv : outcome (AuthService.logout t ip) env d = Ok tt).
    { unfold outcome. destruct (run (AuthService.logout t ip) env d) as [[[]|e] w];
        [reflexivity | discriminate Hok]. }
    pose proof (logout_revokes t ip env d Hserv) as Hout. unfold after in Hout.
    destruct (run (AuthService.logout t ip) env d) as [[[]|e] w]; [|discriminate Hok].
    cbn [fst snd] in *.
    rewrite (logout_again t ip' env' (db w) Hout Hf'). now split.
  - rewrite logout_run.
    destruct (fault env 0); [reflexivity|].
    destruct (find (carries t) (AuthService.refreshTokens d)) as [x|]; [|discriminate].
    destruct (RefreshToken.isRevoked x); [discriminate|].
    destruct (fault env 1); [reflexivity | discriminate].
Qed.

(** The administrator's session token on the sample store, sent to
    the endpoint twice. *)
Lemma logout_endpoint_witness :
  let call := AuthController.logout (Some (RefreshToken.token Sample.adminSession)) None in
  outcome call Sample.env Sample.store
  = Ok (AuthController.succeeded 200 "Logout successful" None)
  /\ outcome call Sample.env (after call Sample.env Sample.store)
     = Ok (AuthController.succeeded 200 "Logout successful" None).
Proof.
  cbv zeta.
  destruct (logout_endpoint (Some (RefreshToken.token Sample.adminSession)) None
              Sample.env Sample.store) as (_ & Hok & _ & Hagain & _).
  split; [exact (Hok eq_refl eq_refl)|].
  apply (Hagain (Hok eq_refl eq_refl) None Sample.env eq_refl).
Defined.





(** An endpoint that wraps a service call: validation first, then
    the call, every error answered 401 with its message. *)
Lemma wrapped_call (service : M AuthService.Database AuthService.AuthResponse)
      (greeting : string) (validation : list string) env d :
  run (try match validation with
           | _ :: _ => ret (AuthController.invalid validation)
           | [] => bind service
                     (fun a => ret (AuthController.succeeded 200 greeting (Some a)))
           end
           (fun error => ret (AuthController.failed 401 (messageOf error)))) env d
  = match validation with
    | _ :: _ => (Ok (AuthController.invalid validation), start d)
    | [] =>
        match run service env d with
        | (Ok a, w) => (Ok (AuthController.succeeded 200 greeting (Some a)), w)
        | (Throw e, w) => (Ok (AuthController.failed 401 (messageOf e)), w)
        end
    end.
Proof.
  unfold run, try, bind. unfold ret.
  destruct validation; [|reflexivity].
  destruct (service env (start d)) as [[a|e] w]; reflexivity.
Qed.

(** X22: the statuses of [POST /login] and [POST /refresh].  Neither
    endpoint throws, and neither answers with a 5xx status: the
    answer is 400 exactly when validation failed (and then the
    service is not called), 200 exactly when the service call
    returns, and 401 with the message of the error for every error
    the service throws.  That includes the storage driver's: when
    the first lookup is rejected, the client is answered 401 and
    reads the driver's message. *)
Theorem token_endpoints_answer (cfg : JwtService.Config) (pw : PasswordService)
        (validation : list string) (ip : option string)
        (env : Env) (d : AuthService.Database) :
  let answers (call : M AuthService.Database AuthController.Response)
              (service : M AuthService.Database AuthService.AuthResponse)
              (greeting : string) :=
    exists resp,
      outcome call env d = Ok resp
      /\ (AuthController.status resp = 400 <-> validation <> [])
      /\ (validation <> [] -> run call env d = (Ok (AuthController.invalid validation),
                                                start d))
      /\ (AuthController.status resp = 200
          <-> validation = [] /\ isOk (outcome service env d) = true)
      /\ (AuthController.status resp = 401
          <-> validation = [] /\ isOk (outcome service env d) = false)
      /\ (validation = [] ->
          (forall a, outcome service env d = Ok a ->
                     resp = AuthController.succeeded 200 greeting (Some a))
          /\ (forall e, outcome service env d = Throw e ->
                        resp = AuthController.failed 401 (messageOf e))
          /\ (forall m, fault env 0 = Some m -> resp = AuthController.failed 401 m)) in
  (forall l, answers (AuthController.login cfg pw validation l ip)
                     (AuthService.login cfg pw l ip) "Login successful")
  /\ (forall token, answers (AuthController.refreshToken cfg validation token ip)
                            (AuthService.refreshToken cfg token ip)
                            "Token refreshed successfully").
Proof.
  cbv zeta.
  assert (Hshape : forall (service : M AuthService.Database AuthService.AuthResponse)
                          (greeting : string)
                          (call : M AuthService.Database AuthController.Response),
             run call env d
             = match validation with
               | _ :: _ => (Ok (AuthController.invalid validation), start d)
               | [] =>
                   match run service env d with
                   | (Ok a, w) => (Ok (AuthController.succeeded 200 greeting (Some a)), w)
                   | (Throw e, w) => (Ok (AuthController.failed 401 (messageOf e)), w)
                   end
               end ->
             (forall m, fault env 0 = Some m ->
                        outcome service env d = Throw (DriverError m)) ->
             exists resp,
               outcome call env d = Ok resp
               /\ (AuthController.status resp = 400 <-> validation <> [])
               /\ (validation <> [] ->
                   run call env d = (Ok (AuthController.invalid validation), start d))
               /\ (AuthController.status resp = 200
                   <-> validation = [] /\ isOk (outcome service env d) = true)
               /\ (AuthController.status resp = 401
                   <-> validation = [] /\ isOk (outcome service env d) = false)
               /\ (validation = [] ->
                   (forall a, outcome service env d = Ok a ->
                              resp = AuthController.succeeded 200 greeting (Some a))
                   /\ (forall e, outcome service env d = Throw e ->
                                 resp = AuthController.failed 401 (messageOf e))
                   /\ (forall m, fault env 0 = Some m ->
                                 resp = AuthController.failed 401 m))).
  { intros service greeting call Hrun Hdriver. unfold outcome in *. rewrite Hrun.
    destruct validation as [|v vs].
    - destruct (run service env d) as [[a|e] w]; cbn [fst] in *.
      + eexists. split; [reflexivity|]. cbn.
        split; [split; [discriminate | congruence]|].
        split; [congruence|].
        split; [split; auto|].
        split; [split; [discriminate | intros [_ H]; discriminate H]|].
        intros _. split; [intros a' H; now inversion H|].
        split; [discriminate|].
        intros m Hf. specialize (Hdriver m Hf). discriminate Hdriver.
      + eexists. split; [reflexivity|]. cbn.
        split; [split; [discriminate | congruence]|].
        split; [congruence|].
        split; [split; [discriminate | intros [_ H]; discriminate H]|].
        split; [split; auto|].
        intros _. split; [discriminate|].
        split; [intros e' H; now inversion H|].
        intros m Hf. specialize (Hdriver m Hf). now inversion Hdriver.
    - eexists. split; [reflexivity|]. cbn.
      split; [split; [discriminate | reflexivity]|].
      split; [reflexivity|].
      split; [split; [discriminate | intros [H _]; discriminate H]|].
      split; [split; [discriminate | intros [H _]; discriminate H]|].
      discriminate. }
  split.
  - intros l. apply Hshape.
    + apply wrapped_call.
    + intros m Hf. io_unfold. cbn. now rewrite Hf.
  - intros token. apply Hshape.
    + apply wrapped_call.
    + intros m Hf. io_unfold. cbn. now rewrite Hf.
Qed.

(** The administrator logs in while the storage driver rejects every
    statement. *)
Lemma token_endpoints_answer_witness :
  outcome (AuthController.login JwtService.defaults Sample.pw [] Sample.adminLogin None)
    Sample.offline Sample.store
  = Ok (AuthController.failed 401 "SQLITE_BUSY: database is locked").
Proof.
  destruct (token_endpoints_answer JwtService.defaults Sample.pw [] None
              Sample.offline Sample.store) as [Hlogin _].
  destruct (Hlogin Sample.adminLogin) as (resp & Hok & _ & _ & _ & _ & Hvalid).
  destruct (Hvalid eq_refl) as (_ & _ & Hdriver).
  rewrite Hok. f_equal. apply Hdriver. reflexivity.
Defined.

(** ** The guards of the SQL routes *)

(** X23: the guards [authenticate, authorize(...roles)] in front of
    the visit and patient routes of the SQL service.  When the user
    lookup is answered, a request passes them exactly when its bearer
    token is signed with the service's secret and not expired, its
    [userId] names a stored, active user, and the role stored for
    that user is one of the listed roles; the role claim of the token
    plays no part.  A request [authenticate] accepts for a user whose
    stored role is not listed is answered 403 "Insufficient
    permissions", and one it rejects keeps the error of
    [authenticate]. *)
Theorem sql_route_guards (config : SqlAuthService.Config)
        (roles : list SqlMiddleware.UserRole) (bearer : option Jwt.Token)
        (env : Env) (d : SqlAuthService.Database) :
  let r := outcome (SqlRoutes.guards config roles bearer) env d in
  let authenticated := outcome (SqlMiddleware.authenticate config bearer) env d in
  let listed u := exists role, In role roles
                               /\ SqlMiddleware.roleName role = SqlAuthService.role u in
  (fault env 0 = None ->
   forall ru, r = Ok ru <->
              exists c u,
                bearer = Some (Jwt.Signed (SqlAuthService.JWT_SECRET config) c)
                /\ Jwt.expired c (clock env 0 / 1000) = false
                /\ SqlMiddleware.activeUser (Jwt.userId (Jwt.payload c)) d = Some u
                /\ ru = SqlMiddleware.attached u
                /\ listed u)
  /\ (forall u, authenticated = Ok (SqlMiddleware.attached u) -> ~ listed u ->
                r = Throw (AppError "Insufficient permissions" 403))
  /\ (forall e, authenticated = Throw e -> r = Throw e)
  /\ after (SqlRoutes.guards config roles bearer) env d = d.
Proof.
  cbv zeta.
  assert (Hlisted : forall u,
             existsb (fun role => String.eqb (SqlMiddleware.roleName role)
                                    (SqlMiddleware.role (SqlMiddleware.attached u))) roles
             = true
             <-> exists role, In role roles
                              /\ SqlMiddleware.roleName role = SqlAuthService.role u).
  { intros u. rewrite existsb_exists. cbn.
    split; intros (role & Hin & H); exists role; (split; [exact Hin|]);
      now apply String.eqb_eq. }
  assert (Hrun : run (SqlRoutes.guards config roles bearer) env d
                 = match run (SqlMiddleware.authenticate config bearer) env d with
                   | (Ok u, w) =>
                       if existsb (fun role => String.eqb (SqlMiddleware.roleName role)
                                                 (SqlMiddleware.role u)) roles
                       then (Ok u, w)
                       else (Throw (AppError "Insufficient permissions" 403), w)
                   | (Throw e, w) => (Throw e, w)
                   end).
  { unfold SqlRoutes.guards, run, bind, SqlMiddleware.authorize. unfold ret, throw.
    destruct (SqlMiddleware.authenticate config bearer env (start d)) as [[u|e] w];
      [|reflexivity].
    destruct (existsb _ roles); reflexivity. }
  unfold outcome, after. rewrite Hrun. clear Hrun. rewrite authenticate_run.
  split; [|split; [|split]].
  - intros Hf ru. rewrite Hf. split.
    + destruct bearer as [[key c|s|s]|]; cbn; try discriminate.
      destruct (String.eqb_spec key (SqlAuthService.JWT_SECRET config)) as [->|];
        cbn; [|discriminate].
      destruct (Jwt.expired c (clock env 0 / 1000)) eqn:He; cbn; [discriminate|].
      destruct (SqlMiddleware.activeUser _ d) as [u|] eqn:Hu; cbn; [|discriminate].
      destruct (existsb _ roles) eqn:Hr; cbn; [|discriminate].
      intros H. inversion H. exists c, u. repeat split; auto. now apply Hlisted.
    + intros (c & u & -> & He & Hu & -> & Hr). cbn.
      rewrite String.eqb_refl, He, Hu. cbn.
      apply Hlisted in Hr. cbn in Hr. now rewrite Hr.
  - intros u Ha Hn.
    destruct (match bearer with Some _ => _ | None => _ end) as [[u'|e] w];
      cbn [fst] in *; [|discriminate Ha].
    inversion Ha. subst u'.
    destruct (existsb _ roles) eqn:Hr; [|reflexivity].
    exfalso. apply Hn. now apply Hlisted.
  - intros e Ha.
    destruct (match bearer with Some _ => _ | None => _ end) as [[u'|e'] w];
      cbn [fst] in *; [discriminate Ha | exact Ha].
  - destruct bearer as [[key c|s|s]|]; cbn; try reflexivity.
    repeat (crack; cbn; try reflexivity).
Qed.

(** The sample doctor presents a token that claims the role of an
    administrator on a route open to administrators only. *)
Lemma sql_route_guards_witness :
  outcome (SqlRoutes.guards SqlAuthService.defaults [SqlMiddleware.ADMIN]
             (Some (Jwt.Signed "fallback-secret-change-in-production"
                      {| Jwt.payload :=
                           SqlAuthService.JWTPayload "u-doc" "dr.mwalimu@afyatrack.com"
                                                     "admin";
                         Jwt.iat := 1699999900; Jwt.exp := Some 1700604700;
                         Jwt.iss := None; Jwt.aud := None |})))
    Sample.env Sample.sqlStore
  = Throw (AppError "Insufficient permissions" 403).
Proof.
  apply (sql_route_guards SqlAuthService.defaults [SqlMiddleware.ADMIN]
           (Some (Jwt.Signed "fallback-secret-change-in-production"
                    {| Jwt.payload :=
                         SqlAuthService.JWTPayload "u-doc" "dr.mwalimu@afyatrack.com"
                                                   "admin";
                       Jwt.iat := 1699999900; Jwt.exp := Some 1700604700;
                       Jwt.iss := None; Jwt.aud := None |}))
           Sample.env Sample.sqlStore) with (u := Sample.sqlDoctor).
  - vm_compute. reflexivity.
  - intros (role & [<-|[]] & Hrole). discriminate Hrole.
Defined.

(** ** Registration *)



(** ** The expiry a login advertises *)


